(** * PipeCD (tennashi/pipe): planner, stage configuration, ECS executor, CLI

    A shallow embedding of the Go sources

      - [pkg/config/deployment.go]                        (Module [Config])
      - [pkg/app/piped/planner/kubernetes/kubernetes.go]  (Module [K8sPlanner])
      - [pkg/app/piped/executor/ecs/deploy.go]            (Module [ECS])
      - [pkg/app/piped/cmd/piped/piped.go], the [ops] command (Module [Cli])

    together with the properties of them that the specification states.

    Conventions.  A Go [string] is a [string]; a [[]byte] is a
    [list Byte.byte]; [int], [int32] and [time.Duration] values are [Z];
    a nil-able pointer [*T] is an [option T]; an [error] is the text that
    its [Error()] method returns, and the nil error is [None].  A method
    with a pointer receiver returns the updated receiver next to its
    result. *)

From Stdlib Require Import ZArith List String Ascii Bool Lia.
Import ListNotations.

Local Open Scope string_scope.
Local Open Scope Z_scope.

(** ** Go basics *)

Definition error := string.

(** Outcome of an expression that may panic at run time. *)
Inductive Result (A : Type) : Type :=
| Return (a : A)
| Panic (msg : string).
Arguments Return {A} a.
Arguments Panic {A} msg.

(** [time.Duration]: a count of nanoseconds. *)
Definition Duration := Z.

Module time.
Definition Nanosecond : Duration := 1.
Definition Microsecond : Duration := 1000 * Nanosecond.
Definition Millisecond : Duration := 1000 * Microsecond.
Definition Second : Duration := 1000 * Millisecond.
Definition Minute : Duration := 60 * Second.
Definition Hour : Duration := 60 * Minute.
End time.

(** ** The [strings] package, as far as the sources use it *)

Module strings.

(** [strings.HasPrefix s prefix]. *)
Definition HasPrefix (s prefix : string) : bool := String.prefix prefix s.

(** [strings.Contains s substr]: [substr] starts at some position of [s]. *)
Fixpoint Contains (s substr : string) : bool :=
  String.prefix substr s ||
  match s with
  | EmptyString => false
  | String _ rest => Contains rest substr
  end.

(** [strings.Split s sep] for a separator of one byte, which is what both
    call sites pass (":" and "/").  The result is never empty: a string
    without the separator is returned whole. *)
Fixpoint Split (s : string) (sep : ascii) : list string :=
  match s with
  | EmptyString => [EmptyString]
  | String c rest =>
      if Ascii.eqb c sep then EmptyString :: Split rest sep
      else match Split rest sep with
           | [] => [String c EmptyString]
           | hd :: tl => String c hd :: tl
           end
  end.

(** [strings.Join elems sep]. *)
Fixpoint Join (elems : list string) (sep : string) : string :=
  match elems with
  | [] => EmptyString
  | [x] => x
  | x :: rest => x ++ sep ++ Join rest sep
  end.

End strings.

(** ** Package [model]: stage names

    [model.Stage] is a string type.  Its constants are declared in
    [pkg/model], outside the files embedded here, so their values are
    parameters of the development. *)

Module model.

Definition Stage := string.

Class StageNames : Type := {
  StageWait : Stage;
  StageWaitApproval : Stage;
  StageAnalysis : Stage;
  StageK8sPrimaryRollout : Stage;
  StageK8sCanaryRollout : Stage;
  StageK8sCanaryClean : Stage;
  StageK8sBaselineRollout : Stage;
  StageK8sBaselineClean : Stage;
  StageK8sTrafficRouting : Stage;
  StageTerraformSync : Stage;
  StageTerraformPlan : Stage;
  StageTerraformApply : Stage;
  StageCloudRunSync : Stage;
  StageCloudRunPromote : Stage;
  StageLambdaSync : Stage;
  StageLambdaPromote : Stage;
  StageLambdaCanaryRollout : Stage;
  StageECSSync : Stage
}.

(** [model.StageStatus], the part the executors return. *)
Inductive StageStatus : Type :=
| StageStatus_STAGE_NOT_STARTED_YET
| StageStatus_STAGE_RUNNING
| StageStatus_STAGE_SUCCESS
| StageStatus_STAGE_FAILURE
| StageStatus_STAGE_CANCELLED.

End model.

(** ** [encoding/json]

    [json.Unmarshal data v] fills the value [v] points to from [data] and
    may fail; on failure the fields decoded so far stay written.  What it
    computes from a given text is not modelled: each target type comes with
    its decoder. *)

Module json.
Definition RawMessage := list Byte.byte.

Class Unmarshaler (T : Type) : Type :=
  Unmarshal : list Byte.byte -> T -> T * option error.
End json.

(** The zero value of a Go type. *)
Class Zero (T : Type) : Type := zero : T.

#[global] Instance Zero_string : Zero string := "".
#[global] Instance Zero_Z : Zero Z := 0.
#[global] Instance Zero_list {A} : Zero (list A) := [].
#[global] Instance Zero_option {A} : Zero (option A) := None.

(** ** Package [config]: [pkg/config/deployment.go] *)

Module Config.
Import model.

Definition defaultWaitApprovalTimeout : Duration := 6 * time.Hour.
Definition defaultAnalysisQueryTimeout : Duration := 30 * time.Second.

(** Structs that deployment.go uses and other files of package [config]
    declare: the option structs of the Kubernetes, Terraform, Cloud Run and
    Lambda stages and the parts of an analysis.  Of [AnalysisMetrics] the
    code reads and writes the field [Timeout] only; [AnalysisMetricsFields]
    stands for its other fields. *)
Class Declared : Type := {
  K8sPrimaryRolloutStageOptions : Type;
  K8sCanaryRolloutStageOptions : Type;
  K8sCanaryCleanStageOptions : Type;
  K8sBaselineRolloutStageOptions : Type;
  K8sBaselineCleanStageOptions : Type;
  K8sTrafficRoutingStageOptions : Type;
  TerraformSyncStageOptions : Type;
  TerraformPlanStageOptions : Type;
  TerraformApplyStageOptions : Type;
  CloudRunSyncStageOptions : Type;
  CloudRunPromoteStageOptions : Type;
  LambdaSyncStageOptions : Type;
  LambdaCanaryRolloutStageOptions : Type;
  LambdaPromoteStageOptions : Type;
  AnalysisMetricsFields : Type;
  AnalysisLog : Type;
  AnalysisHTTP : Type;
  AnalysisDynamic : Type;
  Zero_K8sPrimaryRolloutStageOptions :: Zero K8sPrimaryRolloutStageOptions;
  Zero_K8sCanaryRolloutStageOptions :: Zero K8sCanaryRolloutStageOptions;
  Zero_K8sCanaryCleanStageOptions :: Zero K8sCanaryCleanStageOptions;
  Zero_K8sBaselineRolloutStageOptions :: Zero K8sBaselineRolloutStageOptions;
  Zero_K8sBaselineCleanStageOptions :: Zero K8sBaselineCleanStageOptions;
  Zero_K8sTrafficRoutingStageOptions :: Zero K8sTrafficRoutingStageOptions;
  Zero_TerraformSyncStageOptions :: Zero TerraformSyncStageOptions;
  Zero_TerraformPlanStageOptions :: Zero TerraformPlanStageOptions;
  Zero_TerraformApplyStageOptions :: Zero TerraformApplyStageOptions;
  Zero_CloudRunSyncStageOptions :: Zero CloudRunSyncStageOptions;
  Zero_CloudRunPromoteStageOptions :: Zero CloudRunPromoteStageOptions;
  Zero_LambdaSyncStageOptions :: Zero LambdaSyncStageOptions;
  Zero_LambdaCanaryRolloutStageOptions :: Zero LambdaCanaryRolloutStageOptions;
  Zero_LambdaPromoteStageOptions :: Zero LambdaPromoteStageOptions;
  Zero_AnalysisDynamic :: Zero AnalysisDynamic
}.

Record DeploymentCommitMatcher : Type := {
  cm_QuickSync : string;
  cm_Pipeline : string
}.

Record SealedSecretMapping : Type := {
  ssm_Path : string;
  ssm_OutFilename : string;
  ssm_OutDir : string
}.

Record WaitStageOptions : Type := {
  w_Duration : Duration
}.

Record WaitApprovalStageOptions : Type := {
  wa_Timeout : Duration;
  wa_Approvers : list string
}.

Record AnalysisTemplateRef : Type := {
  atr_Name : string;
  atr_Args : list (string * string)
}.

#[global] Instance Zero_WaitStageOptions : Zero WaitStageOptions :=
  {| w_Duration := 0 |}.
#[global] Instance Zero_WaitApprovalStageOptions : Zero WaitApprovalStageOptions :=
  {| wa_Timeout := 0; wa_Approvers := [] |}.

Section Deployment.

Context `{D : Declared}.

Record AnalysisMetrics : Type := {
  am_Timeout : Duration;
  am_fields : AnalysisMetricsFields
}.

Record TemplatableAnalysisMetrics : Type := {
  tam_AnalysisMetrics : AnalysisMetrics;
  tam_Template : AnalysisTemplateRef
}.

Record TemplatableAnalysisLog : Type := {
  tal_AnalysisLog : AnalysisLog;
  tal_Template : AnalysisTemplateRef
}.

Record TemplatableAnalysisHTTP : Type := {
  tah_AnalysisHTTP : AnalysisHTTP;
  tah_Template : AnalysisTemplateRef
}.

Record AnalysisStageOptions : Type := {
  a_Duration : Duration;
  a_RestartThreshold : Z;
  a_Metrics : list TemplatableAnalysisMetrics;
  a_Logs : list TemplatableAnalysisLog;
  a_Https : list TemplatableAnalysisHTTP;
  a_Dynamic : AnalysisDynamic
}.

#[global] Instance Zero_AnalysisStageOptions : Zero AnalysisStageOptions :=
  {| a_Duration := 0; a_RestartThreshold := 0; a_Metrics := [];
     a_Logs := []; a_Https := []; a_Dynamic := zero |}.

(** [PipelineStage]: one optional pointer per stage kind. *)
Record PipelineStage : Type := {
  ps_Id : string;
  ps_Name : Stage;
  ps_Desc : string;
  ps_Timeout : Duration;
  ps_WaitStageOptions : option WaitStageOptions;
  ps_WaitApprovalStageOptions : option WaitApprovalStageOptions;
  ps_AnalysisStageOptions : option AnalysisStageOptions;
  ps_K8sPrimaryRolloutStageOptions : option K8sPrimaryRolloutStageOptions;
  ps_K8sCanaryRolloutStageOptions : option K8sCanaryRolloutStageOptions;
  ps_K8sCanaryCleanStageOptions : option K8sCanaryCleanStageOptions;
  ps_K8sBaselineRolloutStageOptions : option K8sBaselineRolloutStageOptions;
  ps_K8sBaselineCleanStageOptions : option K8sBaselineCleanStageOptions;
  ps_K8sTrafficRoutingStageOptions : option K8sTrafficRoutingStageOptions;
  ps_TerraformSyncStageOptions : option TerraformSyncStageOptions;
  ps_TerraformPlanStageOptions : option TerraformPlanStageOptions;
  ps_TerraformApplyStageOptions : option TerraformApplyStageOptions;
  ps_CloudRunSyncStageOptions : option CloudRunSyncStageOptions;
  ps_CloudRunPromoteStageOptions : option CloudRunPromoteStageOptions;
  ps_LambdaSyncStageOptions : option LambdaSyncStageOptions;
  ps_LambdaCanaryRolloutStageOptions : option LambdaCanaryRolloutStageOptions;
  ps_LambdaPromoteStageOptions : option LambdaPromoteStageOptions
}.

#[global] Instance Zero_PipelineStage : Zero PipelineStage :=
  Build_PipelineStage "" "" "" 0
    None None None None None None None None None None None None None None None None None.

Record genericPipelineStage : Type := {
  gs_Id : string;
  gs_Name : Stage;
  gs_Desc : string;
  gs_Timeout : Duration;
  gs_With : json.RawMessage
}.

#[global] Instance Zero_genericPipelineStage : Zero genericPipelineStage :=
  {| gs_Id := ""; gs_Name := ""; gs_Desc := ""; gs_Timeout := 0; gs_With := [] |}.

Record DeploymentPipeline : Type := {
  dp_Stages : list PipelineStage
}.

Record GenericDeploymentSpec : Type := {
  CommitMatcher : DeploymentCommitMatcher;
  Pipeline : option DeploymentPipeline;
  SealedSecrets : list SealedSecretMapping;
  TriggerPaths : list string;
  Timeout : Duration
}.

(** Assignments to single fields. *)

Definition set_Timeout (t : Duration) (s : GenericDeploymentSpec) : GenericDeploymentSpec :=
  {| CommitMatcher := CommitMatcher s; Pipeline := Pipeline s;
     SealedSecrets := SealedSecrets s; TriggerPaths := TriggerPaths s;
     Timeout := t |}.

Definition set_wa_Timeout (t : Duration) (o : WaitApprovalStageOptions) : WaitApprovalStageOptions :=
  {| wa_Timeout := t; wa_Approvers := wa_Approvers o |}.

Definition set_am_Timeout (t : Duration) (m : TemplatableAnalysisMetrics) : TemplatableAnalysisMetrics :=
  {| tam_AnalysisMetrics :=
       {| am_Timeout := t; am_fields := am_fields (tam_AnalysisMetrics m) |};
     tam_Template := tam_Template m |}.

Definition set_a_Metrics (ms : list TemplatableAnalysisMetrics) (a : AnalysisStageOptions) : AnalysisStageOptions :=
  {| a_Duration := a_Duration a; a_RestartThreshold := a_RestartThreshold a;
     a_Metrics := ms; a_Logs := a_Logs a; a_Https := a_Https a;
     a_Dynamic := a_Dynamic a |}.

Definition set_envelope (gs : genericPipelineStage) (s : PipelineStage) : PipelineStage :=
  let '(Build_PipelineStage _ _ _ _ o0 o1 o2 o3 o4 o5 o6 o7 o8 o9 o10 o11 o12 o13 o14 o15 o16) := s in
  Build_PipelineStage (gs_Id gs) (gs_Name gs) (gs_Desc gs) (gs_Timeout gs)
    o0 o1 o2 o3 o4 o5 o6 o7 o8 o9 o10 o11 o12 o13 o14 o15 o16.

Definition set_WaitStageOptions (p : option WaitStageOptions) (s : PipelineStage) : PipelineStage :=
  let '(Build_PipelineStage i n d t _ o1 o2 o3 o4 o5 o6 o7 o8 o9 o10 o11 o12 o13 o14 o15 o16) := s in
  Build_PipelineStage i n d t p o1 o2 o3 o4 o5 o6 o7 o8 o9 o10 o11 o12 o13 o14 o15 o16.

Definition set_WaitApprovalStageOptions (p : option WaitApprovalStageOptions) (s : PipelineStage) : PipelineStage :=
  let '(Build_PipelineStage i n d t o0 _ o2 o3 o4 o5 o6 o7 o8 o9 o10 o11 o12 o13 o14 o15 o16) := s in
  Build_PipelineStage i n d t o0 p o2 o3 o4 o5 o6 o7 o8 o9 o10 o11 o12 o13 o14 o15 o16.

Definition set_AnalysisStageOptions (p : option AnalysisStageOptions) (s : PipelineStage) : PipelineStage :=
  let '(Build_PipelineStage i n d t o0 o1 _ o3 o4 o5 o6 o7 o8 o9 o10 o11 o12 o13 o14 o15 o16) := s in
  Build_PipelineStage i n d t o0 o1 p o3 o4 o5 o6 o7 o8 o9 o10 o11 o12 o13 o14 o15 o16.

Definition set_K8sPrimaryRolloutStageOptions (p : option K8sPrimaryRolloutStageOptions) (s : PipelineStage) : PipelineStage :=
  let '(Build_PipelineStage i n d t o0 o1 o2 _ o4 o5 o6 o7 o8 o9 o10 o11 o12 o13 o14 o15 o16) := s in
  Build_PipelineStage i n d t o0 o1 o2 p o4 o5 o6 o7 o8 o9 o10 o11 o12 o13 o14 o15 o16.

Definition set_K8sCanaryRolloutStageOptions (p : option K8sCanaryRolloutStageOptions) (s : PipelineStage) : PipelineStage :=
  let '(Build_PipelineStage i n d t o0 o1 o2 o3 _ o5 o6 o7 o8 o9 o10 o11 o12 o13 o14 o15 o16) := s in
  Build_PipelineStage i n d t o0 o1 o2 o3 p o5 o6 o7 o8 o9 o10 o11 o12 o13 o14 o15 o16.

Definition set_K8sCanaryCleanStageOptions (p : option K8sCanaryCleanStageOptions) (s : PipelineStage) : PipelineStage :=
  let '(Build_PipelineStage i n d t o0 o1 o2 o3 o4 _ o6 o7 o8 o9 o10 o11 o12 o13 o14 o15 o16) := s in
  Build_PipelineStage i n d t o0 o1 o2 o3 o4 p o6 o7 o8 o9 o10 o11 o12 o13 o14 o15 o16.

Definition set_K8sBaselineRolloutStageOptions (p : option K8sBaselineRolloutStageOptions) (s : PipelineStage) : PipelineStage :=
  let '(Build_PipelineStage i n d t o0 o1 o2 o3 o4 o5 _ o7 o8 o9 o10 o11 o12 o13 o14 o15 o16) := s in
  Build_PipelineStage i n d t o0 o1 o2 o3 o4 o5 p o7 o8 o9 o10 o11 o12 o13 o14 o15 o16.

Definition set_K8sBaselineCleanStageOptions (p : option K8sBaselineCleanStageOptions) (s : PipelineStage) : PipelineStage :=
  let '(Build_PipelineStage i n d t o0 o1 o2 o3 o4 o5 o6 _ o8 o9 o10 o11 o12 o13 o14 o15 o16) := s in
  Build_PipelineStage i n d t o0 o1 o2 o3 o4 o5 o6 p o8 o9 o10 o11 o12 o13 o14 o15 o16.

Definition set_K8sTrafficRoutingStageOptions (p : option K8sTrafficRoutingStageOptions) (s : PipelineStage) : PipelineStage :=
  let '(Build_PipelineStage i n d t o0 o1 o2 o3 o4 o5 o6 o7 _ o9 o10 o11 o12 o13 o14 o15 o16) := s in
  Build_PipelineStage i n d t o0 o1 o2 o3 o4 o5 o6 o7 p o9 o10 o11 o12 o13 o14 o15 o16.

Definition set_TerraformSyncStageOptions (p : option TerraformSyncStageOptions) (s : PipelineStage) : PipelineStage :=
  let '(Build_PipelineStage i n d t o0 o1 o2 o3 o4 o5 o6 o7 o8 _ o10 o11 o12 o13 o14 o15 o16) := s in
  Build_PipelineStage i n d t o0 o1 o2 o3 o4 o5 o6 o7 o8 p o10 o11 o12 o13 o14 o15 o16.

Definition set_TerraformPlanStageOptions (p : option TerraformPlanStageOptions) (s : PipelineStage) : PipelineStage :=
  let '(Build_PipelineStage i n d t o0 o1 o2 o3 o4 o5 o6 o7 o8 o9 _ o11 o12 o13 o14 o15 o16) := s in
  Build_PipelineStage i n d t o0 o1 o2 o3 o4 o5 o6 o7 o8 o9 p o11 o12 o13 o14 o15 o16.

Definition set_TerraformApplyStageOptions (p : option TerraformApplyStageOptions) (s : PipelineStage) : PipelineStage :=
  let '(Build_PipelineStage i n d t o0 o1 o2 o3 o4 o5 o6 o7 o8 o9 o10 _ o12 o13 o14 o15 o16) := s in
  Build_PipelineStage i n d t o0 o1 o2 o3 o4 o5 o6 o7 o8 o9 o10 p o12 o13 o14 o15 o16.

Definition set_CloudRunSyncStageOptions (p : option CloudRunSyncStageOptions) (s : PipelineStage) : PipelineStage :=
  let '(Build_PipelineStage i n d t o0 o1 o2 o3 o4 o5 o6 o7 o8 o9 o10 o11 _ o13 o14 o15 o16) := s in
  Build_PipelineStage i n d t o0 o1 o2 o3 o4 o5 o6 o7 o8 o9 o10 o11 p o13 o14 o15 o16.

Definition set_CloudRunPromoteStageOptions (p : option CloudRunPromoteStageOptions) (s : PipelineStage) : PipelineStage :=
  let '(Build_PipelineStage i n d t o0 o1 o2 o3 o4 o5 o6 o7 o8 o9 o10 o11 o12 _ o14 o15 o16) := s in
  Build_PipelineStage i n d t o0 o1 o2 o3 o4 o5 o6 o7 o8 o9 o10 o11 o12 p o14 o15 o16.

Definition set_LambdaSyncStageOptions (p : option LambdaSyncStageOptions) (s : PipelineStage) : PipelineStage :=
  let '(Build_PipelineStage i n d t o0 o1 o2 o3 o4 o5 o6 o7 o8 o9 o10 o11 o12 o13 _ o15 o16) := s in
  Build_PipelineStage i n d t o0 o1 o2 o3 o4 o5 o6 o7 o8 o9 o10 o11 o12 o13 p o15 o16.

Definition set_LambdaCanaryRolloutStageOptions (p : option LambdaCanaryRolloutStageOptions) (s : PipelineStage) : PipelineStage :=
  let '(Build_PipelineStage i n d t o0 o1 o2 o3 o4 o5 o6 o7 o8 o9 o10 o11 o12 o13 o14 _ o16) := s in
  Build_PipelineStage i n d t o0 o1 o2 o3 o4 o5 o6 o7 o8 o9 o10 o11 o12 o13 o14 p o16.

Definition set_LambdaPromoteStageOptions (p : option LambdaPromoteStageOptions) (s : PipelineStage) : PipelineStage :=
  let '(Build_PipelineStage i n d t o0 o1 o2 o3 o4 o5 o6 o7 o8 o9 o10 o11 o12 o13 o14 o15 _) := s in
  Build_PipelineStage i n d t o0 o1 o2 o3 o4 o5 o6 o7 o8 o9 o10 o11 o12 o13 o14 o15 p.

(** The decoders of the structs that [UnmarshalJSON] fills. *)
Class Decoders : Type := {
  Unmarshal_genericPipelineStage :: json.Unmarshaler genericPipelineStage;
  Unmarshal_WaitStageOptions :: json.Unmarshaler WaitStageOptions;
  Unmarshal_WaitApprovalStageOptions :: json.Unmarshaler WaitApprovalStageOptions;
  Unmarshal_AnalysisStageOptions :: json.Unmarshaler AnalysisStageOptions;
  Unmarshal_K8sPrimaryRolloutStageOptions :: json.Unmarshaler K8sPrimaryRolloutStageOptions;
  Unmarshal_K8sCanaryRolloutStageOptions :: json.Unmarshaler K8sCanaryRolloutStageOptions;
  Unmarshal_K8sCanaryCleanStageOptions :: json.Unmarshaler K8sCanaryCleanStageOptions;
  Unmarshal_K8sBaselineRolloutStageOptions :: json.Unmarshaler K8sBaselineRolloutStageOptions;
  Unmarshal_K8sBaselineCleanStageOptions :: json.Unmarshaler K8sBaselineCleanStageOptions;
  Unmarshal_K8sTrafficRoutingStageOptions :: json.Unmarshaler K8sTrafficRoutingStageOptions;
  Unmarshal_TerraformSyncStageOptions :: json.Unmarshaler TerraformSyncStageOptions;
  Unmarshal_TerraformPlanStageOptions :: json.Unmarshaler TerraformPlanStageOptions;
  Unmarshal_TerraformApplyStageOptions :: json.Unmarshaler TerraformApplyStageOptions;
  Unmarshal_CloudRunSyncStageOptions :: json.Unmarshaler CloudRunSyncStageOptions;
  Unmarshal_CloudRunPromoteStageOptions :: json.Unmarshaler CloudRunPromoteStageOptions;
  Unmarshal_LambdaSyncStageOptions :: json.Unmarshaler LambdaSyncStageOptions;
  Unmarshal_LambdaCanaryRolloutStageOptions :: json.Unmarshaler LambdaCanaryRolloutStageOptions;
  Unmarshal_LambdaPromoteStageOptions :: json.Unmarshaler LambdaPromoteStageOptions
}.

Context `{N : StageNames} `{J : Decoders}.

(** [if len(gs.With) > 0 { err = json.Unmarshal(gs.With, p) }] where [p]
    points to [v]. *)
Definition unmarshalWith {T : Type} `{json.Unmarshaler T}
    (raw : json.RawMessage) (v : T) : T * option error :=
  if 0 <? Z.of_nat (List.length raw) then json.Unmarshal raw v else (v, None).

(** The loop over [s.AnalysisStageOptions.Metrics]. *)
Definition defaultMetricTimeout (m : TemplatableAnalysisMetrics) : TemplatableAnalysisMetrics :=
  if am_Timeout (tam_AnalysisMetrics m) <=? 0
  then set_am_Timeout defaultAnalysisQueryTimeout m
  else m.

Definition UnmarshalJSON (data : list Byte.byte) (s : PipelineStage)
    : PipelineStage * option error :=
  let '(gs, err) := json.Unmarshal data (zero : genericPipelineStage) in
  match err with
  | Some e => (s, Some e)
  | None =>
    let s := set_envelope gs s in
    if (ps_Name s =? StageWait)%string then
      let '(o, err) := unmarshalWith (gs_With gs) (zero : WaitStageOptions) in
      (set_WaitStageOptions (Some o) s, err)
    else if (ps_Name s =? StageWaitApproval)%string then
      let '(o, err) := unmarshalWith (gs_With gs) (zero : WaitApprovalStageOptions) in
      let o := if wa_Timeout o <=? 0
               then set_wa_Timeout defaultWaitApprovalTimeout o else o in
      (set_WaitApprovalStageOptions (Some o) s, err)
    else if (ps_Name s =? StageAnalysis)%string then
      let '(o, err) := unmarshalWith (gs_With gs) (zero : AnalysisStageOptions) in
      let o := set_a_Metrics (map defaultMetricTimeout (a_Metrics o)) o in
      (set_AnalysisStageOptions (Some o) s, err)
    else if (ps_Name s =? StageK8sPrimaryRollout)%string then
      let '(o, err) := unmarshalWith (gs_With gs) (zero : K8sPrimaryRolloutStageOptions) in
      (set_K8sPrimaryRolloutStageOptions (Some o) s, err)
    else if (ps_Name s =? StageK8sCanaryRollout)%string then
      let '(o, err) := unmarshalWith (gs_With gs) (zero : K8sCanaryRolloutStageOptions) in
      (set_K8sCanaryRolloutStageOptions (Some o) s, err)
    else if (ps_Name s =? StageK8sCanaryClean)%string then
      let '(o, err) := unmarshalWith (gs_With gs) (zero : K8sCanaryCleanStageOptions) in
      (set_K8sCanaryCleanStageOptions (Some o) s, err)
    else if (ps_Name s =? StageK8sBaselineRollout)%string then
      let '(o, err) := unmarshalWith (gs_With gs) (zero : K8sBaselineRolloutStageOptions) in
      (set_K8sBaselineRolloutStageOptions (Some o) s, err)
    else if (ps_Name s =? StageK8sBaselineClean)%string then
      let '(o, err) := unmarshalWith (gs_With gs) (zero : K8sBaselineCleanStageOptions) in
      (set_K8sBaselineCleanStageOptions (Some o) s, err)
    else if (ps_Name s =? StageK8sTrafficRouting)%string then
      let '(o, err) := unmarshalWith (gs_With gs) (zero : K8sTrafficRoutingStageOptions) in
      (set_K8sTrafficRoutingStageOptions (Some o) s, err)
    else if (ps_Name s =? StageTerraformSync)%string then
      let '(o, err) := unmarshalWith (gs_With gs) (zero : TerraformSyncStageOptions) in
      (set_TerraformSyncStageOptions (Some o) s, err)
    else if (ps_Name s =? StageTerraformPlan)%string then
      let '(o, err) := unmarshalWith (gs_With gs) (zero : TerraformPlanStageOptions) in
      (set_TerraformPlanStageOptions (Some o) s, err)
    else if (ps_Name s =? StageTerraformApply)%string then
      let '(o, err) := unmarshalWith (gs_With gs) (zero : TerraformApplyStageOptions) in
      (set_TerraformApplyStageOptions (Some o) s, err)
    else if (ps_Name s =? StageCloudRunSync)%string then
      let '(o, err) := unmarshalWith (gs_With gs) (zero : CloudRunSyncStageOptions) in
      (set_CloudRunSyncStageOptions (Some o) s, err)
    else if (ps_Name s =? StageCloudRunPromote)%string then
      let '(o, err) := unmarshalWith (gs_With gs) (zero : CloudRunPromoteStageOptions) in
      (set_CloudRunPromoteStageOptions (Some o) s, err)
    else if (ps_Name s =? StageLambdaSync)%string then
      let '(o, err) := unmarshalWith (gs_With gs) (zero : LambdaSyncStageOptions) in
      (set_LambdaSyncStageOptions (Some o) s, err)
    else if (ps_Name s =? StageLambdaPromote)%string then
      let '(o, err) := unmarshalWith (gs_With gs) (zero : LambdaPromoteStageOptions) in
      (set_LambdaPromoteStageOptions (Some o) s, err)
    else if (ps_Name s =? StageLambdaCanaryRollout)%string then
      let '(o, err) := unmarshalWith (gs_With gs) (zero : LambdaCanaryRolloutStageOptions) in
      (set_LambdaCanaryRolloutStageOptions (Some o) s, err)
    else (s, Some ("unsupported stage name: " ++ ps_Name s))
  end.

Definition AnalysisStageOptions_Validate (a : AnalysisStageOptions) : option error :=
  if a_Duration a =? 0
  then Some "the ANALYSIS stage requires duration field"
  else None.

(** The loop of [Validate] over the stages of the pipeline. *)
Fixpoint validateStages (stages : list PipelineStage) : option error :=
  match stages with
  | [] => None
  | stage :: rest =>
      match ps_AnalysisStageOptions stage with
      | Some a =>
          match AnalysisStageOptions_Validate a with
          | Some err => Some err
          | None => validateStages rest
          end
      | None => validateStages rest
      end
  end.

Definition Validate (s : GenericDeploymentSpec) : GenericDeploymentSpec * option error :=
  let s := if Timeout s =? 0 then set_Timeout (6 * time.Hour) s else s in
  match Pipeline s with
  | Some p => (s, validateStages (dp_Stages p))
  | None => (s, None)
  end.

(** [s.Pipeline.Stages[index]] panics when [index] is outside the slice;
    the comparison before it is on [int(index)], which is [index] itself. *)
Definition GetStage (s : GenericDeploymentSpec) (index : Z) : Result (PipelineStage * bool) :=
  match Pipeline s with
  | None => Return (zero, false)
  | Some p =>
      if index >=? Z.of_nat (List.length (dp_Stages p)) then Return (zero, false)
      else if index <? 0 then Panic "index out of range"
      else match nth_error (dp_Stages p) (Z.to_nat index) with
           | Some stage => Return (stage, true)
           | None => Panic "index out of range"
           end
  end.

Definition HasStage (s : GenericDeploymentSpec) (stage : Stage) : bool :=
  match Pipeline s with
  | None => false
  | Some p => existsb (fun s => (ps_Name s =? stage)%string) (dp_Stages p)
  end.

(** *** The cases of the switch in [UnmarshalJSON]

    Used to state what [UnmarshalJSON] does: the case a stage name selects
    (the first label equal to it, in the order of the source), whether the
    pointer of a case is set, whether a call left it as it was, and the
    error of decoding [with] for a case. *)

Inductive StageCase : Type :=
| CaseWait
| CaseWaitApproval
| CaseAnalysis
| CaseK8sPrimaryRollout
| CaseK8sCanaryRollout
| CaseK8sCanaryClean
| CaseK8sBaselineRollout
| CaseK8sBaselineClean
| CaseK8sTrafficRouting
| CaseTerraformSync
| CaseTerraformPlan
| CaseTerraformApply
| CaseCloudRunSync
| CaseCloudRunPromote
| CaseLambdaSync
| CaseLambdaPromote
| CaseLambdaCanaryRollout
.

Definition caseLabels : list (Stage * StageCase) :=
  [(StageWait, CaseWait);
   (StageWaitApproval, CaseWaitApproval);
   (StageAnalysis, CaseAnalysis);
   (StageK8sPrimaryRollout, CaseK8sPrimaryRollout);
   (StageK8sCanaryRollout, CaseK8sCanaryRollout);
   (StageK8sCanaryClean, CaseK8sCanaryClean);
   (StageK8sBaselineRollout, CaseK8sBaselineRollout);
   (StageK8sBaselineClean, CaseK8sBaselineClean);
   (StageK8sTrafficRouting, CaseK8sTrafficRouting);
   (StageTerraformSync, CaseTerraformSync);
   (StageTerraformPlan, CaseTerraformPlan);
   (StageTerraformApply, CaseTerraformApply);
   (StageCloudRunSync, CaseCloudRunSync);
   (StageCloudRunPromote, CaseCloudRunPromote);
   (StageLambdaSync, CaseLambdaSync);
   (StageLambdaPromote, CaseLambdaPromote);
   (StageLambdaCanaryRollout, CaseLambdaCanaryRollout)].

Definition switchCase (name : Stage) : option StageCase :=
  option_map snd (find (fun lc => (name =? fst lc)%string) caseLabels).





End Deployment.

#[global] Existing Instances
  Unmarshal_genericPipelineStage
  Unmarshal_WaitStageOptions
  Unmarshal_WaitApprovalStageOptions
  Unmarshal_AnalysisStageOptions
  Unmarshal_K8sPrimaryRolloutStageOptions
  Unmarshal_K8sCanaryRolloutStageOptions
  Unmarshal_K8sCanaryCleanStageOptions
  Unmarshal_K8sBaselineRolloutStageOptions
  Unmarshal_K8sBaselineCleanStageOptions
  Unmarshal_K8sTrafficRoutingStageOptions
  Unmarshal_TerraformSyncStageOptions
  Unmarshal_TerraformPlanStageOptions
  Unmarshal_TerraformApplyStageOptions
  Unmarshal_CloudRunSyncStageOptions
  Unmarshal_CloudRunPromoteStageOptions
  Unmarshal_LambdaSyncStageOptions
  Unmarshal_LambdaCanaryRolloutStageOptions
  Unmarshal_LambdaPromoteStageOptions.

End Config.

(** ** The [regexp] package, for the patterns the planner uses

    A pattern is a sequence of items: a literal ASCII byte, [.] (any
    character but a line feed), [\d], an escaped punctuation byte, each
    optionally followed by [+], and the assertions [^] and [$] (begin and
    end of the text, no multi-line flag).  Other syntax is outside this
    fragment and [Compile] gives [None] for it.  The text is read as the
    package reads it, one UTF-8 character at a time: a well-formed sequence
    of up to four bytes is one character, and a byte that begins no
    well-formed sequence is a character of its own (the replacement
    character, of width one). *)

Module regexp.

Inductive atom : Type :=
| Lit (c : ascii)
| AnyChar
| Digit.

Inductive token : Type :=
| TAtom (a : atom)
| TBegin
| TEnd
| TPlus.

Inductive item : Type :=
| BeginText
| EndText
| One (a : atom)
| OneOrMore (a : atom).

Definition Regexp := list item.

Definition isDigit (c : ascii) : bool :=
  let n := nat_of_ascii c in (48 <=? n)%nat && (n <=? 57)%nat.

Definition isLetter (c : ascii) : bool :=
  let n := nat_of_ascii c in
  ((65 <=? n)%nat && (n <=? 90)%nat) || ((97 <=? n)%nat && (n <=? 122)%nat).

(** Bytes that have a meaning of their own when not escaped and that the
    fragment does not cover. *)
Definition unsupportedMeta (c : ascii) : bool :=
  existsb (Ascii.eqb c) ["*"; "?"; "("; ")"; "["; "]"; "{"; "}"; "|"]%char.

Fixpoint lex (escaped : bool) (pattern : string) : option (list token) :=
  match pattern with
  | EmptyString => if escaped then None else Some []
  | String c rest =>
      if escaped then
        if Ascii.eqb c "d" then option_map (cons (TAtom Digit)) (lex false rest)
        else if isLetter c || isDigit c || (128 <=? nat_of_ascii c)%nat then None
        else option_map (cons (TAtom (Lit c))) (lex false rest)
      else if Ascii.eqb c "\" then lex true rest
      else if Ascii.eqb c "^" then option_map (cons TBegin) (lex false rest)
      else if Ascii.eqb c "$" then option_map (cons TEnd) (lex false rest)
      else if Ascii.eqb c "." then option_map (cons (TAtom AnyChar)) (lex false rest)
      else if Ascii.eqb c "+" then option_map (cons TPlus) (lex false rest)
      else if unsupportedMeta c || (128 <=? nat_of_ascii c)%nat then None
      else option_map (cons (TAtom (Lit c))) (lex false rest)
  end.

Fixpoint group (ts : list token) : option Regexp :=
  match ts with
  | [] => Some []
  | TAtom a :: TPlus :: rest => option_map (cons (OneOrMore a)) (group rest)
  | TAtom a :: rest => option_map (cons (One a)) (group rest)
  | TBegin :: rest => option_map (cons BeginText) (group rest)
  | TEnd :: rest => option_map (cons EndText) (group rest)
  | TPlus :: _ => None
  end.

(** [regexp.Compile], [None] standing for an error. *)
Definition Compile (pattern : string) : option Regexp :=
  match lex false pattern with
  | Some ts => group ts
  | None => None
  end.

(** [utf8.DecodeRuneInString], the width of the first character of [text]
    in bytes: one for an ASCII byte and for a byte that begins no
    well-formed sequence, else the length of the sequence; zero for the
    empty text. *)
Definition byteBetween (lo hi : nat) (c : ascii) : bool :=
  (lo <=? nat_of_ascii c)%nat && (nat_of_ascii c <=? hi)%nat.

Definition runeWidth (text : string) : nat :=
  match text with
  | EmptyString => 0%nat
  | String s0 rest =>
      let b := nat_of_ascii s0 in
      if (b <? 194)%nat then 1%nat
      else if (b <=? 223)%nat then
        match rest with
        | String s1 _ => if byteBetween 128 191 s1 then 2%nat else 1%nat
        | _ => 1%nat
        end
      else if (b <=? 239)%nat then
        let lo := (if b =? 224 then 160 else 128)%nat in
        let hi := (if b =? 237 then 159 else 191)%nat in
        match rest with
        | String s1 (String s2 _) =>
            if byteBetween lo hi s1 && byteBetween 128 191 s2 then 3%nat else 1%nat
        | _ => 1%nat
        end
      else if (b <=? 244)%nat then
        let lo := (if b =? 240 then 144 else 128)%nat in
        let hi := (if b =? 244 then 143 else 191)%nat in
        match rest with
        | String s1 (String s2 (String s3 _)) =>
            if byteBetween lo hi s1 && byteBetween 128 191 s2 && byteBetween 128 191 s3
            then 4%nat else 1%nat
        | _ => 1%nat
        end
      else 1%nat
  end.

Fixpoint dropBytes (n : nat) (text : string) : string :=
  match n, text with
  | O, _ => text
  | S _, EmptyString => EmptyString
  | S k, String _ rest => dropBytes k rest
  end.

(** Does the atom take the character that begins with the byte [c]?  The
    literals and the digits are ASCII, and so is the line feed: the first
    byte decides. *)
Definition accepts (a : atom) (c : ascii) : bool :=
  match a with
  | Lit l => Ascii.eqb c l
  | AnyChar => negb (Ascii.eqb c "010")
  | Digit => isDigit c
  end.

(** Does [re] match a prefix of [text]?  [atStart] tells whether [text]
    starts where the whole subject starts.  An atom that takes a character
    moves on by the width of that character. *)
Fixpoint matchHere (re : Regexp) (atStart : bool) (text : string) {struct re} : bool :=
  match re with
  | [] => true
  | BeginText :: rest => atStart && matchHere rest atStart text
  | EndText :: rest =>
      match text with
      | EmptyString => matchHere rest atStart text
      | String _ _ => false
      end
  | One a :: rest =>
      match text with
      | EmptyString => false
      | String c text' =>
          accepts a c && matchHere rest false (dropBytes (runeWidth text - 1)%nat text')
      end
  | OneOrMore a :: rest =>
      (fix more (skip : nat) (t : string) {struct t} : bool :=
         match t with
         | EmptyString => false
         | String c t' =>
             match skip with
             | S k => more k t'
             | O => accepts a c &&
                    (matchHere rest false (dropBytes (runeWidth t - 1)%nat t')
                     || more (runeWidth t - 1)%nat t')
             end
         end) O text
  end.

(** The search for a match that starts at some character of [text]; [skip]
    counts the bytes left of the character that is stepped over. *)
Fixpoint search (re : Regexp) (atStart : bool) (skip : nat) (text : string)
    {struct text} : bool :=
  match skip with
  | S k =>
      match text with
      | EmptyString => false
      | String _ text' => search re false k text'
      end
  | O =>
      matchHere re atStart text ||
      match text with
      | EmptyString => false
      | String _ text' => search re false (runeWidth text - 1)%nat text'
      end
  end.

(** [Regexp.MatchString]: is there a match anywhere in [text]? *)
Definition MatchString (re : Regexp) (text : string) : bool :=
  search re true O text.

End regexp.

(** ** Effects

    Code that reads the clock, the file system, Git or a cloud service is a
    function from the state of the world to a result and the next state. *)

Definition M (W A : Type) : Type := W -> A * W.

Definition ret {W A : Type} (a : A) : M W A := fun w => (a, w).

Definition bind {W A B : Type} (m : M W A) (k : A -> M W B) : M W B :=
  fun w => let '(a, w') := m w in k a w'.

Declare Scope go_scope.
Delimit Scope go_scope with go.
Notation "x <- m ;; k" := (bind m (fun x => k))
  (at level 100, m at next level, right associativity) : go_scope.

(** Two runs compared.  [R] relates the states of the world of the two
    runs; two computations keep the worlds related when they lead from
    related states to related states, and answer alike when, moreover,
    their results are equal. *)
Definition keepsRelated {W A : Type} (R : W -> W -> Prop) (m1 m2 : M W A) : Prop :=
  forall w1 w2, R w1 w2 -> R (snd (m1 w1)) (snd (m2 w2)).

Definition answerAlike {W A : Type} (R : W -> W -> Prop) (m1 m2 : M W A) : Prop :=
  forall w1 w2, R w1 w2 ->
    fst (m1 w1) = fst (m2 w2) /\ R (snd (m1 w1)) (snd (m2 w2)).

(** ** The Kubernetes cloud provider, as the planner sees it

    Modelled from the spec: package [cloudprovider/kubernetes] is not among
    the embedded files.  The spec gives a manifest a key (api-group, kind,
    namespace, name) and makes the output of a diff "a list of
    JSON-path-rooted difference records (path, before, after)".  The three
    lookups on such a list follow their names and the arguments the planner
    passes: a path prefix for [FindByPrefix], a regular expression for
    [FindAll] (all matching records) and [Find] (the first one). *)

Module provider.

Record ResourceKey : Type := {
  APIVersion : string;
  Kind : string;
  Namespace : string;
  Name : string
}.

#[global] Instance Zero_ResourceKey : Zero ResourceKey :=
  {| APIVersion := ""; Kind := ""; Namespace := ""; Name := "" |}.

Record DiffResult : Type := {
  Path : string;
  Before : string;
  After : string
}.

Definition DiffResultList := list DiffResult.

Definition FindByPrefix (l : DiffResultList) (prefix : string) : DiffResultList :=
  filter (fun d => strings.HasPrefix (Path d) prefix) l.

(** A pattern that does not compile makes the source panic; the planner
    passes a constant that compiles. *)
Definition FindAll (l : DiffResultList) (query : string) : DiffResultList :=
  match regexp.Compile query with
  | Some re => filter (fun d => regexp.MatchString re (Path d)) l
  | None => []
  end.

(** The three results of [Find], a pointer to the record, [found] and an
    error, as one value: [found] is true exactly when the pointer is set. *)
Inductive FindResult : Type :=
| Found (d : DiffResult)
| NotFound
| BadQuery (err : error).

Definition Find (l : DiffResultList) (query : string) : FindResult :=
  match regexp.Compile query with
  | Some re =>
      match find (fun d => regexp.MatchString re (Path d)) l with
      | Some d => Found d
      | None => NotFound
      end
  | None => BadQuery "error parsing regexp"
  end.

(** What else the planner takes from its surroundings: manifests with
    their key, the tests on a key, and the clock, which is part of the
    state of the world, [World]. *)
Class Kubernetes : Type := {
  World : Type;
  Time : Type;
  Repo : Type;
  KubernetesDeploymentInput : Type;
  Manifest : Type;
  Key : Manifest -> ResourceKey;
  Zero_Manifest :: Zero Manifest;
  IsDeployment : ResourceKey -> bool;
  IsConfigMap : ResourceKey -> bool;
  IsSecret : ResourceKey -> bool;
  time_Now : M World Time
}.

(** The access to manifests: the diff of two manifests below a path
    prefix, which stands for [provider.Diff old new (WithPathPrefix
    prefix)]; the provider value made by [NewProvider repoDir appDir input
    logger], with its [Init] and [LoadManifests]; [Checkout] on the Git
    repository.  The last three act on the state of the world. *)
Class ManifestAccess `{Kubernetes} : Type := {
  Diff : Manifest -> Manifest -> string -> DiffResultList;
  Provider_Init :
    string -> string -> KubernetesDeploymentInput -> M World (option error);
  Provider_LoadManifests :
    string -> string -> KubernetesDeploymentInput ->
    M World (list Manifest * option error);
  Repo_Checkout : Repo -> string -> M World (option error)
}.

End provider.

(** ** The Kubernetes planner: [pkg/app/piped/planner/kubernetes/kubernetes.go] *)

Module K8sPlanner.
Import provider.

(** The records of packages [model] and [planner] that [Plan] reads.
    Modelled from the spec: the packages are not among the embedded files;
    a deployment has an id, an application id and a trigger (commit hash,
    commit message, author, commander); the planner's input is the
    deployment, the working tree and the last successful commit hash, its
    output an ordered stage list and a description. *)

Record Commit : Type := {
  Hash : string;
  Message : string;
  Author : string
}.

Record DeploymentTrigger : Type := {
  trigger_Commit : Commit;
  Commander : string
}.

Record Deployment : Type := {
  Id : string;
  ApplicationId : string;
  Trigger : DeploymentTrigger
}.

Section Planner.

Context `{K : Kubernetes}.

(** The stage lists come from [buildPipeline] and
    [buildProgressivePipeline], which another file of the package defines;
    [PipelineStage] is [model.PipelineStage] and [DeploymentPipeline] is
    [config.DeploymentPipeline]. *)
Class PipelineBuilders : Type := {
  PipelineStage : Type;
  DeploymentPipeline : Type;
  buildPipeline : Time -> list PipelineStage;
  buildProgressivePipeline : option DeploymentPipeline -> Time -> list PipelineStage
}.

Context `{B : PipelineBuilders} {A : @ManifestAccess K}.

Record KubernetesDeploymentSpec : Type := {
  spec_Input : KubernetesDeploymentInput;
  spec_Pipeline : option DeploymentPipeline
}.

Record DeploymentConfig : Type := {
  config_KubernetesDeploymentSpec : option KubernetesDeploymentSpec
}.

Record Input : Type := {
  in_Deployment : Deployment;
  in_MostRecentSuccessfulCommitHash : string;
  in_DeploymentConfig : DeploymentConfig;
  in_Repo : Repo;
  in_RepoDir : string;
  in_AppDir : string
}.

Record Output : Type := {
  Stages : list PipelineStage;
  Description : string
}.

#[global] Instance Zero_Output : Zero Output :=
  {| Stages := []; Description := "" |}.

Definition set_Stages (st : list PipelineStage) (out : Output) : Output :=
  {| Stages := st; Description := Description out |}.

Definition set_Description (d : string) (out : Output) : Output :=
  {| Stages := Stages out; Description := d |}.

Fixpoint findWorkload (manifests : list Manifest) : Manifest * bool :=
  match manifests with
  | [] => (zero, false)
  | m :: rest =>
      if negb (IsDeployment (Key m)) then findWorkload rest
      else (m, true)
  end.

Definition findConfig (manifests : list Manifest) : list Manifest :=
  filter (fun m => negb (negb (IsConfigMap (Key m)) && negb (IsSecret (Key m))))
         manifests.

Definition last_of (l : list string) : string := List.last l "".

(** [parts[0]] and [paths[len(paths)-1]] cannot fail: [Split] returns at
    least one element. *)
Definition parseContainerImage (image : string) : string * string :=
  let parts := strings.Split image ":" in
  let tag := if (Z.of_nat (List.length parts) =? 2)
             then nth 1 parts "" else "" in
  let paths := strings.Split (nth 0 parts "") "/" in
  let name := last_of paths in
  (name, tag).

Definition containerImageQuery : string :=
  "^spec.template.spec.containers.\[\d+\].image$".

Definition describeImage (d : DiffResult) : string :=
  let '(beforeName, beforeTag) := parseContainerImage (Before d) in
  let '(afterName, afterTag) := parseContainerImage (After d) in
  if (beforeName =? afterName)%string
  then "image " ++ beforeName ++ " from " ++ beforeTag ++ " to " ++ afterTag
  else "image " ++ beforeName ++ ":" ++ beforeTag ++ " to " ++ afterName ++ ":" ++ afterTag.

Definition checkImageChange (diffList : DiffResultList) : string * bool :=
  let imageDiffs := FindAll diffList containerImageQuery in
  if Z.of_nat (List.length imageDiffs) =? 0 then ("", false)
  else
    let images := map describeImage imageDiffs in
    let desc := "Progressive deployment because of updating "
                ++ strings.Join images ", " ++ "." in
    (desc, true).

Definition replicasQuery : string := "^spec.replicas$".

(** [diff, found, _ := diffList.Find(replicasQuery)]: the error is dropped. *)
Definition checkReplicasChange (diffList : DiffResultList) : string * bool :=
  match Find diffList replicasQuery with
  | Found diff =>
      ("Scale workload from " ++ Before diff ++ " to " ++ After diff ++ ".", true)
  | NotFound | BadQuery _ => ("", false)
  end.

Definition decideStrategy (olds news : list Manifest) : bool * string :=
  let '(oldWorkload, ok) := findWorkload olds in
  if negb ok then
    (false, "Apply all manifests because it was unable to find the currently running workloads.")
  else
  let '(newWorkload, ok) := findWorkload news in
  if negb ok then
    (false, "Apply all manifests because it was unable to find workloads in the new manifests.")
  else
  let workloadDiffs := Diff oldWorkload newWorkload "spec" in
  let templateDiffs := FindByPrefix workloadDiffs "spec.template" in
  if Z.of_nat (List.length templateDiffs) >? 0 then
    let '(msg, changed) := checkImageChange templateDiffs in
    if changed then (true, msg)
    else (true, "Progressive deployment because pod template of workload "
                ++ Name (Key newWorkload) ++ " was changed.")
  else
  let '(msg, changed) := checkReplicasChange workloadDiffs in
  if changed then (false, msg)
  else (false, "Apply all manifests").

Local Open Scope go_scope.

(** [Plan] returns [out] and [err]; a bare [return] gives back what they
    hold at that point.  [time.Now()] is read where the source reads it. *)
Definition Plan (input : Input) : M World (Output * option error) :=
  let out : Output := zero in
  match config_KubernetesDeploymentSpec (in_DeploymentConfig input) with
  | None =>
      ret (out, Some "malfored deployment configuration: missing KubernetesDeploymentSpec")
  | Some cfg =>
    if (in_MostRecentSuccessfulCommitHash input =? "")%string then
      now <- time_Now ;;
      let out := set_Stages (buildPipeline now) out in
      let out := set_Description
        "Apply all manifests because it was unable to find the most recent successful commit." out in
      ret (out, None)
    else if strings.Contains (Message (trigger_Commit (Trigger (in_Deployment input))))
                             "/pipecd rollback " then
      now <- time_Now ;;
      let out := set_Stages (buildPipeline now) out in
      let out := set_Description
        ("Rollback from commit " ++ in_MostRecentSuccessfulCommitHash input ++ ".") out in
      ret (out, None)
    else
      let Init := Provider_Init (in_RepoDir input) (in_AppDir input) (spec_Input cfg) in
      let LoadManifests :=
        Provider_LoadManifests (in_RepoDir input) (in_AppDir input) (spec_Input cfg) in
      err <- Init ;;
      match err with
      | Some e => ret (out, Some e)
      | None =>
      r <- LoadManifests ;;
      let '(newManifests, err) := r in
      match err with
      | Some e => ret (out, Some ("failed to load new manifests: " ++ e))
      | None =>
      err <- Repo_Checkout (in_Repo input) (in_MostRecentSuccessfulCommitHash input) ;;
      match err with
      | Some e =>
          ret (out, Some ("failed to checkout to commit "
                          ++ in_MostRecentSuccessfulCommitHash input ++ ": " ++ e))
      | None =>
      r <- LoadManifests ;;
      let '(oldManifests, err) := r in
      match err with
      | Some e => ret (out, Some ("failed to load previously deployed manifests: " ++ e))
      | None =>
      let '(progressive, desc) := decideStrategy oldManifests newManifests in
      let out := set_Description desc out in
      if progressive then
        now <- time_Now ;;
        ret (set_Stages (buildProgressivePipeline (spec_Pipeline cfg) now) out, None)
      else
        now <- time_Now ;;
        ret (set_Stages (buildPipeline now) out, None)
      end end end end
  end.

(** Two runs of [Plan] compared, for worlds related by [R]: the outcomes
    have the same description and the same error and leave related worlds,
    and they are the same altogether when the clock answers alike in
    related worlds. *)
Definition sameOutcome (R : World -> World -> Prop)
    (r1 r2 : (Output * option error) * World) : Prop :=
  Description (fst (fst r1)) = Description (fst (fst r2)) /\
  snd (fst r1) = snd (fst r2) /\
  R (snd r1) (snd r2) /\
  (answerAlike R time_Now time_Now -> fst r1 = fst r2).

End Planner.
End K8sPlanner.

(** ** The ECS executor: [pkg/app/piped/executor/ecs/deploy.go] *)

Module ECS.
Import model.

(** The stage an executor is given ([model.PipelineStage]): its name and
    its status are what [Execute] reads. *)
Record PipelineStage : Type := {
  Name : string;
  Status : StageStatus
}.

Record ECSDeploymentInput : Type := {
  TaskDefinitionFile : string;
  ServiceDefinitionFile : string
}.

Record ECSDeploymentSpec : Type := {
  spec_Input : ECSDeploymentInput
}.

Record Config : Type := {
  ECSDeploymentSpec_of : option ECSDeploymentSpec
}.

(** What the runtime says when a nil pointer is read through. *)
Definition nilDereference : string :=
  "runtime error: invalid memory address or nil pointer dereference".

Section Executor.

(** Types of the packages around the executor, none of which is among the
    embedded files: what the world consists of besides the stage log, the
    context and the signal of a [StopSignal], the provider of deploy
    sources, the remaining fields of [executor.Input] and of a deploy
    source, the configuration of the cloud provider, and the two
    definitions that are synced. *)
Class Types : Type := {
  Surroundings : Type;
  Context_ : Type;
  StopSignalType : Type;
  DeploySourceProvider : Type;
  InputFields : Type;
  DeploySourceFields : Type;
  CloudProviderECSConfig : Type;
  TaskDefinition : Type;
  ServiceDefinition : Type
}.

Context `{T : Types}.

(** The state of the world: the lines written to [LogPersister] so far,
    oldest first, and everything else. *)
Record World : Type := {
  logs : list string;
  surroundings : Surroundings
}.

Record StopSignal : Type := {
  sig_Context : Context_;
  sig_Signal : StopSignalType
}.

Record Input : Type := {
  Stage : PipelineStage;
  TargetDSP : DeploySourceProvider;
  in_fields : InputFields
}.

(** [deploysource.DeploySource]: its configuration is held by a pointer. *)
Record DeploySource : Type := {
  DeploymentConfig : option Config;
  ds_fields : DeploySourceFields
}.

Record deployExecutor : Type := {
  executor_Input : Input;
  deploySource : option DeploySource;
  deployCfg : option ECSDeploymentSpec;
  cloudProviderName : string;
  cloudProviderCfg : option CloudProviderECSConfig
}.

(** Functions of other files and packages: [TargetDSP.GetReadOnly] with
    its two results, a pointer to a deploy source and an error, either of
    which can be nil whatever the other is, [findCloudProvider],
    [loadTaskDefinition], [loadServiceDefinition] and
    [executor.DetermineStageStatus]. *)
Class Helpers : Type := {
  GetReadOnly : DeploySourceProvider -> Context_ ->
                M World (option DeploySource * option error);
  findCloudProvider : Input -> M World (string * option CloudProviderECSConfig * bool);
  loadTaskDefinition : Input -> string -> option DeploySource -> M World (TaskDefinition * bool);
  loadServiceDefinition : Input -> string -> option DeploySource -> M World (ServiceDefinition * bool);
  DetermineStageStatus : StopSignalType -> StageStatus -> StageStatus -> StageStatus
}.

(** [sync], of another file of the package: the call that changes the
    service at the cloud provider. *)
Class CloudSync : Type := {
  sync : Context_ -> Input -> string -> option CloudProviderECSConfig ->
         TaskDefinition -> ServiceDefinition -> M World bool
}.

Context `{N : StageNames} `{H : Helpers} `{C : CloudSync}.

Local Open Scope go_scope.

(** [e.LogPersister.Errorf] with the formatted line. *)
Definition Errorf (line : string) : M World unit :=
  fun w => (tt, {| logs := logs w ++ [line]; surroundings := surroundings w |}).

(** [ensureSync] reads [e.deployCfg.Input] through the pointer, which
    panics on nil. *)
Definition ensureSync (e : deployExecutor) (ctx : Context_) : M World (Result StageStatus) :=
  match deployCfg e with
  | None => ret (Panic nilDereference)
  | Some cfg =>
    r <- loadTaskDefinition (executor_Input e) (TaskDefinitionFile (spec_Input cfg))
                            (deploySource e) ;;
    let '(taskDefinition, ok) := r in
    if negb ok then ret (Return StageStatus_STAGE_FAILURE)
    else
    r <- loadServiceDefinition (executor_Input e) (ServiceDefinitionFile (spec_Input cfg))
                               (deploySource e) ;;
    let '(servicedefinition, ok) := r in
    if negb ok then ret (Return StageStatus_STAGE_FAILURE)
    else
    synced <- sync ctx (executor_Input e) (cloudProviderName e) (cloudProviderCfg e)
                   taskDefinition servicedefinition ;;
    if negb synced then ret (Return StageStatus_STAGE_FAILURE)
    else ret (Return StageStatus_STAGE_SUCCESS)
  end.

Definition set_deploySource (ds : option DeploySource) (e : deployExecutor)
    : deployExecutor :=
  {| executor_Input := executor_Input e;
     deploySource := ds;
     deployCfg := deployCfg e;
     cloudProviderName := cloudProviderName e;
     cloudProviderCfg := cloudProviderCfg e |}.

Definition set_deployCfg (cfg : option ECSDeploymentSpec) (e : deployExecutor)
    : deployExecutor :=
  {| executor_Input := executor_Input e;
     deploySource := deploySource e;
     deployCfg := cfg;
     cloudProviderName := cloudProviderName e;
     cloudProviderCfg := cloudProviderCfg e |}.

Definition set_cloudProvider (name : string) (cfg : option CloudProviderECSConfig)
    (e : deployExecutor) : deployExecutor :=
  {| executor_Input := executor_Input e;
     deploySource := deploySource e;
     deployCfg := deployCfg e;
     cloudProviderName := name;
     cloudProviderCfg := cfg |}.

(** What [Execute] counts on from [GetReadOnly] without testing it: an
    error, or else a deploy source that has its configuration. *)
Definition sourceOrError (r : option DeploySource * option error) : bool :=
  match snd r, fst r with
  | Some _, _ => true
  | None, Some ds => match DeploymentConfig ds with Some _ => true | None => false end
  | None, None => false
  end.

(** [Execute] has a pointer receiver: the executor it leaves behind is
    returned with the status.  After the test of [err] alone the source is
    stored and then read through, and so is its configuration: a nil
    source and a source with a nil configuration panic there, with the
    source already stored. *)
Definition Execute (e : deployExecutor) (sig : StopSignal)
    : M World (Result StageStatus * deployExecutor) :=
  let ctx := sig_Context sig in
  r <- GetReadOnly (TargetDSP (executor_Input e)) ctx ;;
  let '(ds, err) := r in
  match err with
  | Some err =>
      _ <- Errorf ("Failed to prepare target deploy source data (" ++ err ++ ")") ;;
      ret (Return StageStatus_STAGE_FAILURE, e)
  | None =>
    let e := set_deploySource ds e in
    match ds with
    | None => ret (Panic nilDereference, e)
    | Some source =>
    match DeploymentConfig source with
    | None => ret (Panic nilDereference, e)
    | Some config =>
    let e := set_deployCfg (ECSDeploymentSpec_of config) e in
    match deployCfg e with
    | None =>
        _ <- Errorf "Malformed deployment configuration: missing ECSDeploymentSpec" ;;
        ret (Return StageStatus_STAGE_FAILURE, e)
    | Some _ =>
      r <- findCloudProvider (executor_Input e) ;;
      let '(name, cfg, found) := r in
      let e := set_cloudProvider name cfg e in
      if negb found then ret (Return StageStatus_STAGE_FAILURE, e)
      else
      let originalStatus := Status (Stage (executor_Input e)) in
      if (Name (Stage (executor_Input e)) =? StageECSSync)%string then
        status <- ensureSync e ctx ;;
        match status with
        | Panic msg => ret (Panic msg, e)
        | Return status =>
            ret (Return (DetermineStageStatus (sig_Signal sig) originalStatus status), e)
        end
      else
        _ <- Errorf ("Unsupported stage " ++ Name (Stage (executor_Input e))
                     ++ " for ECS application") ;;
        ret (Return StageStatus_STAGE_FAILURE, e)
    end
    end
    end
  end.

End Executor.
End ECS.

(** ** The commands: [pkg/app/piped/cmd/piped/piped.go] and the [ops] command *)

(** The part of [github.com/spf13/cobra] and its flag sets that the two
    constructors use: a flag has a name, a usage text and the default its
    variable holds at definition; [MarkFlagRequired] annotates the flag of
    that name, and a command refuses to run while an annotated flag is not
    given on the command line (the library puts each name of its message
    in quotes). *)
Module cobra.

Inductive Value : Type :=
| StringValue (s : string)
| BoolValue (b : bool)
| IntValue (n : Z)
| DurationValue (d : Duration).

Record Flag : Type := {
  Name : string;
  Usage : string;
  DefValue : Value;
  Required : bool
}.

Record Command : Type := {
  Use : string;
  Short : string;
  Flags : list Flag
}.

Definition addFlag (f : Flag) (cmd : Command) : Command :=
  {| Use := Use cmd; Short := Short cmd; Flags := Flags cmd ++ [f] |}.

Definition StringVar (value : string) (name usage : string) : Command -> Command :=
  addFlag {| Name := name; Usage := usage; DefValue := StringValue value; Required := false |}.

Definition BoolVar (value : bool) (name usage : string) : Command -> Command :=
  addFlag {| Name := name; Usage := usage; DefValue := BoolValue value; Required := false |}.

Definition IntVar (value : Z) (name usage : string) : Command -> Command :=
  addFlag {| Name := name; Usage := usage; DefValue := IntValue value; Required := false |}.

Definition DurationVar (value : Duration) (name usage : string) : Command -> Command :=
  addFlag {| Name := name; Usage := usage; DefValue := DurationValue value; Required := false |}.

Definition Lookup (cmd : Command) (name : string) : option Flag :=
  find (fun f => (Name f =? name)%string) (Flags cmd).

(** The error for an unknown flag is dropped by the caller. *)
Definition MarkFlagRequired (name : string) (cmd : Command) : Command :=
  {| Use := Use cmd; Short := Short cmd;
     Flags := map (fun f => if (Name f =? name)%string
                            then {| Name := Name f; Usage := Usage f;
                                    DefValue := DefValue f; Required := true |}
                            else f) (Flags cmd) |}.

(** [FlagSet.VisitAll] visits the flags in the order of their names
    ([SortFlags] is on unless a command turns it off, and neither command
    does); the names compare byte by byte. *)
Fixpoint insertFlag (f : Flag) (l : list Flag) : list Flag :=
  match l with
  | [] => [f]
  | g :: rest => if (Name f <=? Name g)%string then f :: l else g :: insertFlag f rest
  end.

Definition VisitAll (cmd : Command) : list Flag := fold_right insertFlag [] (Flags cmd).

(** The names of the required flags that are not among [given], the flags
    set on the command line, in the order of the visit. *)
Definition missingRequired (cmd : Command) (given : list string) : list string :=
  map Name (filter (fun f => Required f && negb (existsb (String.eqb (Name f)) given))
                   (VisitAll cmd)).

(** The double quote, as a string. *)
Definition quote : string := String "034" EmptyString.

(** The message puts the names between double quotes, separated by a comma
    and a space. *)
Definition ValidateRequiredFlags (cmd : Command) (given : list string) : option error :=
  match missingRequired cmd given with
  | [] => None
  | names =>
      Some ("required flag(s) " ++ quote
            ++ strings.Join names (quote ++ ", " ++ quote) ++ quote ++ " not set")
  end.

End cobra.

Module Cli.
Import cobra.

Record piped : Type := {
  configFile : string;
  insecure : bool;
  certFile : string;
  adminPort : Z;
  toolsDir : string;
  enableDefaultKubernetesCloudProvider : bool;
  useFakeAPIClient : bool;
  gracePeriod : Duration;
  addLoginUserToPasswd : bool
}.

Record ops : Type := {
  ops_httpPort : Z;
  ops_adminPort : Z;
  ops_gracePeriod : Duration;
  ops_enableInsightCollector : bool;
  ops_configFile : string;
  ops_gcloudPath : string
}.

Section Commands.

(** [path.Join] of the standard library. *)
Variable path_Join : list string -> string.

(** [home] is what [os.UserHomeDir()] returns. *)
Definition NewCommand (home : string * option error) : Result (piped * Command) :=
  match snd home with
  | Some err =>
      Panic ("failed to detect the current user's home directory: " ++ err)
  | None =>
    let p := {| configFile := ""; insecure := false; certFile := "";
                adminPort := 9085;
                toolsDir := path_Join [fst home; ".piped"; "tools"];
                enableDefaultKubernetesCloudProvider := false;
                useFakeAPIClient := false;
                gracePeriod := 30 * time.Second;
                addLoginUserToPasswd := false |} in
    let cmd := {| Use := "piped"; Short := "Start running piped."; Flags := [] |} in
    let cmd := StringVar (configFile p) "config-file" "The path to the configuration file." cmd in
    let cmd := BoolVar (insecure p) "insecure" "Whether disabling transport security while connecting to control-plane." cmd in
    let cmd := StringVar (certFile p) "cert-file" "The path to the TLS certificate file." cmd in
    let cmd := IntVar (adminPort p) "admin-port" "The port number used to run a HTTP server for admin tasks such as metrics, healthz." cmd in
    let cmd := StringVar (toolsDir p) "tools-dir" "The path to directory where to install needed tools such as kubectl, helm, kustomize." cmd in
    let cmd := BoolVar (useFakeAPIClient p) "use-fake-api-client" "Whether the fake api client should be used instead of the real one or not." cmd in
    let cmd := BoolVar (enableDefaultKubernetesCloudProvider p) "enable-default-kubernetes-cloud-provider" "Whether the default kubernetes provider is enabled or not." cmd in
    let cmd := BoolVar (addLoginUserToPasswd p) "add-login-user-to-passwd" "Whether to add login user to /etc/passwd" cmd in
    let cmd := DurationVar (gracePeriod p) "grace-period" "How long to wait for graceful shutdown." cmd in
    let cmd := MarkFlagRequired "config-file" cmd in
    Return (p, cmd)
  end.

End Commands.

Definition NewOpsCommand : ops * Command :=
  let s := {| ops_httpPort := 9082; ops_adminPort := 9085;
              ops_gracePeriod := 15 * time.Second;
              ops_enableInsightCollector := false;
              ops_configFile := ""; ops_gcloudPath := "" |} in
  let cmd := {| Use := "ops"; Short := "Start running ops server."; Flags := [] |} in
  let cmd := IntVar (ops_httpPort s) "http-port" "The port number used to run http server." cmd in
  let cmd := IntVar (ops_adminPort s) "admin-port" "The port number used to run a HTTP server for admin tasks such as metrics, healthz." cmd in
  let cmd := DurationVar (ops_gracePeriod s) "grace-period" "How long to wait for graceful shutdown." cmd in
  let cmd := BoolVar (ops_enableInsightCollector s) "enableInsightCollector-insight-collector" "Enable insight collector." cmd in
  let cmd := StringVar (ops_configFile s) "config-file" "The path to the configuration file." cmd in
  let cmd := StringVar (ops_gcloudPath s) "gcloud-path" "The path to the gcloud command executable." cmd in
  (s, cmd).

End Cli.

(** ** Sample instances

    Small concrete surroundings, on which the definitions above run: they
    serve the examples that follow the theorems. *)

Module Sample.
Import model.

#[global] Instance names : StageNames := {|
  StageWait := "WAIT";
  StageWaitApproval := "WAIT_APPROVAL";
  StageAnalysis := "ANALYSIS";
  StageK8sPrimaryRollout := "K8S_PRIMARY_ROLLOUT";
  StageK8sCanaryRollout := "K8S_CANARY_ROLLOUT";
  StageK8sCanaryClean := "K8S_CANARY_CLEAN";
  StageK8sBaselineRollout := "K8S_BASELINE_ROLLOUT";
  StageK8sBaselineClean := "K8S_BASELINE_CLEAN";
  StageK8sTrafficRouting := "K8S_TRAFFIC_ROUTING";
  StageTerraformSync := "TERRAFORM_SYNC";
  StageTerraformPlan := "TERRAFORM_PLAN";
  StageTerraformApply := "TERRAFORM_APPLY";
  StageCloudRunSync := "CLOUDRUN_SYNC";
  StageCloudRunPromote := "CLOUDRUN_PROMOTE";
  StageLambdaSync := "LAMBDA_SYNC";
  StageLambdaPromote := "LAMBDA_PROMOTE";
  StageLambdaCanaryRollout := "LAMBDA_CANARY_ROLLOUT";
  StageECSSync := "ECS_SYNC"
|}.

(** *** Stage configuration *)

#[global] Instance Zero_unit : Zero unit := tt.

#[global] Instance declared : Config.Declared := {|
  Config.K8sPrimaryRolloutStageOptions := unit;
  Config.K8sCanaryRolloutStageOptions := unit;
  Config.K8sCanaryCleanStageOptions := unit;
  Config.K8sBaselineRolloutStageOptions := unit;
  Config.K8sBaselineCleanStageOptions := unit;
  Config.K8sTrafficRoutingStageOptions := unit;
  Config.TerraformSyncStageOptions := unit;
  Config.TerraformPlanStageOptions := unit;
  Config.TerraformApplyStageOptions := unit;
  Config.CloudRunSyncStageOptions := unit;
  Config.CloudRunPromoteStageOptions := unit;
  Config.LambdaSyncStageOptions := unit;
  Config.LambdaCanaryRolloutStageOptions := unit;
  Config.LambdaPromoteStageOptions := unit;
  Config.AnalysisMetricsFields := unit;
  Config.AnalysisLog := unit;
  Config.AnalysisHTTP := unit;
  Config.AnalysisDynamic := unit
|}.

(** A wire format for the examples, in place of JSON: the first byte of a
    stage is the kind of the stage and the rest is its [with]; the [with]
    of an approval is one byte, the timeout in hours; the [with] of an
    analysis is the duration in minutes followed by one byte per metric,
    its timeout in seconds. *)

Definition byteZ (b : Byte.byte) : Z := Z.of_N (Byte.to_N b).

Definition stageNameOf (b : Byte.byte) : Stage :=
  match byteZ b with
  | 0 => StageWait
  | 1 => StageWaitApproval
  | 2 => StageAnalysis
  | 3 => StageK8sPrimaryRollout
  | 4 => StageK8sCanaryRollout
  | _ => "CUSTOM_SYNC"
  end.

Definition decodeStage : json.Unmarshaler Config.genericPipelineStage :=
  fun data gs =>
    match data with
    | [] => (gs, Some "unexpected end of JSON input")
    | b :: rest =>
        ({| Config.gs_Id := Config.gs_Id gs; Config.gs_Name := stageNameOf b;
            Config.gs_Desc := Config.gs_Desc gs;
            Config.gs_Timeout := Config.gs_Timeout gs;
            Config.gs_With := rest |}, None)
    end.

Definition decodeApproval : json.Unmarshaler Config.WaitApprovalStageOptions :=
  fun data o =>
    match data with
    | [b] => (Config.set_wa_Timeout (byteZ b * time.Hour) o, None)
    | _ => (o, Some "cannot unmarshal into WaitApprovalStageOptions")
    end.

Definition metricOf (b : Byte.byte) : Config.TemplatableAnalysisMetrics :=
  {| Config.tam_AnalysisMetrics :=
       {| Config.am_Timeout := byteZ b * time.Second; Config.am_fields := tt |};
     Config.tam_Template := {| Config.atr_Name := ""; Config.atr_Args := [] |} |}.

Definition decodeAnalysis : json.Unmarshaler Config.AnalysisStageOptions :=
  fun data o =>
    match data with
    | [] => (o, Some "unexpected end of JSON input")
    | d :: ms =>
        ({| Config.a_Duration := byteZ d * time.Minute;
            Config.a_RestartThreshold := Config.a_RestartThreshold o;
            Config.a_Metrics := map metricOf ms;
            Config.a_Logs := Config.a_Logs o;
            Config.a_Https := Config.a_Https o;
            Config.a_Dynamic := Config.a_Dynamic o |}, None)
    end.

Definition decodeNothing {T : Type} : json.Unmarshaler T := fun _ v => (v, None).

#[global] Instance decoders : Config.Decoders := {|
  Config.Unmarshal_genericPipelineStage := decodeStage;
  Config.Unmarshal_WaitStageOptions := decodeNothing;
  Config.Unmarshal_WaitApprovalStageOptions := decodeApproval;
  Config.Unmarshal_AnalysisStageOptions := decodeAnalysis;
  Config.Unmarshal_K8sPrimaryRolloutStageOptions := decodeNothing;
  Config.Unmarshal_K8sCanaryRolloutStageOptions := decodeNothing;
  Config.Unmarshal_K8sCanaryCleanStageOptions := decodeNothing;
  Config.Unmarshal_K8sBaselineRolloutStageOptions := decodeNothing;
  Config.Unmarshal_K8sBaselineCleanStageOptions := decodeNothing;
  Config.Unmarshal_K8sTrafficRoutingStageOptions := decodeNothing;
  Config.Unmarshal_TerraformSyncStageOptions := decodeNothing;
  Config.Unmarshal_TerraformPlanStageOptions := decodeNothing;
  Config.Unmarshal_TerraformApplyStageOptions := decodeNothing;
  Config.Unmarshal_CloudRunSyncStageOptions := decodeNothing;
  Config.Unmarshal_CloudRunPromoteStageOptions := decodeNothing;
  Config.Unmarshal_LambdaSyncStageOptions := decodeNothing;
  Config.Unmarshal_LambdaCanaryRolloutStageOptions := decodeNothing;
  Config.Unmarshal_LambdaPromoteStageOptions := decodeNothing
|}.

Definition stageNamed (name : Stage) : Config.PipelineStage :=
  Config.set_envelope
    {| Config.gs_Id := ""; Config.gs_Name := name; Config.gs_Desc := "";
       Config.gs_Timeout := 0; Config.gs_With := [] |} zero.

Definition twoStages : Config.GenericDeploymentSpec :=
  {| Config.CommitMatcher := {| Config.cm_QuickSync := ""; Config.cm_Pipeline := "" |};
     Config.Pipeline :=
       Some {| Config.dp_Stages := [stageNamed StageK8sCanaryRollout;
                                    stageNamed StageK8sPrimaryRollout] |};
     Config.SealedSecrets := [];
     Config.TriggerPaths := [];
     Config.Timeout := 0 |}.

(** *** Planner: a repository of four commits

    A manifest is a key and its fields, path by path.  Commit [c0] runs
    three replicas of image [app:1.2]; [c1] changes the image to [app:1.3];
    [c2] changes the replicas to five; [c3] has the manifests of [c0]
    again.  The world is the clock and the commit that is checked out. *)

Definition Manifest : Type := provider.ResourceKey * list (string * string).

Definition lookupField (path : string) (fields : list (string * string)) : option string :=
  option_map snd (find (fun f => (fst f =? path)%string) fields).

Definition diffFields (old new : Manifest) (prefix : string) : provider.DiffResultList :=
  flat_map (fun f =>
              if strings.HasPrefix (fst f) prefix then
                match lookupField (fst f) (snd new) with
                | Some v => if (v =? snd f)%string then []
                            else [{| provider.Path := fst f; provider.Before := snd f;
                                     provider.After := v |}]
                | None => [{| provider.Path := fst f; provider.Before := snd f;
                              provider.After := "" |}]
                end
              else [])
           (snd old).

Record World : Type := {
  clock : Z;
  head : string
}.

Definition workload (replicas image : string) : Manifest :=
  ({| provider.APIVersion := "apps/v1"; provider.Kind := "Deployment";
      provider.Namespace := "default"; provider.Name := "app" |},
   [("spec.replicas", replicas);
    ("spec.template.spec.containers.[0].image", image)]).

Definition service : Manifest :=
  ({| provider.APIVersion := "v1"; provider.Kind := "Service";
      provider.Namespace := "default"; provider.Name := "app" |},
   [("spec.type", "ClusterIP")]).

Definition manifestsAt (commit : string) : list Manifest :=
  if (commit =? "c0")%string then [service; workload "3" "app:1.2"]
  else if (commit =? "c1")%string then [service; workload "3" "app:1.3"]
  else if (commit =? "c2")%string then [service; workload "5" "app:1.2"]
  else if (commit =? "c3")%string then [service; workload "3" "app:1.2"]
  else [].

#[global] Instance kubernetes : provider.Kubernetes := {|
  provider.World := World;
  provider.Time := Z;
  provider.Repo := unit;
  provider.KubernetesDeploymentInput := unit;
  provider.Manifest := Manifest;
  provider.Key := fst;
  provider.Zero_Manifest := (zero, []);
  provider.IsDeployment := fun k => (provider.Kind k =? "Deployment")%string;
  provider.IsConfigMap := fun k => (provider.Kind k =? "ConfigMap")%string;
  provider.IsSecret := fun k => (provider.Kind k =? "Secret")%string;
  provider.time_Now := fun w => (clock w, {| clock := clock w + 1; head := head w |})
|}.

#[global] Instance access : provider.ManifestAccess := {|
  provider.Diff := diffFields;
  provider.Provider_Init := fun _ _ _ w => (None, w);
  provider.Provider_LoadManifests := fun _ _ _ w => ((manifestsAt (head w), None), w);
  provider.Repo_Checkout := fun _ commit w => (None, {| clock := clock w; head := commit |})
|}.

(** A stage of the samples: its name and the time it was made at. *)
#[global] Instance builders : K8sPlanner.PipelineBuilders := {|
  K8sPlanner.PipelineStage := string * Z;
  K8sPlanner.DeploymentPipeline := unit;
  K8sPlanner.buildPipeline := fun now => [("K8S_SYNC", now)];
  K8sPlanner.buildProgressivePipeline := fun _ now =>
    [("K8S_CANARY_ROLLOUT", now); ("K8S_PRIMARY_ROLLOUT", now)]
|}.

Definition deployment (message : string) : K8sPlanner.Deployment :=
  {| K8sPlanner.Id := "d1"; K8sPlanner.ApplicationId := "a1";
     K8sPlanner.Trigger :=
       {| K8sPlanner.trigger_Commit :=
            {| K8sPlanner.Hash := "c9"; K8sPlanner.Message := message;
               K8sPlanner.Author := "dev" |};
          K8sPlanner.Commander := "" |} |}.

Definition planInput (spec : option K8sPlanner.KubernetesDeploymentSpec)
    (lastSuccessful message : string) : K8sPlanner.Input :=
  {| K8sPlanner.in_Deployment := deployment message;
     K8sPlanner.in_MostRecentSuccessfulCommitHash := lastSuccessful;
     K8sPlanner.in_DeploymentConfig :=
       {| K8sPlanner.config_KubernetesDeploymentSpec := spec |};
     K8sPlanner.in_Repo := tt;
     K8sPlanner.in_RepoDir := "/repo";
     K8sPlanner.in_AppDir := "/repo/app" |}.

Definition k8sSpec : K8sPlanner.KubernetesDeploymentSpec :=
  {| K8sPlanner.spec_Input := tt; K8sPlanner.spec_Pipeline := None |}.

Definition at_ (commit : string) (now : Z) : World := {| clock := now; head := commit |}.

(** *** ECS executor

    The provider of deploy sources says whether a source is there and
    whether it carries an ECS spec; the piped configuration knows the cloud
    provider [ecs-dev] only; [sync] leaves a line in the log. *)

#[global] Instance ecsTypes : ECS.Types := {|
  ECS.Surroundings := unit;
  ECS.Context_ := unit;
  ECS.StopSignalType := unit;
  ECS.DeploySourceProvider := bool * bool;
  ECS.InputFields := string;
  ECS.DeploySourceFields := unit;
  ECS.CloudProviderECSConfig := unit;
  ECS.TaskDefinition := string;
  ECS.ServiceDefinition := string
|}.

Definition ecsSpec : ECS.ECSDeploymentSpec :=
  {| ECS.spec_Input := {| ECS.TaskDefinitionFile := "taskdef.json";
                          ECS.ServiceDefinitionFile := "servicedef.json" |} |}.

#[global] Instance ecsHelpers : ECS.Helpers := {|
  ECS.GetReadOnly := fun dsp _ w =>
    if fst dsp
    then ((Some {| ECS.DeploymentConfig :=
                     Some {| ECS.ECSDeploymentSpec_of :=
                               if snd dsp then Some ecsSpec else None |};
                   ECS.ds_fields := tt |}, None), w)
    else ((None, Some "repository is not reachable"), w);
  ECS.findCloudProvider := fun input w =>
    if (ECS.in_fields input =? "ecs-dev")%string
    then (("ecs-dev", Some tt, true), w)
    else (("", None, false), w);
  ECS.loadTaskDefinition := fun _ file _ w => ((file, true), w);
  ECS.loadServiceDefinition := fun _ file _ w => ((file, true), w);
  ECS.DetermineStageStatus := fun _ _ status => status
|}.

#[global] Instance ecsSync : ECS.CloudSync := {|
  ECS.sync := fun _ _ name _ _ _ w =>
    (true, {| ECS.logs := ECS.logs w ++ ["synced to " ++ name];
              ECS.surroundings := ECS.surroundings w |})
|}.

Definition ecsExecutor (stage : string) (dsp : bool * bool) (cloudProvider : string)
    : ECS.deployExecutor :=
  {| ECS.executor_Input :=
       {| ECS.Stage := {| ECS.Name := stage;
                          ECS.Status := StageStatus_STAGE_NOT_STARTED_YET |};
          ECS.TargetDSP := dsp;
          ECS.in_fields := cloudProvider |};
     ECS.deploySource := None;
     ECS.deployCfg := None;
     ECS.cloudProviderName := "";
     ECS.cloudProviderCfg := None |}.

Definition ecsSignal : ECS.StopSignal := {| ECS.sig_Context := tt; ECS.sig_Signal := tt |}.

Definition emptyLog : ECS.World := {| ECS.logs := []; ECS.surroundings := tt |}.

End Sample.
(** Facts on the string functions. *)

(** ** More of [piped.go]: the API client and the sealed secret decrypter *)

Module Piped.

(** [rpcclient.DialOption], as far as [createAPIClient] builds them.
    [WithPerRPCCredentials] carries the token, the kind of credentials
    (always [rpcauth.PipedTokenCredentials]) and whether transport security
    is required; [WithTransportCredentials] is only ever given
    [credentials.NewTLS] of an empty [tls.Config]. *)
Inductive DialOption : Type :=
| WithBlock
| WithPerRPCCredentials (token : string) (requireTransportSecurity : bool)
| WithTLS (certFile : string)
| WithTransportCredentials
| WithInsecure.

(** The part of [config.PipedSpec] that the decrypter is made from. *)
Record SealingKeyConfig : Type := {
  PrivateKeyFile : string;
  PublicKeyFile : string
}.

Record SealedSecretManagement : Type := {
  ssm_Type : string;
  ssm_SealingKeyConfig : SealingKeyConfig
}.

(** The constants of [model.SealedSecretManagementType], a string type
    whose [String()] is the string itself; they are declared in [pkg/model]. *)
Class SealedSecretTypes : Type := {
  SealedSecretManagementNone : string;
  SealedSecretManagementSealingKey : string;
  SealedSecretManagementGCPKMS : string;
  SealedSecretManagementAWSKMS : string
}.

Section Client.

(** What the two functions call: [ioutil.ReadFile], [rpcauth.MakePipedToken],
    [pipedservice.NewClient] with the timeout of its context, the fake
    client, [crypto.NewHybridDecrypter], the logger, and the quoting of the
    verb [%q]. *)
Class Externals : Type := {
  World : Type;
  Client : Type;
  Decrypter : Type;
  ReadFile : string -> M World (list Byte.byte * option error);
  string_of_bytes : list Byte.byte -> string;
  MakePipedToken : string -> string -> string -> string;
  NewClient : Duration -> string -> list DialOption -> M World (Client + error);
  pipedclientfake_NewClient : Client;
  NewHybridDecrypter : string -> M World (Decrypter + error);
  Logger_Error : string -> error -> M World unit;
  Quote : string -> string
}.

Context `{E : Externals} `{S : SealedSecretTypes}.

Local Open Scope go_scope.

(** The client and the error are one value: the client or the error. *)
Definition createAPIClient (p : Cli.piped)
    (address projectID pipedID pipedKeyFile : string) : M World (Client + error) :=
  if Cli.useFakeAPIClient p then ret (inl pipedclientfake_NewClient)
  else
    r <- ReadFile pipedKeyFile ;;
    let '(pipedKey, err) := r in
    match err with
    | Some err =>
        _ <- Logger_Error "failed to read piped key file" err ;;
        ret (inr err)
    | None =>
      let token := MakePipedToken projectID pipedID (string_of_bytes pipedKey) in
      let options := [WithBlock;
                      WithPerRPCCredentials token (negb (Cli.insecure p))] in
      let options :=
        if negb (Cli.insecure p) then
          if negb (Cli.certFile p =? "")%string
          then (options ++ [WithTLS (Cli.certFile p)])%list
          else (options ++ [WithTransportCredentials])%list
        else (options ++ [WithInsecure])%list in
      r <- NewClient (15 * time.Second) address options ;;
      match r with
      | inr err =>
          _ <- Logger_Error "failed to create api client" err ;;
          ret (inr err)
      | inl client => ret (inl client)
      end
    end.

(** [ssm] is [cfg.SealedSecretManagement]; the result is the decrypter,
    which may be nil, and the error. *)
Definition initializeSealedSecretDecrypter (ssm : option SealedSecretManagement)
    : M World (option Decrypter * option error) :=
  match ssm with
  | None => ret (None, None)
  | Some ssm =>
    if (ssm_Type ssm =? SealedSecretManagementNone)%string then ret (None, None)
    else if (ssm_Type ssm =? SealedSecretManagementSealingKey)%string then
      if (PrivateKeyFile (ssm_SealingKeyConfig ssm) =? "")%string then
        ret (None, Some "sealedSecretManagement.privateKeyFile must be set")
      else
        r <- NewHybridDecrypter (PrivateKeyFile (ssm_SealingKeyConfig ssm)) ;;
        match r with
        | inr err => ret (None, Some ("failed to initialize decrypter (" ++ err ++ ")"))
        | inl decrypter => ret (Some decrypter, None)
        end
    else if (ssm_Type ssm =? SealedSecretManagementGCPKMS)%string then
      ret (None, Some ("type " ++ Quote (ssm_Type ssm) ++ " is not implemented yet"))
    else if (ssm_Type ssm =? SealedSecretManagementAWSKMS)%string then
      ret (None, Some ("type " ++ Quote (ssm_Type ssm) ++ " is not implemented yet"))
    else
      ret (None, Some ("unsupported sealed secret management type: " ++ ssm_Type ssm))
  end.

End Client.
End Piped.

(** ** Definitions for the further properties *)

(** Does [path] match the pattern [query]? *)
Definition matchesQuery (query path : string) : bool :=
  match regexp.Compile query with
  | Some re => regexp.MatchString re path
  | None => false
  end.

(** Is one of the options about the security of the transport? *)
Definition isTransportOption (o : Piped.DialOption) : bool :=
  match o with
  | Piped.WithTLS _ | Piped.WithTransportCredentials | Piped.WithInsecure => true
  | Piped.WithBlock | Piped.WithPerRPCCredentials _ _ => false
  end.

(** ** More sample instances *)

Module SampleMore.

(** A repository whose access can fail: the provider does not initialise
    in an application directory named [missing], the manifests of the
    commit [bad] do not parse, and the commit [gone] cannot be checked
    out. *)
Definition failingAccess : @provider.ManifestAccess Sample.kubernetes := {|
  provider.Diff := Sample.diffFields;
  provider.Provider_Init := fun _ appDir _ w =>
    if (appDir =? "missing")%string then (Some "no such directory", w) else (None, w);
  provider.Provider_LoadManifests := fun _ _ _ w =>
    if (Sample.head w =? "bad")%string then (([], Some "yaml: did not find expected key"), w)
    else ((Sample.manifestsAt (Sample.head w), None), w);
  provider.Repo_Checkout := fun _ commit w =>
    if (commit =? "gone")%string then (Some "unknown revision", w)
    else (None, {| Sample.clock := Sample.clock w; Sample.head := commit |})
|}.

Definition planInputAt (appDir lastSuccessful : string) : K8sPlanner.Input :=
  {| K8sPlanner.in_Deployment := Sample.deployment "Update the application";
     K8sPlanner.in_MostRecentSuccessfulCommitHash := lastSuccessful;
     K8sPlanner.in_DeploymentConfig :=
       {| K8sPlanner.config_KubernetesDeploymentSpec := Some Sample.k8sSpec |};
     K8sPlanner.in_Repo := tt;
     K8sPlanner.in_RepoDir := "/repo";
     K8sPlanner.in_AppDir := appDir |}.

(** Decoders that read the [with] of a wait as well: one byte, the
    duration in minutes. *)
Definition decodeWait : json.Unmarshaler Config.WaitStageOptions :=
  fun data o =>
    match data with
    | [b] => ({| Config.w_Duration := Sample.byteZ b * time.Minute |}, None)
    | _ => (o, Some "cannot unmarshal into WaitStageOptions")
    end.

Definition waitDecoders : Config.Decoders := {|
  Config.Unmarshal_genericPipelineStage := Sample.decodeStage;
  Config.Unmarshal_WaitStageOptions := decodeWait;
  Config.Unmarshal_WaitApprovalStageOptions := Sample.decodeApproval;
  Config.Unmarshal_AnalysisStageOptions := Sample.decodeAnalysis;
  Config.Unmarshal_K8sPrimaryRolloutStageOptions := Sample.decodeNothing;
  Config.Unmarshal_K8sCanaryRolloutStageOptions := Sample.decodeNothing;
  Config.Unmarshal_K8sCanaryCleanStageOptions := Sample.decodeNothing;
  Config.Unmarshal_K8sBaselineRolloutStageOptions := Sample.decodeNothing;
  Config.Unmarshal_K8sBaselineCleanStageOptions := Sample.decodeNothing;
  Config.Unmarshal_K8sTrafficRoutingStageOptions := Sample.decodeNothing;
  Config.Unmarshal_TerraformSyncStageOptions := Sample.decodeNothing;
  Config.Unmarshal_TerraformPlanStageOptions := Sample.decodeNothing;
  Config.Unmarshal_TerraformApplyStageOptions := Sample.decodeNothing;
  Config.Unmarshal_CloudRunSyncStageOptions := Sample.decodeNothing;
  Config.Unmarshal_CloudRunPromoteStageOptions := Sample.decodeNothing;
  Config.Unmarshal_LambdaSyncStageOptions := Sample.decodeNothing;
  Config.Unmarshal_LambdaCanaryRolloutStageOptions := Sample.decodeNothing;
  Config.Unmarshal_LambdaPromoteStageOptions := Sample.decodeNothing
|}.

(** A provider of deploy sources that keeps no promise: it reports no
    error and gives no deploy source, or one without its configuration. *)
Definition carelessHelpers : @ECS.Helpers Sample.ecsTypes := {|
  ECS.GetReadOnly := fun dsp _ w =>
    if fst dsp
    then ((Some {| ECS.DeploymentConfig := None; ECS.ds_fields := tt |}, None), w)
    else ((None, None), w);
  ECS.findCloudProvider := ECS.findCloudProvider (Helpers := Sample.ecsHelpers);
  ECS.loadTaskDefinition := ECS.loadTaskDefinition (Helpers := Sample.ecsHelpers);
  ECS.loadServiceDefinition := ECS.loadServiceDefinition (Helpers := Sample.ecsHelpers);
  ECS.DetermineStageStatus := ECS.DetermineStageStatus (Helpers := Sample.ecsHelpers)
|}.

(** The surroundings of the piped command: the world is the list of the
    files with their content, none of which is a valid private key but
    [/etc/piped/private.pem]; the control plane is reachable at
    [control-plane:443] only. *)
Definition fileSystem : Type := list (string * list Byte.byte).

Definition readFile (name : string) (fs : fileSystem) : list Byte.byte * option error :=
  match find (fun f => (fst f =? name)%string) fs with
  | Some f => (snd f, None)
  | None => ([], Some "no such file or directory")
  end.

#[global] Instance pipedExternals : Piped.Externals := {|
  Piped.World := fileSystem;
  Piped.Client := string * list Piped.DialOption;
  Piped.Decrypter := string;
  Piped.ReadFile := fun name fs => (readFile name fs, fs);
  Piped.string_of_bytes := fun bs => string_of_list_byte bs;
  Piped.MakePipedToken := fun projectID pipedID key =>
    projectID ++ "," ++ pipedID ++ "," ++ key;
  Piped.NewClient := fun _ address options fs =>
    if (address =? "control-plane:443")%string then (inl (address, options), fs)
    else (inr "context deadline exceeded", fs);
  Piped.pipedclientfake_NewClient := ("fake", []);
  Piped.NewHybridDecrypter := fun file fs =>
    if (file =? "/etc/piped/private.pem")%string
    then (match snd (readFile file fs) with
          | None => inl file
          | Some err => inr err
          end, fs)
    else (inr "invalid key", fs);
  Piped.Logger_Error := fun _ _ fs => (tt, fs);
  Piped.Quote := fun s => s
|}.

#[global] Instance sealedSecretTypes : Piped.SealedSecretTypes := {|
  Piped.SealedSecretManagementNone := "NONE";
  Piped.SealedSecretManagementSealingKey := "SEALING_KEY";
  Piped.SealedSecretManagementGCPKMS := "GCP_KMS";
  Piped.SealedSecretManagementAWSKMS := "AWS_KMS"
|}.

Definition pipedFlags (insecure : bool) (certFile : string) : Cli.piped :=
  {| Cli.configFile := "/etc/piped/config.yaml"; Cli.insecure := insecure;
     Cli.certFile := certFile; Cli.adminPort := 9085;
     Cli.toolsDir := "/home/piped/.piped/tools";
     Cli.enableDefaultKubernetesCloudProvider := false;
     Cli.useFakeAPIClient := false;
     Cli.gracePeriod := 30 * time.Second;
     Cli.addLoginUserToPasswd := false |}.

Definition keyFiles : fileSystem :=
  [("/etc/piped/key", [Byte.x6b; Byte.x31]);
   ("/etc/piped/private.pem", [Byte.x70])].

End SampleMore.

Lemma prefix_app (a b : string) : String.prefix a (a ++ b) = true.
Proof.
  induction a as [|c a IH]; simpl.
  - now destruct b.
  - destruct (ascii_dec c c) as [_|n]; [exact IH | now elim n].
Qed.

Lemma Contains_prefix (s sub : string) :
  String.prefix sub s = true -> strings.Contains s sub = true.
Proof. intros H. destruct s; cbn [strings.Contains]; rewrite H; reflexivity. Qed.

Lemma Contains_app_intro (p sub q : string) :
  strings.Contains (p ++ sub ++ q) sub = true.
Proof.
  induction p as [|c p IH].
  - cbn [append]. apply Contains_prefix, prefix_app.
  - simpl. rewrite IH. apply orb_true_r.
Qed.

Lemma prefix_split (a s : string) :
  String.prefix a s = true -> exists q, s = a ++ q.
Proof.
  revert s; induction a as [|c a IH]; intros s H.
  - exists s. reflexivity.
  - destruct s as [|d s]; simpl in H; [discriminate|].
    destruct (ascii_dec c d) as [->|]; [|discriminate].
    destruct (IH _ H) as [q ->]. exists q. reflexivity.
Qed.

Lemma Contains_spec (s sub : string) :
  strings.Contains s sub = true <-> exists p q, s = p ++ sub ++ q.
Proof.
  split.
  - induction s as [|c s IH]; cbn [strings.Contains]; intros H.
    + rewrite orb_false_r in H. destruct sub; [|discriminate].
      exists "", "". reflexivity.
    + apply orb_true_iff in H. destruct H as [H|H].
      * destruct (prefix_split _ _ H) as [q Hq].
        exists "", q. exact Hq.
      * destruct (IH H) as (p & q & ->).
        exists (String c p), q. reflexivity.
  - intros (p & q & ->). apply Contains_app_intro.
Qed.

Lemma string_app_assoc (a b c : string) : (a ++ b) ++ c = a ++ b ++ c.
Proof. induction a; simpl; [reflexivity | now f_equal]. Qed.

Lemma string_app_nil_r (a : string) : a ++ "" = a.
Proof. induction a; simpl; [reflexivity | now f_equal]. Qed.

Lemma Contains_app_l (s t sub : string) :
  strings.Contains s sub = true -> strings.Contains (s ++ t) sub = true.
Proof.
  rewrite !Contains_spec. intros (p & q & ->).
  exists p, (q ++ t). now rewrite !string_app_assoc.
Qed.

Lemma Contains_app_r (s t sub : string) :
  strings.Contains t sub = true -> strings.Contains (s ++ t) sub = true.
Proof.
  rewrite !Contains_spec. intros (p & q & ->).
  exists (s ++ p), q. now rewrite !string_app_assoc.
Qed.

Lemma Contains_Join (elems : list string) (sep x : string) :
  In x elems -> strings.Contains (strings.Join elems sep) x = true.
Proof.
  induction elems as [|y rest IH]; [contradiction|].
  intros [->|Hin].
  - destruct rest as [|z rest]; cbn [strings.Join].
    + apply Contains_spec. exists "", "".
      cbn [append]. now rewrite string_app_nil_r.
    + apply Contains_spec. exists "", (sep ++ strings.Join (z :: rest) sep).
      reflexivity.
  - destruct rest as [|z rest]; [contradiction|].
    cbn [strings.Join]. apply Contains_app_r, Contains_app_r, IH, Hin.
Qed.

(** * Properties *)

(** ** Stage configuration *)

Section ConfigFacts.
Import model Config.

Context `{D : Declared} `{N : StageNames} `{J : Decoders}.

(** The bound that [GetStage] checks is the upper one: a negative index
    into a pipeline reaches the indexing of the slice, which panics. *)
Lemma GetStage_negative_index (s : GenericDeploymentSpec) (p : DeploymentPipeline) (index : Z) :
  Pipeline s = Some p -> index < 0 -> GetStage s index = Panic "index out of range".
Proof.
  intros Hp Hneg. unfold GetStage. rewrite Hp.
  destruct (Z.geb_spec index (Z.of_nat (List.length (dp_Stages p)))) as [Hge|_]; [lia|].
  destruct (Z.ltb_spec index 0) as [_|Hge]; [reflexivity | lia].
Qed.

(** C10.  For a non-negative index, [GetStage] does not panic; it returns
    the stage at the index with [true] when the pipeline is set and the
    index is below the number of its stages, and the zero stage with
    [false] otherwise, so that [true] is returned exactly in the first
    case. *)
Theorem GetStage_in_range (s : GenericDeploymentSpec) (index : Z) :
  0 <= index ->
  let inRange := exists p, Pipeline s = Some p /\
                           index < Z.of_nat (List.length (dp_Stages p)) in
  (forall msg, GetStage s index <> Panic msg) /\
  (forall p, Pipeline s = Some p ->
             index < Z.of_nat (List.length (dp_Stages p)) ->
             exists stage, nth_error (dp_Stages p) (Z.to_nat index) = Some stage /\
                           GetStage s index = Return (stage, true)) /\
  (~ inRange -> GetStage s index = Return (zero, false)) /\
  ((exists stage, GetStage s index = Return (stage, true)) <-> inRange).
Proof.
  intros Hpos inRange.
  assert (Hin : forall p, Pipeline s = Some p ->
             index < Z.of_nat (List.length (dp_Stages p)) ->
             exists stage, nth_error (dp_Stages p) (Z.to_nat index) = Some stage /\
                           GetStage s index = Return (stage, true)).
  { intros p Hp Hlt. unfold GetStage. rewrite Hp.
    destruct (Z.geb_spec index (Z.of_nat (List.length (dp_Stages p)))) as [Hge|_]; [lia|].
    destruct (Z.ltb_spec index 0) as [Hneg|_]; [lia|].
    destruct (nth_error (dp_Stages p) (Z.to_nat index)) as [stage|] eqn:E.
    - exists stage. split; reflexivity.
    - apply nth_error_None in E. lia. }
  assert (Hout : ~ inRange -> GetStage s index = Return (zero, false)).
  { intros Hn. unfold GetStage. destruct (Pipeline s) as [p|] eqn:Hp; [|reflexivity].
    destruct (Z.geb_spec index (Z.of_nat (List.length (dp_Stages p)))) as [_|Hlt];
      [reflexivity|].
    elim Hn. exists p. split; [reflexivity | exact Hlt]. }
  assert (Hdec : inRange \/ ~ inRange).
  { unfold inRange. destruct (Pipeline s) as [p|].
    - destruct (Z.lt_ge_cases index (Z.of_nat (List.length (dp_Stages p)))) as [Hlt|Hge].
      + left. exists p. split; [reflexivity | exact Hlt].
      + right. intros (p' & Hp' & Hlt). injection Hp' as <-. lia.
    - right. intros (p' & Hp' & _). discriminate. }
  split; [|split; [exact Hin | split; [exact Hout|]]].
  - intros msg. destruct Hdec as [(p & Hp & Hlt)|Hn].
    + destruct (Hin p Hp Hlt) as (stage & _ & ->). discriminate.
    + rewrite (Hout Hn). discriminate.
  - split.
    + intros (stage & Hret). destruct Hdec as [Hy|Hn]; [exact Hy|].
      rewrite (Hout Hn) in Hret. discriminate.
    + intros (p & Hp & Hlt). destruct (Hin p Hp Hlt) as (stage & _ & Hret).
      exists stage. exact Hret.
Qed.




Ltac on_label_in H label :=
  match type of H with
  | context [String.eqb ?name label] =>
      destruct (String.eqb name label) eqn:?; [try discriminate H|]
  end.

Lemma switchCase_WaitApproval (name : Stage) :
  switchCase name = Some CaseWaitApproval ->
  (name =? StageWait)%string = false /\ (name =? StageWaitApproval)%string = true.
Proof.
  unfold switchCase, caseLabels. cbn [find fst snd]. intros H.
  on_label_in H StageWait. on_label_in H StageWaitApproval.
  - split; reflexivity.
  - exfalso.
    on_label_in H StageAnalysis. on_label_in H StageK8sPrimaryRollout.
    on_label_in H StageK8sCanaryRollout. on_label_in H StageK8sCanaryClean.
    on_label_in H StageK8sBaselineRollout. on_label_in H StageK8sBaselineClean.
    on_label_in H StageK8sTrafficRouting. on_label_in H StageTerraformSync.
    on_label_in H StageTerraformPlan. on_label_in H StageTerraformApply.
    on_label_in H StageCloudRunSync. on_label_in H StageCloudRunPromote.
    on_label_in H StageLambdaSync. on_label_in H StageLambdaPromote.
    on_label_in H StageLambdaCanaryRollout. discriminate H.
Qed.

Lemma switchCase_Analysis (name : Stage) :
  switchCase name = Some CaseAnalysis ->
  (name =? StageWait)%string = false /\ (name =? StageWaitApproval)%string = false /\
  (name =? StageAnalysis)%string = true.
Proof.
  unfold switchCase, caseLabels. cbn [find fst snd]. intros H.
  on_label_in H StageWait. on_label_in H StageWaitApproval.
  on_label_in H StageAnalysis.
  - repeat split; reflexivity.
  - exfalso.
    on_label_in H StageK8sPrimaryRollout.
    on_label_in H StageK8sCanaryRollout. on_label_in H StageK8sCanaryClean.
    on_label_in H StageK8sBaselineRollout. on_label_in H StageK8sBaselineClean.
    on_label_in H StageK8sTrafficRouting. on_label_in H StageTerraformSync.
    on_label_in H StageTerraformPlan. on_label_in H StageTerraformApply.
    on_label_in H StageCloudRunSync. on_label_in H StageCloudRunPromote.
    on_label_in H StageLambdaSync. on_label_in H StageLambdaPromote.
    on_label_in H StageLambdaCanaryRollout. discriminate H.
Qed.

Lemma defaultMetricTimeout_spec (m : TemplatableAnalysisMetrics) :
  (am_Timeout (tam_AnalysisMetrics m) <= 0 ->
   am_Timeout (tam_AnalysisMetrics (defaultMetricTimeout m)) = defaultAnalysisQueryTimeout /\
   am_fields (tam_AnalysisMetrics (defaultMetricTimeout m)) = am_fields (tam_AnalysisMetrics m) /\
   tam_Template (defaultMetricTimeout m) = tam_Template m) /\
  (0 < am_Timeout (tam_AnalysisMetrics m) -> defaultMetricTimeout m = m).
Proof.
  unfold defaultMetricTimeout.
  destruct (Z.leb_spec (am_Timeout (tam_AnalysisMetrics m)) 0); split; intros;
    try lia; [repeat split | reflexivity].
Qed.

(** C7.  The defaults of the timeouts.  After [UnmarshalJSON] of a stage
    whose envelope decodes: a WAIT_APPROVAL stage has the timeout that
    [with] configures when that is positive and 6 hours when it is zero,
    negative or [with] is absent; each metric of an ANALYSIS stage keeps a
    positive timeout and has 30 seconds in place of any other, the metrics
    staying in number and order.  After [Validate], a deployment whose
    timeout was zero has 6 hours and any other timeout is kept. *)
Theorem default_timeouts (data : list Byte.byte) (s : PipelineStage)
    (gs : genericPipelineStage) :
  json.Unmarshal data (zero : genericPipelineStage) = (gs, None) ->
  let s' := fst (UnmarshalJSON data s) in
  (defaultWaitApprovalTimeout = 6 * (3600 * 1000000000) /\
   defaultAnalysisQueryTimeout = 30 * 1000000000) /\
  (switchCase (gs_Name gs) = Some CaseWaitApproval ->
   let configured := fst (unmarshalWith (gs_With gs) (zero : WaitApprovalStageOptions)) in
   exists o, ps_WaitApprovalStageOptions s' = Some o /\
             wa_Approvers o = wa_Approvers configured /\
             (wa_Timeout configured <= 0 -> wa_Timeout o = defaultWaitApprovalTimeout) /\
             (gs_With gs = [] -> wa_Timeout o = defaultWaitApprovalTimeout) /\
             (0 < wa_Timeout configured -> wa_Timeout o = wa_Timeout configured)) /\
  (switchCase (gs_Name gs) = Some CaseAnalysis ->
   let configured := fst (unmarshalWith (gs_With gs) (zero : AnalysisStageOptions)) in
   exists o, ps_AnalysisStageOptions s' = Some o /\
             List.length (a_Metrics o) = List.length (a_Metrics configured) /\
             forall i m, nth_error (a_Metrics configured) i = Some m ->
               exists m', nth_error (a_Metrics o) i = Some m' /\
                 (am_Timeout (tam_AnalysisMetrics m) <= 0 ->
                  am_Timeout (tam_AnalysisMetrics m') = defaultAnalysisQueryTimeout) /\
                 (0 < am_Timeout (tam_AnalysisMetrics m) -> m' = m)) /\
  (forall spec : GenericDeploymentSpec,
     (Timeout spec = 0 -> Timeout (fst (Validate spec)) = 6 * time.Hour) /\
     (Timeout spec <> 0 -> Timeout (fst (Validate spec)) = Timeout spec)).
Proof.
  intros Henv s'. subst s'. unfold UnmarshalJSON. rewrite Henv.
  split; [split; reflexivity|].
  split; [|split].
  - intros Hcase. cbv zeta.
    destruct (switchCase_WaitApproval _ Hcase) as [E1 E2].
    destruct s. cbn [set_envelope ps_Name]. rewrite E1, E2.
    assert (Habsent : gs_With gs = [] ->
              unmarshalWith (gs_With gs) (zero : WaitApprovalStageOptions) = (zero, None)).
    { intros ->. reflexivity. }
    destruct (unmarshalWith (gs_With gs) (zero : WaitApprovalStageOptions)) as [o e].
    cbn [fst snd set_WaitApprovalStageOptions ps_WaitApprovalStageOptions].
    eexists. split; [reflexivity|].
    destruct (Z.leb_spec (wa_Timeout o) 0) as [Hle|Hgt]; cbn.
    + repeat split; intros; try reflexivity; lia.
    + repeat split; intros; try reflexivity; try lia.
      specialize (Habsent H). injection Habsent as -> _. cbn in Hgt. lia.
  - intros Hcase. cbv zeta.
    destruct (switchCase_Analysis _ Hcase) as (E1 & E2 & E3).
    destruct s. cbn [set_envelope ps_Name]. rewrite E1, E2, E3.
    destruct (unmarshalWith (gs_With gs) (zero : AnalysisStageOptions)) as [o e].
    cbn [fst snd set_AnalysisStageOptions ps_AnalysisStageOptions].
    eexists. split; [reflexivity|].
    cbn [set_a_Metrics a_Metrics]. split; [apply length_map|].
    intros i m Hm. exists (defaultMetricTimeout m).
    rewrite nth_error_map, Hm. split; [reflexivity|].
    destruct (defaultMetricTimeout_spec m) as [Hle Hgt].
    split; [intros H; apply (Hle H) | exact Hgt].
  - intros spec. unfold Validate.
    destruct (Z.eqb_spec (Timeout spec) 0) as [Hz|Hnz].
    + split; [intros _|intros Hn; now elim Hn].
      cbn [Pipeline set_Timeout]. destruct (Pipeline spec); reflexivity.
    + split; [intros Hz; now elim Hnz|intros _].
      destruct (Pipeline spec); reflexivity.
Qed.

End ConfigFacts.

Lemma GetStage_in_range_witness :
  0 <= 1 /\
  Config.GetStage Sample.twoStages 1
  = Return (Sample.stageNamed model.StageK8sPrimaryRollout, true).
Proof.
  split; [lia|].
  destruct (GetStage_in_range Sample.twoStages 1 ltac:(lia)) as (_ & Hin & _).
  destruct (Hin _ eq_refl ltac:(simpl; lia)) as (stage & Hnth & Hret).
  simpl in Hnth. injection Hnth as <-. exact Hret.
Defined.

Lemma default_timeouts_witness :
  let gs := {| Config.gs_Id := ""; Config.gs_Name := "WAIT_APPROVAL";
               Config.gs_Desc := ""; Config.gs_Timeout := 0; Config.gs_With := [] |} in
  json.Unmarshal [Byte.x01] (zero : Config.genericPipelineStage) = (gs, None) /\
  exists o,
    Config.ps_WaitApprovalStageOptions (fst (Config.UnmarshalJSON [Byte.x01] zero)) = Some o /\
    Config.wa_Timeout o = 21600000000000.
Proof.
  intros gs.
  assert (Henv : json.Unmarshal [Byte.x01] (zero : Config.genericPipelineStage)
                 = (gs, None)) by reflexivity.
  split; [exact Henv|].
  destruct (default_timeouts [Byte.x01] zero gs Henv) as (_ & Happroval & _).
  destruct (Happroval eq_refl) as (o & Ho & _ & _ & Habsent & _).
  exists o. split; [exact Ho | exact (Habsent eq_refl)].
Defined.

(** The wire format of the samples at work: an approval of two hours keeps
    its timeout; of the metrics of an analysis, the one without a timeout
    gets 30 seconds; a kind outside the switch is refused. *)
Example UnmarshalJSON_samples :
  option_map Config.wa_Timeout
    (Config.ps_WaitApprovalStageOptions
       (fst (Config.UnmarshalJSON [Byte.x01; Byte.x02] zero)))
  = Some (2 * time.Hour) /\
  option_map (fun a => map (fun m => Config.am_Timeout (Config.tam_AnalysisMetrics m))
                           (Config.a_Metrics a))
    (Config.ps_AnalysisStageOptions
       (fst (Config.UnmarshalJSON [Byte.x02; Byte.x05; Byte.x00; Byte.x07] zero)))
  = Some [30 * time.Second; 7 * time.Second] /\
  snd (Config.UnmarshalJSON [Byte.x09] zero)
  = Some "unsupported stage name: CUSTOM_SYNC" /\
  Config.UnmarshalJSON [] (Sample.stageNamed "WAIT")
  = (Sample.stageNamed "WAIT", Some "unexpected end of JSON input").
Proof. repeat split. Qed.

(** A wait of five minutes holds its duration after the decoding, a wait
    without [with] the zero duration, and a [with] that does not decode
    leaves the pointer set and gives the error. *)
Example UnmarshalJSON_wait_samples :
  let decode data := Config.UnmarshalJSON (J := SampleMore.waitDecoders) data zero in
  Config.ps_WaitStageOptions (fst (decode [Byte.x00; Byte.x05]))
  = Some {| Config.w_Duration := 5 * time.Minute |} /\
  snd (decode [Byte.x00; Byte.x05]) = None /\
  Config.ps_WaitStageOptions (fst (decode [Byte.x00])) = Some zero /\
  snd (decode [Byte.x00]) = None /\
  Config.ps_WaitStageOptions (fst (decode [Byte.x00; Byte.x05; Byte.x06])) = Some zero /\
  snd (decode [Byte.x00; Byte.x05; Byte.x06])
  = Some "cannot unmarshal into WaitStageOptions" /\
  Config.ps_WaitApprovalStageOptions (fst (decode [Byte.x00; Byte.x05])) = None.
Proof. repeat split. Qed.

(** ** The Kubernetes planner *)

(** The two queries of the planner on paths of a diff: the image query
    takes the image of a container at any index and nothing longer or
    shorter; the replicas query takes [spec.replicas] alone. *)
Example containerImageQuery_sample :
  option_map (fun re => (regexp.MatchString re "spec.template.spec.containers.[0].image",
                         regexp.MatchString re "spec.template.spec.containers.[12].image",
                         regexp.MatchString re "spec.template.spec.containers.[].image",
                         regexp.MatchString re "spec.template.spec.containers.[0].imagePullPolicy",
                         regexp.MatchString re "xspec.template.spec.containers.[0].image"))
    (regexp.Compile K8sPlanner.containerImageQuery)
  = Some (true, true, false, false, false).
Proof. reflexivity. Qed.

Example replicasQuery_sample :
  option_map (fun re => (regexp.MatchString re "spec.replicas",
                         regexp.MatchString re "spec.replicasX",
                         regexp.MatchString re "spec.template.spec.replicas"))
    (regexp.Compile K8sPlanner.replicasQuery)
  = Some (true, false, false).
Proof. reflexivity. Qed.

(** A dot of a query takes one character, of however many bytes: the two
    bytes of e-acute (195, 169) in the place of a dot of the path are taken
    by it, as is the single byte 195, which begins no well-formed sequence;
    two such characters are not, nor is a line feed.  The digits of the
    image query are ASCII digits. *)
Example replicasQuery_characters :
  let e_acute := String "195" (String "169" EmptyString) in
  let stray := String "195" EmptyString in
  let line_feed := String "010" EmptyString in
  map (matchesQuery K8sPlanner.replicasQuery)
      ["spec" ++ e_acute ++ "replicas";
       "spec" ++ stray ++ "replicas";
       "spec" ++ e_acute ++ e_acute ++ "replicas";
       "spec" ++ line_feed ++ "replicas"]
  = [true; true; false; false].
Proof. reflexivity. Qed.

Example containerImageQuery_characters :
  let e_acute := String "195" (String "169" EmptyString) in
  let euro := String "226" (String "130" (String "172" EmptyString)) in
  let wide := String "240" (String "159" (String "152" (String "128" EmptyString))) in
  map (matchesQuery K8sPlanner.containerImageQuery)
      ["spec.template.spec.containers" ++ e_acute ++ "[0].image";
       "spec.template.spec.containers" ++ euro ++ "[0]" ++ wide ++ "image";
       "spec.template.spec.containers.[0" ++ e_acute ++ "].image";
       "spec.template.spec.containers.[" ++ e_acute ++ "].image"]
  = [true; true; false; false].
Proof. reflexivity. Qed.

Example runeWidth_samples :
  map regexp.runeWidth
      [""; "a";
       String "195" (String "169" "x");
       String "195" "x";
       String "169" "x";
       String "192" (String "128" "x");
       String "224" (String "128" (String "128" "x"));
       String "224" (String "160" (String "128" "x"));
       String "237" (String "160" (String "128" "x"));
       String "226" (String "130" EmptyString);
       String "240" (String "144" (String "128" (String "128" "x")));
       String "244" (String "144" (String "128" (String "128" "x")));
       String "245" (String "128" (String "128" (String "128" "x")))]
  = [0; 1; 2; 1; 1; 1; 1; 3; 1; 1; 4; 1; 1]%nat.
Proof. reflexivity. Qed.

Section PlannerFacts.
Import provider K8sPlanner.

Context `{K : Kubernetes} `{B : @PipelineBuilders K} {A : @ManifestAccess K}.

Lemma In_FindAll (l : DiffResultList) (query : string) (d : DiffResult) :
  In d (FindAll l query) <->
  In d l /\ exists re, regexp.Compile query = Some re /\
                       regexp.MatchString re (Path d) = true.
Proof.
  unfold FindAll. destruct (regexp.Compile query) as [re|].
  - rewrite filter_In. split.
    + intros [Hin Hm]. split; [exact Hin|]. exists re. split; [reflexivity | exact Hm].
    + intros [Hin (re' & Hre & Hm)]. injection Hre as <-. split; assumption.
  - split; [contradiction|]. intros [_ (re & Hre & _)]. discriminate.
Qed.

Lemma describeImage_same_name (d : DiffResult) :
  fst (parseContainerImage (Before d)) = fst (parseContainerImage (After d)) ->
  describeImage d
  = "image " ++ fst (parseContainerImage (Before d))
    ++ " from " ++ snd (parseContainerImage (Before d))
    ++ " to " ++ snd (parseContainerImage (After d)).
Proof.
  unfold describeImage.
  destruct (parseContainerImage (Before d)) as [bn bt].
  destruct (parseContainerImage (After d)) as [an at_].
  cbn [fst snd]. intros ->. now rewrite String.eqb_refl.
Qed.

Lemma checkImageChange_describes (l : DiffResultList) (d : DiffResult) :
  In d (FindAll l containerImageQuery) ->
  snd (checkImageChange l) = true /\
  strings.Contains (fst (checkImageChange l)) (describeImage d) = true.
Proof.
  intros Hin. unfold checkImageChange.
  destruct (FindAll l containerImageQuery) as [|d0 rest] eqn:E; [contradiction|].
  cbn [List.length]. destruct (Z.eqb_spec (Z.of_nat (S (List.length rest))) 0); [lia|].
  cbn [fst snd]. split; [reflexivity|].
  apply Contains_app_r, Contains_app_l, Contains_Join, in_map, Hin.
Qed.

Lemma nonempty_length {X : Type} (l : list X) :
  l <> [] -> (Z.of_nat (List.length l) >? 0) = true.
Proof.
  destruct l; [intros H; now elim H|]. intros _. cbn [List.length].
  apply Z.gtb_lt. lia.
Qed.

(** C3.  When both sets have a workload and the diff of the two workloads
    has a record below [spec.template], [decideStrategy] answers
    progressive; its answer is then fixed by the records below
    [spec.template]: whatever else the diff holds, a record for
    [spec.replicas] included, changes nothing.  For each such record whose
    path is the image of a container and whose image keeps its name, the
    description contains "image NAME from TAG to TAG" with the name and the
    tags before and after. *)
Theorem decideStrategy_template_change
    (olds news : list Manifest) (oldWorkload newWorkload : Manifest) :
  findWorkload olds = (oldWorkload, true) ->
  findWorkload news = (newWorkload, true) ->
  FindByPrefix (Diff oldWorkload newWorkload "spec") "spec.template" <> [] ->
  fst (decideStrategy olds news) = true /\
  (forall A' : @ManifestAccess K,
     FindByPrefix (Diff (ManifestAccess := A') oldWorkload newWorkload "spec")
                  "spec.template"
     = FindByPrefix (Diff (ManifestAccess := A) oldWorkload newWorkload "spec")
                    "spec.template" ->
     decideStrategy (A := A') olds news = decideStrategy (A := A) olds news) /\
  (forall d,
     In d (FindAll (Diff oldWorkload newWorkload "spec") containerImageQuery) ->
     strings.HasPrefix (Path d) "spec.template" = true ->
     fst (parseContainerImage (Before d)) = fst (parseContainerImage (After d)) ->
     strings.Contains (snd (decideStrategy olds news))
       ("image " ++ fst (parseContainerImage (Before d))
        ++ " from " ++ snd (parseContainerImage (Before d))
        ++ " to " ++ snd (parseContainerImage (After d))) = true).
Proof.
  intros Hold Hnew Hne.
  pose proof (nonempty_length _ Hne) as Hlen.
  split; [|split].
  - unfold decideStrategy. rewrite Hold, Hnew. cbn [negb]. rewrite Hlen.
    destruct (checkImageChange _) as [msg [|]]; reflexivity.
  - intros A' Heq. unfold decideStrategy. rewrite Hold, Hnew. cbn [negb].
    rewrite Heq, Hlen. reflexivity.
  - intros d Hin Hprefix Hname.
    unfold decideStrategy. rewrite Hold, Hnew. cbn [negb]. rewrite Hlen.
    assert (Hd : In d (FindAll (FindByPrefix (Diff oldWorkload newWorkload "spec")
                                             "spec.template") containerImageQuery)).
    { apply In_FindAll in Hin. destruct Hin as [Hin Hm].
      apply In_FindAll. split; [|exact Hm].
      unfold FindByPrefix. apply filter_In. split; assumption. }
    destruct (checkImageChange_describes _ _ Hd) as [Hchanged Hdesc].
    destruct (checkImageChange _) as [msg changed]. cbn [fst snd] in *.
    rewrite Hchanged. cbn [snd]. rewrite <- describeImage_same_name by exact Hname.
    exact Hdesc.
Qed.

(** C4.  When both sets have a workload and the diff of the two workloads
    is the one record of [spec.replicas], [decideStrategy] answers not
    progressive with the description "Scale workload from BEFORE to
    AFTER.". *)
Theorem decideStrategy_scale_only
    (olds news : list Manifest) (oldWorkload newWorkload : Manifest)
    (before after : string) :
  findWorkload olds = (oldWorkload, true) ->
  findWorkload news = (newWorkload, true) ->
  Diff oldWorkload newWorkload "spec"
  = [{| Path := "spec.replicas"; Before := before; After := after |}] ->
  decideStrategy olds news
  = (false, "Scale workload from " ++ before ++ " to " ++ after ++ ".").
Proof.
  intros Hold Hnew Hdiff.
  unfold decideStrategy. rewrite Hold, Hnew, Hdiff. reflexivity.
Qed.

End PlannerFacts.

Lemma decideStrategy_template_change_witness :
  strings.Contains
    (snd (K8sPlanner.decideStrategy (K := Sample.kubernetes)
            (Sample.manifestsAt "c0") (Sample.manifestsAt "c1")))
    "image app from 1.2 to 1.3" = true.
Proof.
  assert (Hne : provider.FindByPrefix
                  (provider.Diff (H := Sample.kubernetes)
                     (Sample.workload "3" "app:1.2") (Sample.workload "3" "app:1.3")
                     "spec")
                  "spec.template" <> []) by (vm_compute; discriminate).
  destruct (decideStrategy_template_change (K := Sample.kubernetes)
              (Sample.manifestsAt "c0") (Sample.manifestsAt "c1")
              (Sample.workload "3" "app:1.2") (Sample.workload "3" "app:1.3")
              eq_refl eq_refl Hne) as (_ & _ & Himage).
  exact (Himage {| provider.Path := "spec.template.spec.containers.[0].image";
                   provider.Before := "app:1.2"; provider.After := "app:1.3" |}
                (or_introl eq_refl) eq_refl eq_refl).
Defined.

Lemma decideStrategy_scale_only_witness :
  K8sPlanner.decideStrategy (K := Sample.kubernetes)
    (Sample.manifestsAt "c0") (Sample.manifestsAt "c2")
  = (false, "Scale workload from 3 to 5.").
Proof.
  exact (decideStrategy_scale_only (K := Sample.kubernetes)
           (Sample.manifestsAt "c0") (Sample.manifestsAt "c2")
           (Sample.workload "3" "app:1.2") (Sample.workload "5" "app:1.2")
           "3" "5" eq_refl eq_refl eq_refl).
Defined.

Section PlanFacts.
Import provider K8sPlanner.

Context `{K : Kubernetes} `{B : @PipelineBuilders K} {A : @ManifestAccess K}.

(** C1, as the code has it.  For an input that carries a
    KubernetesDeploymentSpec and whose MostRecentSuccessfulCommitHash is
    empty, [Plan] returns without error the stages of [buildPipeline] at the
    time read from the clock and the description "Apply all manifests
    because it was unable to find the most recent successful commit."; the
    world is changed by the reading of the clock only, and nothing depends
    on the access to manifests: no manifest is loaded or compared. *)
Theorem Plan_first_deployment
    (input : Input) (cfg : KubernetesDeploymentSpec) (w : World) :
  config_KubernetesDeploymentSpec (in_DeploymentConfig input) = Some cfg ->
  in_MostRecentSuccessfulCommitHash input = "" ->
  Plan input w
  = (({| Stages := buildPipeline (fst (time_Now w));
         Description := "Apply all manifests because it was unable to find the most recent successful commit." |},
      None),
     snd (time_Now w)) /\
  strings.Contains (Description (fst (fst (Plan input w))))
                   "unable to find the most recent successful commit" = true /\
  (forall A' : @ManifestAccess K, Plan (A := A') input w = Plan (A := A) input w).
Proof.
  intros Hcfg Hhash.
  assert (Hrun : forall A0 : @ManifestAccess K,
            Plan (A := A0) input w
            = (({| Stages := buildPipeline (fst (time_Now w));
                   Description := "Apply all manifests because it was unable to find the most recent successful commit." |},
                None),
               snd (time_Now w))).
  { intros A0. unfold Plan. rewrite Hcfg, Hhash. cbn [String.eqb].
    unfold bind, ret. destruct (time_Now w) as [now w']. reflexivity. }
  split; [apply Hrun|]. split.
  - rewrite (Hrun A). reflexivity.
  - intros A'. now rewrite (Hrun A'), (Hrun A).
Qed.

(** C2, as the code has it.  For an input that carries a
    KubernetesDeploymentSpec, whose MostRecentSuccessfulCommitHash is not
    empty and whose commit message contains "/pipecd rollback ", [Plan]
    returns without error the stages of [buildPipeline] and the description
    "Rollback from commit HASH."; the world is changed by the reading of the
    clock only, and nothing depends on the access to manifests. *)
Theorem Plan_rollback
    (input : Input) (cfg : KubernetesDeploymentSpec) (w : World) :
  config_KubernetesDeploymentSpec (in_DeploymentConfig input) = Some cfg ->
  in_MostRecentSuccessfulCommitHash input <> "" ->
  strings.Contains (Message (trigger_Commit (Trigger (in_Deployment input))))
                   "/pipecd rollback " = true ->
  Plan input w
  = (({| Stages := buildPipeline (fst (time_Now w));
         Description := "Rollback from commit "
                        ++ in_MostRecentSuccessfulCommitHash input ++ "." |},
      None),
     snd (time_Now w)) /\
  (forall A' : @ManifestAccess K, Plan (A := A') input w = Plan (A := A) input w).
Proof.
  intros Hcfg Hhash Hmsg.
  assert (Hrun : forall A0 : @ManifestAccess K,
            Plan (A := A0) input w
            = (({| Stages := buildPipeline (fst (time_Now w));
                   Description := "Rollback from commit "
                                  ++ in_MostRecentSuccessfulCommitHash input ++ "." |},
                None),
               snd (time_Now w))).
  { intros A0. unfold Plan. rewrite Hcfg, Hmsg.
    destruct (String.eqb_spec (in_MostRecentSuccessfulCommitHash input) "") as [He|_];
      [now elim Hhash|].
    unfold bind, ret. destruct (time_Now w) as [now w']. reflexivity. }
  split; [apply Hrun|].
  intros A'. now rewrite (Hrun A'), (Hrun A).
Qed.

End PlanFacts.

Lemma Plan_first_deployment_witness :
  let input := Sample.planInput (Some Sample.k8sSpec) "" "add the application" in
  K8sPlanner.in_MostRecentSuccessfulCommitHash input = "" /\
  fst (K8sPlanner.Plan input (Sample.at_ "c1" 100))
  = ({| K8sPlanner.Stages := [("K8S_SYNC", 100)];
        K8sPlanner.Description := "Apply all manifests because it was unable to find the most recent successful commit." |},
     None).
Proof.
  intros input. split; [reflexivity|].
  destruct (Plan_first_deployment input Sample.k8sSpec (Sample.at_ "c1" 100)
              eq_refl eq_refl) as (Hrun & _).
  rewrite Hrun. reflexivity.
Defined.

Lemma Plan_rollback_witness :
  let input := Sample.planInput (Some Sample.k8sSpec) "c0"
                 "Revert the image /pipecd rollback c1" in
  fst (K8sPlanner.Plan input (Sample.at_ "c2" 100))
  = ({| K8sPlanner.Stages := [("K8S_SYNC", 100)];
        K8sPlanner.Description := "Rollback from commit c0." |},
     None).
Proof.
  intros input.
  destruct (Plan_rollback input Sample.k8sSpec (Sample.at_ "c2" 100)
              eq_refl ltac:(discriminate) eq_refl) as (Hrun & _).
  rewrite Hrun. reflexivity.
Defined.

(** C1 as the spec words it fails on an input without a
    KubernetesDeploymentSpec: [Plan] returns the error of the malformed
    configuration and no stage. *)
Lemma Plan_first_deployment_counterexample :
  ~ (forall (input : K8sPlanner.Input) (w : Sample.World),
       K8sPlanner.in_MostRecentSuccessfulCommitHash input = "" ->
       K8sPlanner.Stages (fst (fst (K8sPlanner.Plan input w)))
       = K8sPlanner.buildPipeline (fst (provider.time_Now w)) /\
       strings.Contains (K8sPlanner.Description (fst (fst (K8sPlanner.Plan input w))))
                        "unable to find the most recent successful commit" = true).
Proof.
  intros H.
  destruct (H (Sample.planInput None "" "add the application") (Sample.at_ "c1" 100)
              eq_refl) as [Hstages _].
  vm_compute in Hstages. discriminate Hstages.
Qed.

(** C2 as the spec words it fails on the same kind of input. *)
Lemma Plan_rollback_counterexample :
  ~ (forall (input : K8sPlanner.Input) (w : Sample.World),
       K8sPlanner.in_MostRecentSuccessfulCommitHash input <> "" ->
       strings.Contains
         (K8sPlanner.Message
            (K8sPlanner.trigger_Commit (K8sPlanner.Trigger (K8sPlanner.in_Deployment input))))
         "/pipecd rollback " = true ->
       K8sPlanner.Stages (fst (fst (K8sPlanner.Plan input w)))
       = K8sPlanner.buildPipeline (fst (provider.time_Now w))).
Proof.
  intros H.
  pose proof (H (Sample.planInput None "c0" "Revert the image /pipecd rollback c1")
                (Sample.at_ "c2" 100) ltac:(discriminate) eq_refl) as Hstages.
  vm_compute in Hstages. discriminate Hstages.
Qed.

Section PlanDeterminism.
Import provider K8sPlanner.

Context `{K : Kubernetes} `{B : @PipelineBuilders K} {A : @ManifestAccess K}.

Variable R : World -> World -> Prop.

Lemma sameOutcome_ret (out : Output) (err : option error) (w1 w2 : World) :
  R w1 w2 -> sameOutcome R (ret (out, err) w1) (ret (out, err) w2).
Proof. intros HR. unfold sameOutcome, ret. cbn [fst snd]. repeat split; exact HR. Qed.

Lemma sameOutcome_bind {X : Type} (m1 m2 : M World X)
    (k1 k2 : X -> M World (Output * option error)) (w1 w2 : World) :
  answerAlike R m1 m2 ->
  R w1 w2 ->
  (forall x w1' w2', R w1' w2' -> sameOutcome R (k1 x w1') (k2 x w2')) ->
  sameOutcome R (bind m1 k1 w1) (bind m2 k2 w2).
Proof.
  intros Halike HR Hk. unfold bind.
  destruct (Halike _ _ HR) as [Hx HR'].
  destruct (m1 w1) as [x1 w1'], (m2 w2) as [x2 w2'].
  cbn [fst snd] in Hx, HR'. subst x2. apply Hk, HR'.
Qed.

(** The end of [Plan], from the reading of the clock on: [f] makes the
    output from the time read, and its description does not depend on it. *)
Lemma sameOutcome_finish (f : Time -> Output) (w1 w2 : World) :
  (forall t1 t2, Description (f t1) = Description (f t2)) ->
  keepsRelated R time_Now time_Now ->
  R w1 w2 ->
  sameOutcome R (bind time_Now (fun now => ret (f now, @None error)) w1)
                (bind time_Now (fun now => ret (f now, @None error)) w2).
Proof.
  intros Hdesc Hkeep HR. unfold sameOutcome, bind, ret.
  pose proof (Hkeep _ _ HR) as HR'.
  assert (Hclock : answerAlike R time_Now time_Now ->
                   fst (time_Now w1) = fst (time_Now w2)).
  { intros Halike. apply (Halike _ _ HR). }
  destruct (time_Now w1) as [now1 w1'], (time_Now w2) as [now2 w2'].
  cbn [fst snd] in *. split; [apply Hdesc|]. split; [reflexivity|].
  split; [exact HR'|].
  intros Halike. now rewrite (Hclock Halike).
Qed.

(** C5, as the code has it.  Take two runs of [Plan] whose inputs agree on
    the deployment configuration, on MostRecentSuccessfulCommitHash and on
    the commit message, in worlds that are related and give equal answers
    to the provider's [Init] and [LoadManifests] and to [Checkout] (equal
    manifests, new and old, or equal errors), staying related.  Then the
    two runs return the same description and the same error and end in
    related worlds; when the clock, too, reads the same in related worlds,
    the whole output, stages included, is the same. *)
Theorem Plan_deterministic (in1 in2 : Input) :
  in_DeploymentConfig in1 = in_DeploymentConfig in2 ->
  in_MostRecentSuccessfulCommitHash in1 = in_MostRecentSuccessfulCommitHash in2 ->
  Message (trigger_Commit (Trigger (in_Deployment in1)))
  = Message (trigger_Commit (Trigger (in_Deployment in2))) ->
  keepsRelated R time_Now time_Now ->
  (forall i, answerAlike R (Provider_Init (in_RepoDir in1) (in_AppDir in1) i)
                           (Provider_Init (in_RepoDir in2) (in_AppDir in2) i)) ->
  (forall i, answerAlike R (Provider_LoadManifests (in_RepoDir in1) (in_AppDir in1) i)
                           (Provider_LoadManifests (in_RepoDir in2) (in_AppDir in2) i)) ->
  answerAlike R (Repo_Checkout (in_Repo in1) (in_MostRecentSuccessfulCommitHash in1))
                (Repo_Checkout (in_Repo in2) (in_MostRecentSuccessfulCommitHash in1)) ->
  forall w1 w2, R w1 w2 ->
    Description (fst (fst (Plan in1 w1))) = Description (fst (fst (Plan in2 w2))) /\
    snd (fst (Plan in1 w1)) = snd (fst (Plan in2 w2)) /\
    R (snd (Plan in1 w1)) (snd (Plan in2 w2)) /\
    (answerAlike R time_Now time_Now -> fst (Plan in1 w1) = fst (Plan in2 w2)).
Proof.
  intros Hcfg Hhash Hmsg Hkeep Hinit Hload Hcheckout w1 w2 HR.
  change (sameOutcome R (Plan in1 w1) (Plan in2 w2)).
  unfold Plan. rewrite <- Hcfg, <- Hhash, <- Hmsg.
  destruct (config_KubernetesDeploymentSpec (in_DeploymentConfig in1)) as [cfg|];
    [|apply sameOutcome_ret, HR].
  destruct (in_MostRecentSuccessfulCommitHash in1 =? "")%string.
  { apply (sameOutcome_finish (fun now => _)); [reflexivity | assumption..]. }
  destruct (strings.Contains _ "/pipecd rollback ").
  { apply (sameOutcome_finish (fun now => _)); [reflexivity | assumption..]. }
  cbv zeta.
  apply sameOutcome_bind; [apply Hinit | exact HR |].
  intros [e|] w1a w2a HR1; [apply sameOutcome_ret, HR1|].
  apply sameOutcome_bind; [apply Hload | exact HR1 |].
  intros [news [e|]] w1b w2b HR2; [apply sameOutcome_ret, HR2|].
  apply sameOutcome_bind; [apply Hcheckout | exact HR2 |].
  intros [e|] w1c w2c HR3; [apply sameOutcome_ret, HR3|].
  apply sameOutcome_bind; [apply Hload | exact HR3 |].
  intros [olds [e|]] w1d w2d HR4; [apply sameOutcome_ret, HR4|].
  destruct (decideStrategy olds news) as [[|] desc];
    (apply (sameOutcome_finish (fun now => _)); [reflexivity | assumption..]).
Qed.

End PlanDeterminism.

Lemma answerAlike_eq {W X : Type} (m : M W X) : answerAlike eq m m.
Proof. intros w1 w2 <-. split; reflexivity. Qed.

Lemma keepsRelated_eq {W X : Type} (m : M W X) : keepsRelated eq m m.
Proof. intros w1 w2 <-. reflexivity. Qed.

Lemma Plan_deterministic_witness :
  let in1 := Sample.planInput (Some Sample.k8sSpec) "c0" "Use the new image" in
  let in2 := {| K8sPlanner.in_Deployment := K8sPlanner.in_Deployment in1;
                K8sPlanner.in_MostRecentSuccessfulCommitHash := "c0";
                K8sPlanner.in_DeploymentConfig := K8sPlanner.in_DeploymentConfig in1;
                K8sPlanner.in_Repo := tt;
                K8sPlanner.in_RepoDir := "/another/clone";
                K8sPlanner.in_AppDir := "/another/clone/app" |} in
  fst (K8sPlanner.Plan in1 (Sample.at_ "c1" 100))
  = fst (K8sPlanner.Plan in2 (Sample.at_ "c1" 100)).
Proof.
  intros in1 in2.
  refine (proj2 (proj2 (proj2
            (Plan_deterministic eq in1 in2 eq_refl eq_refl eq_refl
               (keepsRelated_eq _) (fun i => answerAlike_eq _)
               (fun i => answerAlike_eq _) (answerAlike_eq _)
               (Sample.at_ "c1" 100) (Sample.at_ "c1" 100) eq_refl)))
            (answerAlike_eq _)).
Defined.

(** C5 as the spec words it fails: commits [c0] and [c3] hold the same
    manifests, and two inputs that differ in nothing but in naming the one
    or the other as the last successful commit get two descriptions. *)
Lemma Plan_deterministic_counterexample :
  ~ (forall (in1 in2 : K8sPlanner.Input) (w : Sample.World),
       K8sPlanner.in_DeploymentConfig in1 = K8sPlanner.in_DeploymentConfig in2 ->
       K8sPlanner.Message
         (K8sPlanner.trigger_Commit (K8sPlanner.Trigger (K8sPlanner.in_Deployment in1)))
       = K8sPlanner.Message
           (K8sPlanner.trigger_Commit (K8sPlanner.Trigger (K8sPlanner.in_Deployment in2))) ->
       Sample.manifestsAt (K8sPlanner.in_MostRecentSuccessfulCommitHash in1)
       = Sample.manifestsAt (K8sPlanner.in_MostRecentSuccessfulCommitHash in2) ->
       fst (K8sPlanner.Plan in1 w) = fst (K8sPlanner.Plan in2 w)).
Proof.
  intros H.
  pose proof (H (Sample.planInput (Some Sample.k8sSpec) "c0"
                   "Revert the image /pipecd rollback c1")
                (Sample.planInput (Some Sample.k8sSpec) "c3"
                   "Revert the image /pipecd rollback c1")
                (Sample.at_ "c2" 100) eq_refl eq_refl eq_refl) as Heq.
  vm_compute in Heq. discriminate Heq.
Qed.

(** The stages of the samples carry the time they were made at: the same
    input planned at two times gives two stage lists. *)
Example Plan_reads_the_clock :
  let input := Sample.planInput (Some Sample.k8sSpec) "" "add the application" in
  K8sPlanner.Stages (fst (fst (K8sPlanner.Plan input (Sample.at_ "c1" 100))))
  <> K8sPlanner.Stages (fst (fst (K8sPlanner.Plan input (Sample.at_ "c1" 200)))).
Proof. vm_compute. discriminate. Qed.

(** ** The ECS executor *)

Section ECSFacts.
Import model ECS.

Context `{T : Types} `{N : StageNames} {H : @Helpers T} {C : @CloudSync T}.

(** C8, as the code has it.  Given a stage other than ECSSync, [Execute]
    returns STAGE_FAILURE whenever [GetReadOnly] gives an error or a deploy
    source with its configuration (when it gives neither, the call panics
    on the nil pointer and returns nothing), and nothing of what it does
    depends on [sync]: the cloud provider is not called.  When the deploy
    source is there, carries an ECS spec and the cloud provider is found,
    the world it leaves is the one after these steps with the line
    "Unsupported stage NAME for ECS application" added to the log. *)
Theorem Execute_unsupported_stage (e : deployExecutor) (sig : StopSignal) (w : World) :
  Name (Stage (executor_Input e)) <> StageECSSync ->
  fst (fst (Execute e sig w))
  = (if sourceOrError (fst (GetReadOnly (TargetDSP (executor_Input e)) (sig_Context sig) w))
     then Return StageStatus_STAGE_FAILURE
     else Panic nilDereference) /\
  (forall C' : @CloudSync T, Execute (C := C') e sig w = Execute (C := C) e sig w) /\
  (forall ds config w1 name cfg w2,
     GetReadOnly (TargetDSP (executor_Input e)) (sig_Context sig) w
     = ((Some ds, None), w1) ->
     DeploymentConfig ds = Some config ->
     ECSDeploymentSpec_of config <> None ->
     findCloudProvider (executor_Input e) w1 = ((name, cfg, true), w2) ->
     snd (Execute e sig w)
     = {| logs := logs w2 ++ ["Unsupported stage " ++ Name (Stage (executor_Input e))
                              ++ " for ECS application"];
          surroundings := surroundings w2 |}).
Proof.
  intros Hstage.
  assert (Hneq : (Name (Stage (executor_Input e)) =? StageECSSync)%string = false).
  { destruct (String.eqb_spec (Name (Stage (executor_Input e))) StageECSSync);
      [contradiction | reflexivity]. }
  split; [|split].
  - unfold Execute, bind, ret, Errorf, sourceOrError,
      set_cloudProvider, set_deployCfg, set_deploySource.
    destruct (GetReadOnly _ _ w) as [[[ds|] [err|]] w1]; cbn [fst snd];
      try reflexivity.
    destruct (DeploymentConfig ds) as [config|]; [|reflexivity].
    cbn [deployCfg executor_Input].
    destruct (ECSDeploymentSpec_of config); [|reflexivity].
    destruct (findCloudProvider _ w1) as [[[name cfg] [|]] w2]; cbn [negb];
      [|reflexivity].
    cbn [executor_Input]. rewrite Hneq. reflexivity.
  - intros C'. unfold Execute, bind, ret, Errorf,
      set_cloudProvider, set_deployCfg, set_deploySource.
    destruct (GetReadOnly _ _ w) as [[[ds|] [err|]] w1]; try reflexivity.
    destruct (DeploymentConfig ds) as [config|]; [|reflexivity].
    cbn [deployCfg executor_Input].
    destruct (ECSDeploymentSpec_of config); [|reflexivity].
    destruct (findCloudProvider _ w1) as [[[name cfg] [|]] w2]; cbn [negb];
      [|reflexivity].
    cbn [executor_Input]. rewrite Hneq. reflexivity.
  - intros ds config w1 name cfg w2 Hds Hconfig Hspec Hfind.
    unfold Execute, bind, ret, Errorf, set_cloudProvider, set_deployCfg, set_deploySource.
    rewrite Hds, Hconfig. cbn [deployCfg executor_Input].
    destruct (ECSDeploymentSpec_of config); [|now elim Hspec].
    rewrite Hfind. cbn [negb executor_Input].
    rewrite Hneq. reflexivity.
Qed.

End ECSFacts.

Lemma Execute_unsupported_stage_witness :
  ECS.Name (ECS.Stage (ECS.executor_Input
                         (Sample.ecsExecutor "ECS_PROMOTE" (true, true) "ecs-dev")))
  <> model.StageECSSync /\
  fst (fst (ECS.Execute (Sample.ecsExecutor "ECS_PROMOTE" (true, true) "ecs-dev")
                        Sample.ecsSignal Sample.emptyLog))
  = Return model.StageStatus_STAGE_FAILURE /\
  ECS.logs (snd (ECS.Execute (Sample.ecsExecutor "ECS_PROMOTE" (true, true) "ecs-dev")
                             Sample.ecsSignal Sample.emptyLog))
  = ["Unsupported stage ECS_PROMOTE for ECS application"].
Proof.
  assert (Hstage : ECS.Name (ECS.Stage (ECS.executor_Input
                     (Sample.ecsExecutor "ECS_PROMOTE" (true, true) "ecs-dev")))
                   <> model.StageECSSync) by discriminate.
  split; [exact Hstage|].
  destruct (Execute_unsupported_stage
              (Sample.ecsExecutor "ECS_PROMOTE" (true, true) "ecs-dev")
              Sample.ecsSignal Sample.emptyLog Hstage) as (Hstatus & _ & Hlog).
  split; [exact Hstatus|].
  rewrite (Hlog _ _ _ _ _ _ eq_refl eq_refl ltac:(discriminate) eq_refl). reflexivity.
Defined.

(** C8 as the spec words it fails when the deploy source cannot be
    prepared: the stage fails before its name is looked at, and the only
    line of the log tells of the deploy source, not of an unsupported stage
    (whichever the case of the first letter). *)
Lemma Execute_unsupported_stage_counterexample :
  ~ (forall (e : ECS.deployExecutor) (sig : ECS.StopSignal) (w : ECS.World),
       ECS.Name (ECS.Stage (ECS.executor_Input e)) <> model.StageECSSync ->
       fst (fst (ECS.Execute e sig w)) = Return model.StageStatus_STAGE_FAILURE /\
       exists line, In line (ECS.logs (snd (ECS.Execute e sig w))) /\
                    strings.Contains line "nsupported stage" = true).
Proof.
  intros H.
  destruct (H (Sample.ecsExecutor "ECS_PROMOTE" (false, true) "ecs-dev")
              Sample.ecsSignal Sample.emptyLog ltac:(discriminate))
    as (_ & line & Hin & Hline).
  vm_compute in Hin. destruct Hin as [<-|[]].
  vm_compute in Hline. discriminate Hline.
Qed.

(** The supported stage on the same executor reaches the cloud provider. *)
Example Execute_ECSSync_sample :
  let r := ECS.Execute (Sample.ecsExecutor "ECS_SYNC" (true, true) "ecs-dev")
                       Sample.ecsSignal Sample.emptyLog in
  fst (fst r) = Return model.StageStatus_STAGE_SUCCESS /\
  ECS.logs (snd r) = ["synced to ecs-dev"].
Proof. split; reflexivity. Qed.

(** ** The commands *)



(** Two required flags are named in the order of their names, each in
    quotes of its own. *)
Example ValidateRequiredFlags_two :
  let cmd :=
    cobra.MarkFlagRequired "cert-file"
      (cobra.MarkFlagRequired "tools-dir"
         (cobra.StringVar "" "cert-file" ""
            (cobra.StringVar "" "tools-dir" ""
               {| cobra.Use := "sample"; cobra.Short := ""; cobra.Flags := [] |}))) in
  cobra.ValidateRequiredFlags cmd ["insecure"]
  = Some ("required flag(s) " ++ cobra.quote ++ "cert-file" ++ cobra.quote ++ ", "
          ++ cobra.quote ++ "tools-dir" ++ cobra.quote ++ " not set").
Proof. reflexivity. Qed.

(** * Further properties of the embedded code *)

(** ** Stage configuration: [Validate], [HasStage], [GetStage] *)

Section ConfigMore.
Import model Config.

Context `{D : Declared} `{N : StageNames} `{J : Decoders}.

Lemma validateStages_error (stages : list PipelineStage) :
  (validateStages stages = None \/
   validateStages stages = Some "the ANALYSIS stage requires duration field") /\
  (validateStages stages <> None <->
   exists stage a, In stage stages /\ ps_AnalysisStageOptions stage = Some a /\
                   a_Duration a = 0).
Proof.
  induction stages as [|stage rest [IHor IHiff]]; cbn [validateStages].
  - split; [left; reflexivity|]. split; [intros H; now elim H|].
    intros (stage & a & [] & _).
  - destruct (ps_AnalysisStageOptions stage) as [a|] eqn:Ea.
    + unfold AnalysisStageOptions_Validate.
      destruct (Z.eqb_spec (a_Duration a) 0) as [Hz|Hnz].
      * split; [right; reflexivity|]. split; [intros _|discriminate].
        exists stage, a. repeat split; [left; reflexivity | exact Ea | exact Hz].
      * split; [exact IHor|]. rewrite IHiff. split.
        -- intros (st & a' & Hin & Ha' & Hz). exists st, a'.
           repeat split; [right; exact Hin | exact Ha' | exact Hz].
        -- intros (st & a' & [<-|Hin] & Ha' & Hz).
           ++ rewrite Ea in Ha'. injection Ha' as <-. contradiction.
           ++ exists st, a'. repeat split; assumption.
    + split; [exact IHor|]. rewrite IHiff. split.
      * intros (st & a' & Hin & Ha' & Hz). exists st, a'.
        repeat split; [right; exact Hin | exact Ha' | exact Hz].
      * intros (st & a' & [<-|Hin] & Ha' & Hz).
        -- rewrite Ea in Ha'. discriminate.
        -- exists st, a'. repeat split; assumption.
Qed.

Lemma Validate_fst (s : GenericDeploymentSpec) :
  fst (Validate s) = if Timeout s =? 0 then set_Timeout (6 * time.Hour) s else s.
Proof.
  unfold Validate. destruct (Timeout s =? 0); cbn [Pipeline set_Timeout];
    destruct (Pipeline s); reflexivity.
Qed.

Lemma Validate_snd (s : GenericDeploymentSpec) :
  snd (Validate s) = match Pipeline s with
                     | Some p => validateStages (dp_Stages p)
                     | None => None
                     end.
Proof.
  unfold Validate. destruct (Timeout s =? 0); cbn [Pipeline set_Timeout];
    destruct (Pipeline s); reflexivity.
Qed.

(** X1.  [Validate] fails exactly when the pipeline is set and one of its
    stages carries analysis options whose duration is zero, and its only
    error is "the ANALYSIS stage requires duration field": no other stage
    option and no other field of the deployment is checked. *)
Theorem Validate_error (s : GenericDeploymentSpec) :
  (snd (Validate s) = None \/
   snd (Validate s) = Some "the ANALYSIS stage requires duration field") /\
  (snd (Validate s) <> None <->
   exists p stage a,
     Pipeline s = Some p /\ In stage (dp_Stages p) /\
     ps_AnalysisStageOptions stage = Some a /\ a_Duration a = 0).
Proof.
  rewrite Validate_snd. destruct (Pipeline s) as [p|].
  - destruct (validateStages_error (dp_Stages p)) as [Hor Hiff].
    split; [exact Hor|]. rewrite Hiff. split.
    + intros (stage & a & H). exists p, stage, a. split; [reflexivity | exact H].
    + intros (p' & stage & a & Hp' & H). injection Hp' as <-. exists stage, a. exact H.
  - split; [left; reflexivity|]. split; [intros H; now elim H|].
    intros (p & _ & _ & Hp' & _). discriminate.
Qed.

(** X2.  What [Validate] leaves behind: a timeout that is not zero, and
    every other field as it was, the pipeline included; validating the
    result again changes nothing and gives the same error. *)
Theorem Validate_invariants (s : GenericDeploymentSpec) :
  let s' := fst (Validate s) in
  Timeout s' <> 0 /\
  Pipeline s' = Pipeline s /\
  CommitMatcher s' = CommitMatcher s /\
  SealedSecrets s' = SealedSecrets s /\
  TriggerPaths s' = TriggerPaths s /\
  Validate s' = (s', snd (Validate s)).
Proof.
  cbv zeta.
  assert (Hfields : Timeout (fst (Validate s)) <> 0 /\
                    Pipeline (fst (Validate s)) = Pipeline s /\
                    CommitMatcher (fst (Validate s)) = CommitMatcher s /\
                    SealedSecrets (fst (Validate s)) = SealedSecrets s /\
                    TriggerPaths (fst (Validate s)) = TriggerPaths s).
  { rewrite Validate_fst. destruct (Z.eqb_spec (Timeout s) 0) as [Hz|Hnz].
    - cbn. repeat split. discriminate.
    - repeat split. exact Hnz. }
  destruct Hfields as (Ht & Hp & Hc & Hs & Hr).
  repeat (split; [assumption|]).
  rewrite (surjective_pairing (Validate (fst (Validate s)))).
  rewrite Validate_fst, (Validate_snd (fst (Validate s))), Hp, <- Validate_snd.
  destruct (Z.eqb_spec (Timeout (fst (Validate s))) 0) as [Hz|_];
    [contradiction | reflexivity].
Qed.

(** X3.  [HasStage] and [GetStage] agree: a stage name is in the pipeline
    exactly when [GetStage] returns, at some non-negative index, a stage of
    that name with [true]. *)
Theorem HasStage_GetStage (s : GenericDeploymentSpec) (name : Stage) :
  HasStage s name = true <->
  exists index stage,
    0 <= index /\ GetStage s index = Return (stage, true) /\ ps_Name stage = name.
Proof.
  unfold HasStage, GetStage. destruct (Pipeline s) as [p|].
  - rewrite existsb_exists. split.
    + intros (stage & Hin & Hname). apply String.eqb_eq in Hname.
      destruct (In_nth_error _ _ Hin) as [n Hn].
      assert (Hlt : (n < List.length (dp_Stages p))%nat).
      { apply nth_error_Some. rewrite Hn. discriminate. }
      exists (Z.of_nat n), stage. split; [lia|]. split; [|exact Hname].
      destruct (Z.geb_spec (Z.of_nat n) (Z.of_nat (List.length (dp_Stages p))));
        [lia|].
      destruct (Z.ltb_spec (Z.of_nat n) 0); [lia|].
      rewrite Nat2Z.id, Hn. reflexivity.
    + intros (index & stage & Hpos & Hget & Hname).
      destruct (index >=? Z.of_nat (List.length (dp_Stages p))); [discriminate|].
      destruct (index <? 0); [discriminate|].
      destruct (nth_error (dp_Stages p) (Z.to_nat index)) as [st|] eqn:Hn;
        [|discriminate].
      injection Hget as ->. exists stage. split.
      * eapply nth_error_In, Hn.
      * apply String.eqb_eq, Hname.
  - split; [discriminate|]. intros (index & stage & _ & Hget & _). discriminate.
Qed.

(** X4.  Decoding and validation together: an ANALYSIS stage decoded from a
    text without [with] has the duration zero, so [Validate] refuses every
    deployment whose pipeline holds it. *)
Theorem analysis_without_options_is_refused
    (data : list Byte.byte) (s0 : PipelineStage) (gs : genericPipelineStage)
    (spec : GenericDeploymentSpec) (p : DeploymentPipeline) :
  json.Unmarshal data (zero : genericPipelineStage) = (gs, None) ->
  switchCase (gs_Name gs) = Some CaseAnalysis ->
  gs_With gs = [] ->
  Pipeline spec = Some p ->
  In (fst (UnmarshalJSON data s0)) (dp_Stages p) ->
  snd (UnmarshalJSON data s0) = None /\
  snd (Validate spec) = Some "the ANALYSIS stage requires duration field".
Proof.
  intros Henv Hcase Hwith Hp Hin.
  destruct (switchCase_Analysis _ Hcase) as (E1 & E2 & E3).
  assert (Hdec : snd (UnmarshalJSON data s0) = None /\
                 exists a, ps_AnalysisStageOptions (fst (UnmarshalJSON data s0)) = Some a /\
                           a_Duration a = 0).
  { unfold UnmarshalJSON. rewrite Henv. destruct s0.
    cbn [set_envelope ps_Name]. rewrite E1, E2, E3, Hwith.
    cbn. split; [reflexivity|]. eexists. split; reflexivity. }
  destruct Hdec as [Herr (a & Ha & Hz)]. split; [exact Herr|].
  rewrite Validate_snd, Hp.
  destruct (validateStages_error (dp_Stages p)) as [[Hnone|Hsome] Hiff];
    [|exact Hsome].
  exfalso. apply (proj2 Hiff); [|exact Hnone].
  exists (fst (UnmarshalJSON data s0)), a. repeat split; assumption.
Qed.

End ConfigMore.

Lemma analysis_without_options_is_refused_witness :
  let stage := fst (Config.UnmarshalJSON [Byte.x02] zero) in
  let spec := {| Config.CommitMatcher := Config.CommitMatcher Sample.twoStages;
                 Config.Pipeline :=
                   Some {| Config.dp_Stages := [Sample.stageNamed "WAIT"; stage] |};
                 Config.SealedSecrets := []; Config.TriggerPaths := [];
                 Config.Timeout := 0 |} in
  snd (Config.UnmarshalJSON [Byte.x02] zero) = None /\
  snd (Config.Validate spec) = Some "the ANALYSIS stage requires duration field".
Proof.
  intros stage spec.
  assert (Henv : json.Unmarshal [Byte.x02] (zero : Config.genericPipelineStage)
                 = ({| Config.gs_Id := ""; Config.gs_Name := "ANALYSIS";
                       Config.gs_Desc := ""; Config.gs_Timeout := 0;
                       Config.gs_With := [] |}, None)) by reflexivity.
  exact (analysis_without_options_is_refused [Byte.x02] zero _ spec _
           Henv eq_refl eq_refl eq_refl (or_intror (or_introl eq_refl))).
Defined.

(** ** [strings.Split], for the parsing of images *)

Lemma Contains_byte_cons (d c : ascii) (s : string) :
  strings.Contains (String d s) (String c "") = Ascii.eqb d c || strings.Contains s (String c "").
Proof.
  cbn [strings.Contains String.prefix].
  destruct (ascii_dec c d) as [->|Hne].
  - rewrite Ascii.eqb_refl. now destruct s.
  - destruct (Ascii.eqb_spec d c) as [->|_]; [now elim Hne | reflexivity].
Qed.

Lemma Contains_byte_nil (c : ascii) : strings.Contains "" (String c "") = false.
Proof. reflexivity. Qed.

Lemma Contains_byte_app (a b : string) (c : ascii) :
  strings.Contains (a ++ b) (String c "")
  = strings.Contains a (String c "") || strings.Contains b (String c "").
Proof.
  induction a as [|d a IH].
  - cbn [append]. now rewrite Contains_byte_nil.
  - cbn [append]. rewrite !Contains_byte_cons, IH. apply orb_assoc.
Qed.

Lemma Split_nonempty (s : string) (sep : ascii) : strings.Split s sep <> [].
Proof.
  destruct s as [|c s]; cbn [strings.Split]; [discriminate|].
  destruct (Ascii.eqb c sep); [discriminate|].
  destruct (strings.Split s sep); discriminate.
Qed.

Lemma Split_without_sep (s : string) (sep : ascii) :
  strings.Contains s (String sep "") = false -> strings.Split s sep = [s].
Proof.
  induction s as [|c s IH]; [reflexivity|].
  rewrite Contains_byte_cons. intros H. apply orb_false_iff in H as [Hc Hs].
  cbn [strings.Split]. rewrite Hc, (IH Hs). reflexivity.
Qed.

Lemma Split_app (r rest : string) (sep : ascii) :
  strings.Split (r ++ String sep rest) sep
  = (strings.Split r sep ++ strings.Split rest sep)%list.
Proof.
  induction r as [|c r IH]; cbn [append strings.Split].
  - now rewrite Ascii.eqb_refl.
  - destruct (Ascii.eqb c sep); rewrite IH; [reflexivity|].
    pose proof (Split_nonempty r sep) as Hne.
    destruct (strings.Split r sep) as [|hd tl]; [now elim Hne | reflexivity].
Qed.

Lemma Split_parts_without_sep (s : string) (sep : ascii) (x : string) :
  In x (strings.Split s sep) -> strings.Contains x (String sep "") = false.
Proof.
  revert x. induction s as [|c s IH]; intros x; cbn [strings.Split].
  - intros [<-|[]]. reflexivity.
  - destruct (Ascii.eqb c sep) eqn:Ec.
    + intros [<-|Hin]; [reflexivity | apply IH, Hin].
    + pose proof (Split_nonempty s sep) as Hne.
      destruct (strings.Split s sep) as [|hd tl]; [now elim Hne|].
      intros [<-|Hin].
      * rewrite Contains_byte_cons, Ec. apply IH. left. reflexivity.
      * apply IH. right. exact Hin.
Qed.

Lemma Split_parts_keep_absent (s : string) (sep c : ascii) (x : string) :
  strings.Contains s (String c "") = false ->
  In x (strings.Split s sep) -> strings.Contains x (String c "") = false.
Proof.
  revert x. induction s as [|d s IH]; intros x Hs; cbn [strings.Split].
  - intros [<-|[]]. reflexivity.
  - rewrite Contains_byte_cons in Hs. apply orb_false_iff in Hs as [Hd Hs].
    destruct (Ascii.eqb d sep).
    + intros [<-|Hin]; [reflexivity | apply (IH _ Hs Hin)].
    + pose proof (Split_nonempty s sep) as Hne.
      destruct (strings.Split s sep) as [|hd tl]; [now elim Hne|].
      intros [<-|Hin].
      * rewrite Contains_byte_cons, Hd. apply (IH _ Hs). left. reflexivity.
      * apply (IH _ Hs). right. exact Hin.
Qed.

Lemma last_in {X : Type} (l : list X) (d : X) : l <> [] -> In (List.last l d) l.
Proof.
  induction l as [|x l IH]; [intros H; now elim H|]. intros _.
  destruct l as [|y l]; [left; reflexivity|].
  right. apply IH. discriminate.
Qed.

Lemma last_app_nonempty {X : Type} (l1 l2 : list X) (d : X) :
  l2 <> [] -> List.last (l1 ++ l2) d = List.last l2 d.
Proof.
  intros Hne. induction l1 as [|x l1 IH]; [reflexivity|].
  cbn [app]. destruct (l1 ++ l2)%list as [|y l] eqn:E.
  - apply app_eq_nil in E as [_ E]. contradiction.
  - exact IH.
Qed.

(** ** The Kubernetes planner: images, workloads, strategy *)

Section PlannerMore.
Import provider K8sPlanner.

Context `{K : Kubernetes} {A : @ManifestAccess K}.

(** X5.  [parseContainerImage] on the usual shapes of an image.  With a
    name free of ":" and "/", a tag free of ":" and a repository path free
    of ":", the images NAME, NAME:TAG, REPO/NAME and REPO/NAME:TAG give the
    name NAME and the tag TAG, the empty tag where none is written. *)
Theorem parseContainerImage_usual (repo name tag : string) :
  strings.Contains repo ":" = false ->
  strings.Contains name ":" = false ->
  strings.Contains name "/" = false ->
  strings.Contains tag ":" = false ->
  parseContainerImage name = (name, "") /\
  parseContainerImage (name ++ ":" ++ tag) = (name, tag) /\
  parseContainerImage (repo ++ "/" ++ name) = (name, "") /\
  parseContainerImage (repo ++ "/" ++ name ++ ":" ++ tag) = (name, tag).
Proof.
  intros Hrepo Hname Hslash Htag.
  assert (Hlast : forall r, last_of (strings.Split (r ++ "/" ++ name) "/") = name).
  { intros r. unfold last_of. change (r ++ "/" ++ name) with (r ++ String "/" name).
    rewrite Split_app, last_app_nonempty by apply Split_nonempty.
    now rewrite (Split_without_sep _ _ Hslash). }
  assert (Hfull : strings.Contains (repo ++ "/" ++ name) ":" = false).
  { change (repo ++ "/" ++ name) with (repo ++ String "/" name).
    rewrite Contains_byte_app, Contains_byte_cons, Hrepo, Hname. reflexivity. }
  unfold parseContainerImage. repeat split.
  - rewrite (Split_without_sep _ _ Hname). cbn [List.length nth Z.of_nat].
    rewrite (Split_without_sep _ _ Hslash). reflexivity.
  - change (name ++ ":" ++ tag) with (name ++ String ":" tag).
    rewrite Split_app, (Split_without_sep _ _ Hname), (Split_without_sep _ _ Htag).
    cbn [app List.length nth]. rewrite (Split_without_sep _ _ Hslash). reflexivity.
  - rewrite (Split_without_sep _ _ Hfull). cbn [List.length nth Z.of_nat].
    now rewrite Hlast.
  - replace (repo ++ "/" ++ name ++ ":" ++ tag)
      with ((repo ++ "/" ++ name) ++ String ":" tag)
      by (rewrite string_app_assoc; reflexivity).
    rewrite Split_app, (Split_without_sep _ _ Hfull), (Split_without_sep _ _ Htag).
    cbn [app List.length nth]. now rewrite Hlast.
Qed.

(** X6.  An image with more than one ":" loses its tag: with FIRST the
    text before the first ":", as in HOST:PORT/NAME:TAG, the result is the
    last path element of FIRST (the host) and the empty tag. *)
Theorem parseContainerImage_two_colons (first second rest : string) :
  strings.Contains first ":" = false ->
  parseContainerImage (first ++ ":" ++ second ++ ":" ++ rest)
  = (last_of (strings.Split first "/"), "").
Proof.
  intros Hfirst. unfold parseContainerImage.
  change (first ++ ":" ++ second ++ ":" ++ rest)
    with (first ++ String ":" (second ++ String ":" rest)).
  rewrite Split_app, (Split_without_sep _ _ Hfirst), Split_app.
  cbn [app nth].
  pose proof (Split_nonempty second ":") as H2.
  pose proof (Split_nonempty rest ":") as H3.
  destruct (strings.Split second ":") as [|s2 l2]; [now elim H2|].
  destruct (strings.Split rest ":") as [|s3 l3]; [now elim H3|].
  cbn [app List.length].
  destruct (Z.eqb_spec (Z.of_nat (S (S (List.length (l2 ++ s3 :: l3))))) 2) as [Hlen|_].
  - rewrite length_app in Hlen. cbn [List.length] in Hlen. lia.
  - reflexivity.
Qed.

(** X7.  Whatever the image, the name that [parseContainerImage] returns
    holds neither "/" nor ":" and the tag holds no ":". *)
Theorem parseContainerImage_clean (image : string) :
  strings.Contains (fst (parseContainerImage image)) "/" = false /\
  strings.Contains (fst (parseContainerImage image)) ":" = false /\
  strings.Contains (snd (parseContainerImage image)) ":" = false.
Proof.
  unfold parseContainerImage. cbn [fst snd].
  pose proof (Split_nonempty image ":") as Hne.
  destruct (strings.Split image ":") as [|p0 ps] eqn:Hparts; [now elim Hne|].
  assert (Hp0 : strings.Contains p0 ":" = false).
  { apply (Split_parts_without_sep image). rewrite Hparts. left. reflexivity. }
  cbn [nth]. split; [|split].
  - apply (Split_parts_without_sep p0), last_in, Split_nonempty.
  - apply (Split_parts_keep_absent p0 "/" ":" _ Hp0), last_in, Split_nonempty.
  - destruct (Z.of_nat (List.length (p0 :: ps)) =? 2); [|reflexivity].
    destruct ps as [|p1 ps']; [reflexivity|]. cbn [nth].
    apply (Split_parts_without_sep image). rewrite Hparts. right. left. reflexivity.
Qed.

(** X8.  [findWorkload] returns the first manifest whose key is a
    deployment: it answers [true] exactly when there is one, the manifest
    it returns is in the list with no deployment before it, and without a
    deployment it returns the zero manifest. *)
Theorem findWorkload_first (manifests : list Manifest) :
  (snd (findWorkload manifests) = true <->
   exists m, In m manifests /\ IsDeployment (Key m) = true) /\
  (snd (findWorkload manifests) = true ->
   exists before after,
     manifests = (before ++ fst (findWorkload manifests) :: after)%list /\
     IsDeployment (Key (fst (findWorkload manifests))) = true /\
     forall x, In x before -> IsDeployment (Key x) = false) /\
  (snd (findWorkload manifests) = false -> fst (findWorkload manifests) = zero).
Proof.
  induction manifests as [|m rest (IHiff & IHfirst & IHzero)]; cbn [findWorkload].
  - split; [|split].
    + split; [discriminate|]. intros (m & [] & _).
    + discriminate.
    + reflexivity.
  - destruct (IsDeployment (Key m)) eqn:Em; cbn [negb fst snd].
    + split; [|split].
      * split; [|reflexivity]. intros _. exists m. split; [left; reflexivity | exact Em].
      * intros _. exists [], rest. repeat split; [exact Em|]. intros x [].
      * discriminate.
    + split; [|split].
      * rewrite IHiff. split.
        -- intros (x & Hin & Hx). exists x. split; [right; exact Hin | exact Hx].
        -- intros (x & [<-|Hin] & Hx); [congruence|]. exists x. split; assumption.
      * intros Hfound. destruct (IHfirst Hfound) as (before & after & Heq & Hdep & Hbefore).
        exists (m :: before), after. split; [cbn [app]; now rewrite <- Heq|].
        split; [exact Hdep|]. intros x [<-|Hin]; [exact Em | apply Hbefore, Hin].
      * exact IHzero.
Qed.

End PlannerMore.

Lemma parseContainerImage_usual_witness :
  K8sPlanner.parseContainerImage "gcr.io/pipecd/helloworld:v0.1.0"
  = ("helloworld", "v0.1.0").
Proof.
  exact (proj2 (proj2 (proj2
           (parseContainerImage_usual "gcr.io/pipecd" "helloworld" "v0.1.0"
              eq_refl eq_refl eq_refl eq_refl)))).
Defined.

Lemma parseContainerImage_two_colons_witness :
  K8sPlanner.parseContainerImage "registry.local:5000/app:1.2" = ("registry.local", "").
Proof.
  exact (parseContainerImage_two_colons "registry.local" "5000/app" "1.2" eq_refl).
Defined.

Section StrategyMore.
Import provider K8sPlanner.

Context `{K : Kubernetes} {A : @ManifestAccess K}.

Lemma FindAll_filter (l : DiffResultList) (query : string) :
  FindAll l query = filter (fun d => matchesQuery query (Path d)) l.
Proof.
  unfold FindAll, matchesQuery. destruct (regexp.Compile query); [reflexivity|].
  induction l as [|d l IH]; [reflexivity | exact IH].
Qed.

Lemma Find_find (l : DiffResultList) (query : string) :
  regexp.Compile query <> None ->
  Find l query = match find (fun d => matchesQuery query (Path d)) l with
                 | Some d => Found d
                 | None => NotFound
                 end.
Proof.
  unfold Find, matchesQuery. destruct (regexp.Compile query); [reflexivity|].
  intros H. now elim H.
Qed.

Lemma replicasQuery_compiles : regexp.Compile replicasQuery <> None.
Proof. vm_compute. discriminate. Qed.

Lemma filter_nil_iff {X : Type} (f : X -> bool) (l : list X) :
  filter f l = [] <-> forall x, In x l -> f x = false.
Proof.
  induction l as [|y l IH]; cbn [filter].
  - split; [intros _ x [] | reflexivity].
  - destruct (f y) eqn:Ey.
    + split; [discriminate|]. intros H. specialize (H y (or_introl eq_refl)). congruence.
    + rewrite IH. split.
      * intros H x [<-|Hin]; [exact Ey | apply H, Hin].
      * intros H x Hin. apply H. right. exact Hin.
Qed.

Lemma describeImage_renamed (d : DiffResult) :
  fst (parseContainerImage (Before d)) <> fst (parseContainerImage (After d)) ->
  describeImage d
  = "image " ++ fst (parseContainerImage (Before d)) ++ ":"
    ++ snd (parseContainerImage (Before d)) ++ " to "
    ++ fst (parseContainerImage (After d)) ++ ":"
    ++ snd (parseContainerImage (After d)).
Proof.
  unfold describeImage.
  destruct (parseContainerImage (Before d)) as [bn bt].
  destruct (parseContainerImage (After d)) as [an at_].
  cbn [fst snd]. intros Hne.
  destruct (String.eqb_spec bn an); [contradiction | reflexivity].
Qed.

(** X9.  [checkImageChange] reports no change, with an empty message,
    exactly when no record of the list has the path of a container image;
    otherwise its message is "Progressive deployment because of updating "
    followed by one entry per such record, and the entry of a record whose
    image changes its name reads "image NAME:TAG to NAME:TAG". *)
Theorem checkImageChange_outcome (l : DiffResultList) :
  (snd (checkImageChange l) = false <->
   forall d, In d l -> matchesQuery containerImageQuery (Path d) = false) /\
  (snd (checkImageChange l) = false -> fst (checkImageChange l) = "") /\
  (snd (checkImageChange l) = true ->
   fst (checkImageChange l)
   = "Progressive deployment because of updating "
     ++ strings.Join (map describeImage
                          (filter (fun d => matchesQuery containerImageQuery (Path d)) l))
                     ", " ++ ".") /\
  (forall d,
     In d l -> matchesQuery containerImageQuery (Path d) = true ->
     fst (parseContainerImage (Before d)) <> fst (parseContainerImage (After d)) ->
     strings.Contains (fst (checkImageChange l))
       ("image " ++ fst (parseContainerImage (Before d)) ++ ":"
        ++ snd (parseContainerImage (Before d)) ++ " to "
        ++ fst (parseContainerImage (After d)) ++ ":"
        ++ snd (parseContainerImage (After d))) = true).
Proof.
  unfold checkImageChange. rewrite FindAll_filter.
  pose proof (filter_nil_iff (fun d => matchesQuery containerImageQuery (Path d)) l) as Hnil.
  destruct (filter _ l) as [|d0 rest] eqn:E.
  - cbn [List.length Z.of_nat Z.eqb fst snd].
    split; [|split; [reflexivity | split; [discriminate|]]].
    + split; [intros _; now apply Hnil | reflexivity].
    + intros d Hd Hm _. specialize (proj1 Hnil eq_refl d Hd). congruence.
  - cbn [List.length]. destruct (Z.eqb_spec (Z.of_nat (S (List.length rest))) 0); [lia|].
    cbn [fst snd]. split; [|split; [discriminate | split; [reflexivity|]]].
    + split; [discriminate|]. intros H. apply Hnil in H. discriminate.
    + intros d Hd Hm Hne. rewrite <- describeImage_renamed by exact Hne.
      apply Contains_app_r, Contains_app_l, Contains_Join, in_map.
      rewrite <- E. apply filter_In. split; assumption.
Qed.

Lemma find_first {X : Type} (f : X -> bool) (before after : list X) (x : X) :
  f x = true -> (forall y, In y before -> f y = false) ->
  find f (before ++ x :: after) = Some x.
Proof.
  intros Hx Hbefore. induction before as [|y before IH]; cbn [app find].
  - now rewrite Hx.
  - rewrite (Hbefore y (or_introl eq_refl)). apply IH.
    intros z Hz. apply Hbefore. right. exact Hz.
Qed.

(** X10.  [checkReplicasChange] reports a change exactly when some record
    of the list has the path of the replicas, and what it reports is the
    first such record, "Scale workload from BEFORE to AFTER."; later
    records do not count.  Without such a record the message is empty. *)
Theorem checkReplicasChange_first (l : DiffResultList) :
  (snd (checkReplicasChange l) = true <->
   exists d, In d l /\ matchesQuery replicasQuery (Path d) = true) /\
  (snd (checkReplicasChange l) = false -> fst (checkReplicasChange l) = "") /\
  (forall before d after,
     l = (before ++ d :: after)%list ->
     matchesQuery replicasQuery (Path d) = true ->
     (forall x, In x before -> matchesQuery replicasQuery (Path x) = false) ->
     checkReplicasChange l
     = ("Scale workload from " ++ Before d ++ " to " ++ After d ++ ".", true)).
Proof.
  unfold checkReplicasChange. rewrite (Find_find _ _ replicasQuery_compiles).
  split; [|split].
  - destruct (find _ l) as [d|] eqn:E; cbn [snd].
    + split; [intros _|reflexivity]. apply find_some in E. exists d. exact E.
    + split; [discriminate|]. intros (d & Hin & Hm).
      pose proof (find_none _ _ E d Hin) as Hf. cbn beta in Hf. congruence.
  - destruct (find _ l); [discriminate | reflexivity].
  - intros before d after -> Hm Hbefore.
    rewrite (find_first (fun d => matchesQuery replicasQuery (Path d)) before after d Hm Hbefore).
    reflexivity.
Qed.

(** X11.  [decideStrategy] answers progressive exactly when a workload is
    found in the old and in the new manifests and the diff of the two
    workloads has a record below [spec.template]. *)
Theorem decideStrategy_progressive_iff (olds news : list Manifest) :
  fst (decideStrategy olds news) = true <->
  snd (findWorkload olds) = true /\ snd (findWorkload news) = true /\
  FindByPrefix (Diff (fst (findWorkload olds)) (fst (findWorkload news)) "spec")
               "spec.template" <> [].
Proof.
  unfold decideStrategy.
  destruct (findWorkload olds) as [oldW [|]]; cbn [negb fst snd].
  2: { split; [discriminate|]. intros (H & _). discriminate. }
  destruct (findWorkload news) as [newW [|]]; cbn [negb fst snd].
  2: { split; [discriminate|]. intros (_ & H & _). discriminate. }
  destruct (FindByPrefix (Diff oldW newW "spec") "spec.template") as [|d rest].
  - cbn [List.length Z.of_nat Z.gtb Z.compare].
    destruct (checkReplicasChange _) as [msg [|]]; cbn [fst];
      (split; [discriminate|]); intros (_ & _ & H); now elim H.
  - cbn [List.length].
    destruct (Z.gtb_spec (Z.of_nat (S (List.length rest))) 0) as [_|Hle]; [|lia].
    destruct (checkImageChange _) as [msg [|]]; cbn [fst];
      (split; [intros _|reflexivity]); repeat split; discriminate.
Qed.

(** X12.  Without a workload on one side, [decideStrategy] answers not
    progressive and says which side lacks it, the old side first; the diff
    is not consulted.  Empty manifest lists are a case of it. *)
Theorem decideStrategy_without_workload (olds news : list Manifest) :
  snd (findWorkload olds) = false \/ snd (findWorkload news) = false ->
  forall A' : @ManifestAccess K,
    decideStrategy (A := A') olds news
    = (false,
       if snd (findWorkload olds)
       then "Apply all manifests because it was unable to find workloads in the new manifests."
       else "Apply all manifests because it was unable to find the currently running workloads.").
Proof.
  intros Hmissing A'. unfold decideStrategy.
  destruct (findWorkload olds) as [oldW [|]]; cbn [negb fst snd] in *; [|reflexivity].
  destruct (findWorkload news) as [newW [|]]; cbn [negb fst snd] in *; [|reflexivity].
  destruct Hmissing; discriminate.
Qed.

(** X13.  With both workloads found, a diff without a record below
    [spec.template] and without a record of the replicas gives the plain
    answer: not progressive, "Apply all manifests".  Two workloads without
    any difference are a case of it. *)
Theorem decideStrategy_nothing_relevant
    (olds news : list Manifest) (oldWorkload newWorkload : Manifest) :
  findWorkload olds = (oldWorkload, true) ->
  findWorkload news = (newWorkload, true) ->
  (forall d, In d (Diff oldWorkload newWorkload "spec") ->
             strings.HasPrefix (Path d) "spec.template" = false /\
             matchesQuery replicasQuery (Path d) = false) ->
  decideStrategy olds news = (false, "Apply all manifests").
Proof.
  intros Hold Hnew Hnone. unfold decideStrategy. rewrite Hold, Hnew. cbn [negb].
  assert (Ht : FindByPrefix (Diff oldWorkload newWorkload "spec") "spec.template" = []).
  { apply filter_nil_iff. intros d Hd. apply (Hnone d Hd). }
  rewrite Ht. cbn [List.length Z.of_nat Z.gtb Z.compare].
  unfold checkReplicasChange. rewrite (Find_find _ _ replicasQuery_compiles).
  destruct (find _ _) as [d|] eqn:E; [|reflexivity].
  apply find_some in E. destruct E as [Hd Hm].
  destruct (Hnone d Hd) as [_ Hm']. cbn beta in Hm. congruence.
Qed.

(** X14.  With both workloads found and a record below [spec.template] but
    none for the image of a container, [decideStrategy] answers progressive
    and names the workload of the new manifests in "Progressive deployment
    because pod template of workload NAME was changed.". *)
Theorem decideStrategy_template_without_image
    (olds news : list Manifest) (oldWorkload newWorkload : Manifest) :
  findWorkload olds = (oldWorkload, true) ->
  findWorkload news = (newWorkload, true) ->
  FindByPrefix (Diff oldWorkload newWorkload "spec") "spec.template" <> [] ->
  (forall d, In d (Diff oldWorkload newWorkload "spec") ->
             matchesQuery containerImageQuery (Path d) = false) ->
  decideStrategy olds news
  = (true, "Progressive deployment because pod template of workload "
           ++ Name (Key newWorkload) ++ " was changed.").
Proof.
  intros Hold Hnew Hne Hnoimage. unfold decideStrategy. rewrite Hold, Hnew. cbn [negb].
  rewrite (nonempty_length _ Hne).
  unfold checkImageChange. rewrite FindAll_filter.
  assert (Hnil : filter (fun d => matchesQuery containerImageQuery (Path d))
                   (FindByPrefix (Diff oldWorkload newWorkload "spec") "spec.template")
                 = []).
  { apply filter_nil_iff. intros d Hd. apply Hnoimage.
    unfold FindByPrefix in Hd. apply filter_In in Hd. apply Hd. }
  rewrite Hnil. reflexivity.
Qed.

End StrategyMore.

Lemma decideStrategy_without_workload_witness :
  K8sPlanner.decideStrategy (K := Sample.kubernetes) [] (Sample.manifestsAt "c1")
  = (false,
     "Apply all manifests because it was unable to find the currently running workloads.").
Proof.
  exact (decideStrategy_without_workload (K := Sample.kubernetes)
           [] (Sample.manifestsAt "c1") (or_introl eq_refl) Sample.access).
Defined.

Lemma decideStrategy_nothing_relevant_witness :
  let paced seconds : Sample.Manifest :=
    (provider.Key (Sample.workload "3" "app:1.2"),
     [("spec.replicas", "3"); ("spec.minReadySeconds", seconds);
      ("spec.strategy.type", "RollingUpdate")]) in
  provider.Diff (H := Sample.kubernetes) (paced "5") (paced "10") "spec"
  = [{| provider.Path := "spec.minReadySeconds";
        provider.Before := "5"; provider.After := "10" |}] /\
  K8sPlanner.decideStrategy (K := Sample.kubernetes)
    [Sample.service; paced "5"] [Sample.service; paced "10"]
  = (false, "Apply all manifests").
Proof.
  intros paced. split; [reflexivity|].
  apply (decideStrategy_nothing_relevant (K := Sample.kubernetes) (A := Sample.access)
           [Sample.service; paced "5"] [Sample.service; paced "10"]
           (paced "5") (paced "10") eq_refl eq_refl).
  intros d Hd. vm_compute in Hd. destruct Hd as [<-|[]]. split; reflexivity.
Defined.

Lemma decideStrategy_template_without_image_witness :
  let labelled version : Sample.Manifest :=
    (provider.Key (Sample.workload "3" "app:1.2"),
     [("spec.replicas", "3"); ("spec.template.metadata.labels.version", version)]) in
  K8sPlanner.decideStrategy (K := Sample.kubernetes) [labelled "v1"] [labelled "v2"]
  = (true, "Progressive deployment because pod template of workload app was changed.").
Proof.
  intros labelled.
  assert (Hne : provider.FindByPrefix
                  (provider.Diff (H := Sample.kubernetes) (labelled "v1") (labelled "v2")
                     "spec") "spec.template" <> []) by (vm_compute; discriminate).
  apply (decideStrategy_template_without_image (K := Sample.kubernetes)
           (A := Sample.access) [labelled "v1"] [labelled "v2"]
           (labelled "v1") (labelled "v2") eq_refl eq_refl Hne).
  intros d Hd. vm_compute in Hd. destruct Hd as [<-|[]]. reflexivity.
Defined.

(** ** [Plan]: errors, and the way through the diff *)

Section PlanMore.
Import provider K8sPlanner.

Context `{K : Kubernetes} `{B : @PipelineBuilders K} {A : @ManifestAccess K}.

Lemma checkImageChange_message (l : DiffResultList) :
  snd (checkImageChange l) = true -> fst (checkImageChange l) <> "".
Proof.
  unfold checkImageChange. destruct (Z.of_nat (List.length _) =? 0); [discriminate|].
  intros _. discriminate.
Qed.

Lemma decideStrategy_description (olds news : list Manifest) :
  snd (decideStrategy olds news) <> "".
Proof.
  unfold decideStrategy.
  destruct (findWorkload olds) as [oldW [|]]; cbn [negb]; [|discriminate].
  destruct (findWorkload news) as [newW [|]]; cbn [negb]; [|discriminate].
  destruct (Z.of_nat (List.length _) >? 0).
  - pose proof (checkImageChange_message
                  (FindByPrefix (Diff oldW newW "spec") "spec.template")) as Hmsg.
    destruct (checkImageChange _) as [msg [|]]; cbn [fst snd] in *;
      [now apply Hmsg | discriminate].
  - unfold checkReplicasChange. destruct (Find _ _); discriminate.
Qed.

(** X15.  The shape of what [Plan] returns.  With an error the output is
    empty: no stage and no description.  Without an error the description
    is not empty and the stages are those of [buildPipeline] or, for the
    pipeline of the configuration, of [buildProgressivePipeline], at some
    time. *)
Theorem Plan_outcome_shape (input : Input) (w : World) :
  let out := fst (fst (Plan input w)) in
  let err := snd (fst (Plan input w)) in
  (err <> None -> out = zero) /\
  (err = None ->
   Description out <> "" /\
   exists cfg now,
     config_KubernetesDeploymentSpec (in_DeploymentConfig input) = Some cfg /\
     (Stages out = buildPipeline now \/
      Stages out = buildProgressivePipeline (spec_Pipeline cfg) now)).
Proof.
  cbv zeta. unfold Plan.
  destruct (config_KubernetesDeploymentSpec (in_DeploymentConfig input)) as [cfg|].
  2: { unfold ret. cbn [fst snd]. split; [reflexivity | discriminate]. }
  destruct (in_MostRecentSuccessfulCommitHash input =? "")%string.
  { unfold bind, ret. destruct (time_Now w) as [now w']. cbn [fst snd].
    split; [intros H; now elim H|]. intros _. split; [discriminate|].
    exists cfg, now. split; [reflexivity | left; reflexivity]. }
  destruct (strings.Contains _ "/pipecd rollback ").
  { unfold bind, ret. destruct (time_Now w) as [now w']. cbn [fst snd].
    split; [intros H; now elim H|]. intros _. split; [discriminate|].
    exists cfg, now. split; [reflexivity | left; reflexivity]. }
  unfold bind, ret.
  destruct (Provider_Init _ _ _ w) as [[e|] w1];
    [cbn [fst snd]; split; [reflexivity | discriminate]|].
  destruct (Provider_LoadManifests _ _ _ w1) as [[news [e|]] w2];
    [cbn [fst snd]; split; [reflexivity | discriminate]|].
  destruct (Repo_Checkout _ _ w2) as [[e|] w3];
    [cbn [fst snd]; split; [reflexivity | discriminate]|].
  destruct (Provider_LoadManifests _ _ _ w3) as [[olds [e|]] w4];
    [cbn [fst snd]; split; [reflexivity | discriminate]|].
  pose proof (decideStrategy_description olds news) as Hdesc.
  destruct (decideStrategy olds news) as [[|] desc]; cbn [snd] in Hdesc;
    destruct (time_Now w4) as [now w5]; cbn [fst snd];
    (split; [intros H; now elim H|]); intros _; (split; [exact Hdesc|]);
    exists cfg, now; (split; [reflexivity|]); [right | left]; reflexivity.
Qed.

(** X16.  [Plan] stops at the first step that fails, for an input with a
    KubernetesDeploymentSpec, a last successful commit and no rollback
    marker.  The error of [Init] is returned as it is; those of loading the
    new manifests, of the checkout and of loading the old manifests are
    returned behind "failed to load new manifests: ", "failed to checkout
    to commit HASH: " and "failed to load previously deployed manifests: ".
    The world is left as the failing step left it: nothing is done after
    it and the clock is not read. *)
Theorem Plan_stops_at_failure
    (input : Input) (cfg : KubernetesDeploymentSpec) (w : World) :
  config_KubernetesDeploymentSpec (in_DeploymentConfig input) = Some cfg ->
  in_MostRecentSuccessfulCommitHash input <> "" ->
  strings.Contains (Message (trigger_Commit (Trigger (in_Deployment input))))
                   "/pipecd rollback " = false ->
  let Init := Provider_Init (in_RepoDir input) (in_AppDir input) (spec_Input cfg) in
  let Load := Provider_LoadManifests (in_RepoDir input) (in_AppDir input) (spec_Input cfg) in
  let Checkout := Repo_Checkout (in_Repo input) (in_MostRecentSuccessfulCommitHash input) in
  (forall e w1, Init w = (Some e, w1) -> Plan input w = ((zero, Some e), w1)) /\
  (forall e w1 news w2,
     Init w = (None, w1) -> Load w1 = ((news, Some e), w2) ->
     Plan input w = ((zero, Some ("failed to load new manifests: " ++ e)), w2)) /\
  (forall e w1 news w2 w3,
     Init w = (None, w1) -> Load w1 = ((news, None), w2) ->
     Checkout w2 = (Some e, w3) ->
     Plan input w
     = ((zero, Some ("failed to checkout to commit "
                     ++ in_MostRecentSuccessfulCommitHash input ++ ": " ++ e)), w3)) /\
  (forall e w1 news w2 w3 olds w4,
     Init w = (None, w1) -> Load w1 = ((news, None), w2) ->
     Checkout w2 = (None, w3) -> Load w3 = ((olds, Some e), w4) ->
     Plan input w
     = ((zero, Some ("failed to load previously deployed manifests: " ++ e)), w4)).
Proof.
  intros Hcfg Hhash Hmsg Init Load Checkout. subst Init Load Checkout.
  assert (Hempty : (in_MostRecentSuccessfulCommitHash input =? "")%string = false).
  { destruct (String.eqb_spec (in_MostRecentSuccessfulCommitHash input) "");
      [contradiction | reflexivity]. }
  unfold Plan. rewrite Hcfg, Hempty, Hmsg. unfold bind, ret.
  repeat split.
  - intros e w1 H1. rewrite H1. reflexivity.
  - intros e w1 news w2 H1 H2. rewrite H1, H2. reflexivity.
  - intros e w1 news w2 w3 H1 H2 H3. rewrite H1, H2, H3. reflexivity.
  - intros e w1 news w2 w3 olds w4 H1 H2 H3 H4. rewrite H1, H2, H3, H4. reflexivity.
Qed.

(** X17.  The way through the diff, for an input with a
    KubernetesDeploymentSpec, a last successful commit and no rollback
    marker, when every step succeeds: the new manifests are loaded first,
    then the last successful commit is checked out and the old manifests
    are loaded; the description is that of [decideStrategy] on the two, the
    stages are those of [buildProgressivePipeline] for the configured
    pipeline when it answers progressive and those of [buildPipeline]
    otherwise, at the time read from the clock after the loading; the world
    is left with that commit checked out. *)
Theorem Plan_through_the_diff
    (input : Input) (cfg : KubernetesDeploymentSpec)
    (w w1 w2 w3 w4 : World) (news olds : list Manifest) :
  config_KubernetesDeploymentSpec (in_DeploymentConfig input) = Some cfg ->
  in_MostRecentSuccessfulCommitHash input <> "" ->
  strings.Contains (Message (trigger_Commit (Trigger (in_Deployment input))))
                   "/pipecd rollback " = false ->
  Provider_Init (in_RepoDir input) (in_AppDir input) (spec_Input cfg) w = (None, w1) ->
  Provider_LoadManifests (in_RepoDir input) (in_AppDir input) (spec_Input cfg) w1
  = ((news, None), w2) ->
  Repo_Checkout (in_Repo input) (in_MostRecentSuccessfulCommitHash input) w2 = (None, w3) ->
  Provider_LoadManifests (in_RepoDir input) (in_AppDir input) (spec_Input cfg) w3
  = ((olds, None), w4) ->
  Plan input w
  = (({| Stages := if fst (decideStrategy olds news)
                   then buildProgressivePipeline (spec_Pipeline cfg) (fst (time_Now w4))
                   else buildPipeline (fst (time_Now w4));
         Description := snd (decideStrategy olds news) |}, None),
     snd (time_Now w4)).
Proof.
  intros Hcfg Hhash Hmsg H1 H2 H3 H4.
  assert (Hempty : (in_MostRecentSuccessfulCommitHash input =? "")%string = false).
  { destruct (String.eqb_spec (in_MostRecentSuccessfulCommitHash input) "");
      [contradiction | reflexivity]. }
  unfold Plan. rewrite Hcfg, Hempty, Hmsg. unfold bind, ret.
  rewrite H1, H2, H3, H4.
  destruct (decideStrategy olds news) as [[|] desc]; cbn [fst snd];
    destruct (time_Now w4) as [now w5]; reflexivity.
Qed.

End PlanMore.

Lemma Plan_stops_at_failure_witness :
  fst (K8sPlanner.Plan (A := SampleMore.failingAccess)
         (SampleMore.planInputAt "missing" "c0") (Sample.at_ "c1" 100))
  = (zero, Some "no such directory") /\
  fst (K8sPlanner.Plan (A := SampleMore.failingAccess)
         (SampleMore.planInputAt "/repo/app" "c0") (Sample.at_ "bad" 100))
  = (zero, Some "failed to load new manifests: yaml: did not find expected key") /\
  K8sPlanner.Plan (A := SampleMore.failingAccess)
    (SampleMore.planInputAt "/repo/app" "gone") (Sample.at_ "c1" 100)
  = ((zero, Some "failed to checkout to commit gone: unknown revision"),
     Sample.at_ "c1" 100) /\
  K8sPlanner.Plan (A := SampleMore.failingAccess)
    (SampleMore.planInputAt "/repo/app" "bad") (Sample.at_ "c1" 100)
  = ((zero, Some "failed to load previously deployed manifests: yaml: did not find expected key"),
     Sample.at_ "bad" 100).
Proof.
  assert (Hmarker : forall appDir hash,
            strings.Contains
              (K8sPlanner.Message (K8sPlanner.trigger_Commit (K8sPlanner.Trigger
                 (K8sPlanner.in_Deployment (SampleMore.planInputAt appDir hash)))))
              "/pipecd rollback " = false) by reflexivity.
  split; [|split; [|split]].
  - destruct (Plan_stops_at_failure (A := SampleMore.failingAccess)
                (SampleMore.planInputAt "missing" "c0") Sample.k8sSpec
                (Sample.at_ "c1" 100) eq_refl ltac:(discriminate) (Hmarker _ _))
      as (Hinit & _).
    now rewrite (Hinit _ _ eq_refl).
  - destruct (Plan_stops_at_failure (A := SampleMore.failingAccess)
                (SampleMore.planInputAt "/repo/app" "c0") Sample.k8sSpec
                (Sample.at_ "bad" 100) eq_refl ltac:(discriminate) (Hmarker _ _))
      as (_ & Hnew & _).
    now rewrite (Hnew _ _ _ _ eq_refl eq_refl).
  - destruct (Plan_stops_at_failure (A := SampleMore.failingAccess)
                (SampleMore.planInputAt "/repo/app" "gone") Sample.k8sSpec
                (Sample.at_ "c1" 100) eq_refl ltac:(discriminate) (Hmarker _ _))
      as (_ & _ & Hcheckout & _).
    exact (Hcheckout _ _ _ _ _ eq_refl eq_refl eq_refl).
  - destruct (Plan_stops_at_failure (A := SampleMore.failingAccess)
                (SampleMore.planInputAt "/repo/app" "bad") Sample.k8sSpec
                (Sample.at_ "c1" 100) eq_refl ltac:(discriminate) (Hmarker _ _))
      as (_ & _ & _ & Hold).
    exact (Hold _ _ _ _ _ _ _ eq_refl eq_refl eq_refl eq_refl).
Defined.

Lemma Plan_through_the_diff_witness :
  K8sPlanner.Plan (A := Sample.access)
    (SampleMore.planInputAt "/repo/app" "c0") (Sample.at_ "c1" 100)
  = (({| K8sPlanner.Stages := [("K8S_CANARY_ROLLOUT", 100); ("K8S_PRIMARY_ROLLOUT", 100)];
         K8sPlanner.Description :=
           "Progressive deployment because of updating image app from 1.2 to 1.3." |},
      None),
     Sample.at_ "c0" 101).
Proof.
  exact (Plan_through_the_diff (A := Sample.access)
           (SampleMore.planInputAt "/repo/app" "c0") Sample.k8sSpec
           (Sample.at_ "c1" 100) (Sample.at_ "c1" 100) (Sample.at_ "c1" 100)
           (Sample.at_ "c0" 100) (Sample.at_ "c0" 100)
           (Sample.manifestsAt "c1") (Sample.manifestsAt "c0")
           eq_refl ltac:(discriminate) eq_refl eq_refl eq_refl eq_refl eq_refl).
Defined.

(** ** The ECS executor: every way through [Execute] *)

Section ECSMore.
Import model ECS.

Context `{T : Types} `{N : StageNames} {H : @Helpers T} {C : @CloudSync T}.

(** X18.  [ensureSync] on an executor whose ECS spec is set: when the task
    definition or, after it, the service definition does not load, the
    stage fails and [sync] is not called, whatever [sync] is; when both
    load, [sync] is called on the two and decides between success and
    failure. *)
Theorem ensureSync_outcome
    (e : deployExecutor) (cfg : ECSDeploymentSpec) (ctx : Context_) (w : World) :
  deployCfg e = Some cfg ->
  let task := loadTaskDefinition (executor_Input e)
                (TaskDefinitionFile (spec_Input cfg)) (deploySource e) w in
  let service := loadServiceDefinition (executor_Input e)
                   (ServiceDefinitionFile (spec_Input cfg)) (deploySource e) (snd task) in
  (snd (fst task) = false ->
   forall C' : @CloudSync T,
     ensureSync (C := C') e ctx w = (Return StageStatus_STAGE_FAILURE, snd task)) /\
  (snd (fst task) = true -> snd (fst service) = false ->
   forall C' : @CloudSync T,
     ensureSync (C := C') e ctx w = (Return StageStatus_STAGE_FAILURE, snd service)) /\
  (snd (fst task) = true -> snd (fst service) = true ->
   let synced := sync (CloudSync := C) ctx (executor_Input e) (cloudProviderName e)
                   (cloudProviderCfg e) (fst (fst task)) (fst (fst service))
                   (snd service) in
   ensureSync (C := C) e ctx w
   = (Return (if fst synced then StageStatus_STAGE_SUCCESS
              else StageStatus_STAGE_FAILURE),
      snd synced)).
Proof.
  intros Hcfg. cbv zeta.
  assert (Hrun : forall C0 : @CloudSync T,
            ensureSync (C := C0) e ctx w
            = let task := loadTaskDefinition (executor_Input e)
                            (TaskDefinitionFile (spec_Input cfg)) (deploySource e) w in
              if snd (fst task) then
                let service := loadServiceDefinition (executor_Input e)
                                 (ServiceDefinitionFile (spec_Input cfg)) (deploySource e)
                                 (snd task) in
                if snd (fst service) then
                  let synced := sync (CloudSync := C0) ctx (executor_Input e)
                                  (cloudProviderName e) (cloudProviderCfg e)
                                  (fst (fst task)) (fst (fst service)) (snd service) in
                  (Return (if fst synced then StageStatus_STAGE_SUCCESS
                           else StageStatus_STAGE_FAILURE), snd synced)
                else (Return StageStatus_STAGE_FAILURE, snd service)
              else (Return StageStatus_STAGE_FAILURE, snd task)).
  { intros C0. unfold ensureSync, bind, ret. rewrite Hcfg. cbv zeta.
    destruct (loadTaskDefinition _ _ _ w) as [[td [|]] w1]; cbn [fst snd negb];
      [|reflexivity].
    destruct (loadServiceDefinition _ _ _ w1) as [[sd [|]] w2]; cbn [fst snd negb];
      [|reflexivity].
    destruct (sync _ _ _ _ _ _ w2) as [[|] w3]; reflexivity. }
  split; [|split].
  - intros Htask C'. rewrite Hrun. cbv zeta. now rewrite Htask.
  - intros Htask Hservice C'. rewrite Hrun. cbv zeta. now rewrite Htask, Hservice.
  - intros Htask Hservice. rewrite Hrun. cbv zeta. now rewrite Htask, Hservice.
Qed.

(** X19.  [Execute] panics exactly when [GetReadOnly] reports no error and
    gives no deploy source, or one without its configuration: both are
    read through after the test of the error alone.  The panic comes
    before anything is logged or looked up, with the source, such as it
    is, stored in the executor.  In every other case a status is
    returned: [ensureSync], which reads the ECS spec through a pointer, is
    only reached with the spec set. *)
Theorem Execute_panics_exactly (e : deployExecutor) (sig : StopSignal) (w : World) :
  let prepared := GetReadOnly (TargetDSP (executor_Input e)) (sig_Context sig) w in
  ((exists msg, fst (fst (Execute e sig w)) = Panic msg) <->
   snd (fst prepared) = None /\
   (fst (fst prepared) = None \/
    exists ds, fst (fst prepared) = Some ds /\ DeploymentConfig ds = None)) /\
  (sourceOrError (fst prepared) = false ->
   Execute e sig w
   = ((Panic nilDereference, set_deploySource (fst (fst prepared)) e), snd prepared)) /\
  (sourceOrError (fst prepared) = true ->
   exists status, fst (fst (Execute e sig w)) = Return status).
Proof.
  cbv zeta.
  assert (Hgood : sourceOrError
                    (fst (GetReadOnly (TargetDSP (executor_Input e)) (sig_Context sig) w))
                  = true ->
                  exists status, fst (fst (Execute e sig w)) = Return status).
  { unfold Execute, bind, ret, Errorf, sourceOrError,
      set_cloudProvider, set_deployCfg, set_deploySource.
    destruct (GetReadOnly _ _ w) as [[[ds|] [err|]] w1]; cbn [fst snd];
      try (intros _; eexists; reflexivity); try discriminate.
    destruct (DeploymentConfig ds) as [config|]; [intros _|discriminate].
    cbn [deployCfg executor_Input].
    destruct (ECSDeploymentSpec_of config) as [cfg|] eqn:Hcfg; [|eexists; reflexivity].
    destruct (findCloudProvider _ w1) as [[[name pcfg] [|]] w2]; cbn [negb];
      [|eexists; reflexivity].
    cbn [executor_Input].
    destruct (Name (Stage (executor_Input e)) =? StageECSSync)%string;
      [|eexists; reflexivity].
    unfold ensureSync, bind, ret. cbn [deployCfg].
    destruct (loadTaskDefinition _ _ _ w2) as [[td [|]] w3]; cbn [negb];
      [|eexists; reflexivity].
    destruct (loadServiceDefinition _ _ _ w3) as [[sd [|]] w4]; cbn [negb];
      [|eexists; reflexivity].
    destruct (sync _ _ _ _ _ _ w4) as [[|] w5]; eexists; reflexivity. }
  assert (Hbad : sourceOrError
                   (fst (GetReadOnly (TargetDSP (executor_Input e)) (sig_Context sig) w))
                 = false ->
                 Execute e sig w
                 = ((Panic nilDereference,
                     set_deploySource
                       (fst (fst (GetReadOnly (TargetDSP (executor_Input e))
                                    (sig_Context sig) w))) e),
                    snd (GetReadOnly (TargetDSP (executor_Input e)) (sig_Context sig) w))).
  { unfold Execute, bind, ret, sourceOrError.
    destruct (GetReadOnly _ _ w) as [[[ds|] [err|]] w1]; cbn [fst snd];
      try discriminate; [|reflexivity].
    destruct (DeploymentConfig ds); [discriminate | reflexivity]. }
  split; [|split; assumption].
  destruct (sourceOrError
              (fst (GetReadOnly (TargetDSP (executor_Input e)) (sig_Context sig) w)))
    eqn:Hkept.
  - destruct (Hgood eq_refl) as [status Hstatus]. split.
    + intros [msg Hmsg]. congruence.
    + intros [Herr Hsource]. exfalso. revert Hkept. unfold sourceOrError.
      rewrite Herr. destruct Hsource as [->|(ds & -> & ->)]; discriminate.
  - split.
    + intros _. revert Hkept. unfold sourceOrError.
      destruct (GetReadOnly _ _ w) as [[[ds|] [err|]] w1]; cbn [fst snd];
        try discriminate.
      * destruct (DeploymentConfig ds) eqn:Hconfig; [discriminate|]. intros _.
        split; [reflexivity|]. right. exists ds. split; [reflexivity | exact Hconfig].
      * intros _. split; [reflexivity|]. left. reflexivity.
    + intros _. exists nilDereference. rewrite (Hbad eq_refl). reflexivity.
Qed.

(** X20.  The three failures of the preparation in [Execute], which fail
    the stage whatever its name, ECSSync included, and whatever [sync] is.
    Without a deploy source the executor is left as it was and the log gets
    "Failed to prepare target deploy source data (ERROR)"; with a deploy
    source that has no ECS spec the log gets "Malformed deployment
    configuration: missing ECSDeploymentSpec"; when the cloud provider is
    not found [Execute] adds no line of its own. *)
Theorem Execute_preparation_failures
    (e : deployExecutor) (sig : StopSignal) (w : World) (C' : @CloudSync T) :
  (forall ds err w1,
     GetReadOnly (TargetDSP (executor_Input e)) (sig_Context sig) w
     = ((ds, Some err), w1) ->
     Execute (C := C') e sig w
     = ((Return StageStatus_STAGE_FAILURE, e),
        {| logs := logs w1 ++ ["Failed to prepare target deploy source data ("
                               ++ err ++ ")"];
           surroundings := surroundings w1 |})) /\
  (forall ds config w1,
     GetReadOnly (TargetDSP (executor_Input e)) (sig_Context sig) w
     = ((Some ds, None), w1) ->
     DeploymentConfig ds = Some config ->
     ECSDeploymentSpec_of config = None ->
     fst (fst (Execute (C := C') e sig w)) = Return StageStatus_STAGE_FAILURE /\
     snd (Execute (C := C') e sig w)
     = {| logs := logs w1
                  ++ ["Malformed deployment configuration: missing ECSDeploymentSpec"];
          surroundings := surroundings w1 |}) /\
  (forall ds config w1 name cfg w2,
     GetReadOnly (TargetDSP (executor_Input e)) (sig_Context sig) w
     = ((Some ds, None), w1) ->
     DeploymentConfig ds = Some config ->
     ECSDeploymentSpec_of config <> None ->
     findCloudProvider (executor_Input e) w1 = ((name, cfg, false), w2) ->
     fst (fst (Execute (C := C') e sig w)) = Return StageStatus_STAGE_FAILURE /\
     snd (Execute (C := C') e sig w) = w2).
Proof.
  unfold Execute, bind, ret, Errorf, set_cloudProvider, set_deployCfg, set_deploySource.
  split; [|split].
  - intros ds err w1 Hds. rewrite Hds. reflexivity.
  - intros ds config w1 Hds Hconfig Hspec. rewrite Hds, Hconfig.
    cbn [deployCfg executor_Input]. rewrite Hspec. split; reflexivity.
  - intros ds config w1 name cfg w2 Hds Hconfig Hspec Hfind. rewrite Hds, Hconfig.
    cbn [deployCfg executor_Input].
    destruct (ECSDeploymentSpec_of config); [|now elim Hspec].
    rewrite Hfind. split; reflexivity.
Qed.

(** X21.  The stage ECSSync after a successful preparation: the status of
    [ensureSync] does not leave [Execute] as it is but through
    [executor.DetermineStageStatus], with the signal and the status the
    stage had before; the executor that is left holds the deploy source,
    its ECS spec and the cloud provider found. *)
Theorem Execute_ECSSync
    (e : deployExecutor) (sig : StopSignal) (w w1 w2 w3 : World)
    (ds : DeploySource) (config : Config) (cfg : ECSDeploymentSpec)
    (name : string) (pcfg : option CloudProviderECSConfig) (status : StageStatus) :
  Name (Stage (executor_Input e)) = StageECSSync ->
  GetReadOnly (TargetDSP (executor_Input e)) (sig_Context sig) w = ((Some ds, None), w1) ->
  DeploymentConfig ds = Some config ->
  ECSDeploymentSpec_of config = Some cfg ->
  findCloudProvider (executor_Input e) w1 = ((name, pcfg, true), w2) ->
  let prepared := {| executor_Input := executor_Input e;
                     deploySource := Some ds;
                     deployCfg := Some cfg;
                     cloudProviderName := name;
                     cloudProviderCfg := pcfg |} in
  ensureSync prepared (sig_Context sig) w2 = (Return status, w3) ->
  Execute e sig w
  = ((Return (DetermineStageStatus (sig_Signal sig)
                (Status (Stage (executor_Input e))) status),
      prepared), w3).
Proof.
  intros Hname Hds Hconfig Hspec Hfind prepared Hsync. subst prepared.
  unfold Execute, bind, ret, set_cloudProvider, set_deployCfg, set_deploySource.
  rewrite Hds, Hconfig. cbn [deployCfg executor_Input]. rewrite Hspec, Hfind.
  cbn [negb executor_Input deployCfg deploySource]. rewrite Hname, String.eqb_refl.
  rewrite Hsync. reflexivity.
Qed.

End ECSMore.

Lemma ensureSync_outcome_witness :
  let e := {| ECS.executor_Input := ECS.executor_Input
                                      (Sample.ecsExecutor "ECS_SYNC" (true, true) "ecs-dev");
              ECS.deploySource := None;
              ECS.deployCfg := Some Sample.ecsSpec;
              ECS.cloudProviderName := "ecs-dev";
              ECS.cloudProviderCfg := Some tt |} in
  ECS.ensureSync e tt Sample.emptyLog
  = (Return model.StageStatus_STAGE_SUCCESS,
     {| ECS.logs := ["synced to ecs-dev"]; ECS.surroundings := tt |}).
Proof.
  intros e.
  destruct (ensureSync_outcome (C := Sample.ecsSync) e Sample.ecsSpec tt Sample.emptyLog
              eq_refl) as (_ & _ & Hboth).
  exact (Hboth eq_refl eq_refl).
Defined.

Lemma Execute_panics_exactly_witness :
  ECS.Execute (H := SampleMore.carelessHelpers)
    (Sample.ecsExecutor "ECS_SYNC" (false, true) "ecs-dev") Sample.ecsSignal Sample.emptyLog
  = ((Panic ECS.nilDereference, Sample.ecsExecutor "ECS_SYNC" (false, true) "ecs-dev"),
     Sample.emptyLog) /\
  fst (fst (ECS.Execute (H := SampleMore.carelessHelpers)
              (Sample.ecsExecutor "ECS_PROMOTE" (true, true) "ecs-dev")
              Sample.ecsSignal Sample.emptyLog))
  = Panic ECS.nilDereference /\
  exists status,
    fst (fst (ECS.Execute (H := Sample.ecsHelpers)
                (Sample.ecsExecutor "ECS_SYNC" (true, true) "ecs-dev")
                Sample.ecsSignal Sample.emptyLog))
    = Return status.
Proof.
  split; [|split].
  - destruct (Execute_panics_exactly (H := SampleMore.carelessHelpers) (C := Sample.ecsSync)
                (Sample.ecsExecutor "ECS_SYNC" (false, true) "ecs-dev")
                Sample.ecsSignal Sample.emptyLog) as (_ & Hbad & _).
    exact (Hbad eq_refl).
  - destruct (Execute_panics_exactly (H := SampleMore.carelessHelpers) (C := Sample.ecsSync)
                (Sample.ecsExecutor "ECS_PROMOTE" (true, true) "ecs-dev")
                Sample.ecsSignal Sample.emptyLog) as (_ & Hbad & _).
    rewrite (Hbad eq_refl). reflexivity.
  - destruct (Execute_panics_exactly (H := Sample.ecsHelpers) (C := Sample.ecsSync)
                (Sample.ecsExecutor "ECS_SYNC" (true, true) "ecs-dev")
                Sample.ecsSignal Sample.emptyLog) as (_ & _ & Hgood).
    exact (Hgood eq_refl).
Defined.

Lemma Execute_preparation_failures_witness :
  ECS.Execute (Sample.ecsExecutor "ECS_SYNC" (false, true) "ecs-dev")
              Sample.ecsSignal Sample.emptyLog
  = ((Return model.StageStatus_STAGE_FAILURE,
      Sample.ecsExecutor "ECS_SYNC" (false, true) "ecs-dev"),
     {| ECS.logs := ["Failed to prepare target deploy source data (repository is not reachable)"];
        ECS.surroundings := tt |}) /\
  ECS.logs (snd (ECS.Execute (Sample.ecsExecutor "ECS_SYNC" (true, false) "ecs-dev")
                             Sample.ecsSignal Sample.emptyLog))
  = ["Malformed deployment configuration: missing ECSDeploymentSpec"] /\
  snd (ECS.Execute (Sample.ecsExecutor "ECS_SYNC" (true, true) "ecs-prod")
                   Sample.ecsSignal Sample.emptyLog)
  = Sample.emptyLog.
Proof.
  split; [|split].
  - destruct (Execute_preparation_failures
                (Sample.ecsExecutor "ECS_SYNC" (false, true) "ecs-dev")
                Sample.ecsSignal Sample.emptyLog Sample.ecsSync) as (Hsource & _).
    exact (Hsource _ _ _ eq_refl).
  - destruct (Execute_preparation_failures
                (Sample.ecsExecutor "ECS_SYNC" (true, false) "ecs-dev")
                Sample.ecsSignal Sample.emptyLog Sample.ecsSync) as (_ & Hspec & _).
    destruct (Hspec _ _ _ eq_refl eq_refl eq_refl) as [_ Hlog]. now rewrite Hlog.
  - destruct (Execute_preparation_failures
                (Sample.ecsExecutor "ECS_SYNC" (true, true) "ecs-prod")
                Sample.ecsSignal Sample.emptyLog Sample.ecsSync) as (_ & _ & Hprovider).
    destruct (Hprovider _ _ _ _ _ _ eq_refl eq_refl ltac:(discriminate) eq_refl)
      as [_ Hworld].
    exact Hworld.
Defined.

Lemma Execute_ECSSync_witness :
  fst (fst (ECS.Execute (Sample.ecsExecutor "ECS_SYNC" (true, true) "ecs-dev")
                        Sample.ecsSignal Sample.emptyLog))
  = Return model.StageStatus_STAGE_SUCCESS.
Proof.
  rewrite (Execute_ECSSync (T := Sample.ecsTypes) (N := Sample.names)
             (H := Sample.ecsHelpers) (C := Sample.ecsSync)
             (Sample.ecsExecutor "ECS_SYNC" (true, true) "ecs-dev")
             Sample.ecsSignal Sample.emptyLog Sample.emptyLog Sample.emptyLog
             (@ECS.Build_World Sample.ecsTypes ["synced to ecs-dev"] tt)
             (@ECS.Build_DeploySource Sample.ecsTypes
                (Some {| ECS.ECSDeploymentSpec_of := Some Sample.ecsSpec |}) tt)
             {| ECS.ECSDeploymentSpec_of := Some Sample.ecsSpec |}
             Sample.ecsSpec "ecs-dev" (Some tt) model.StageStatus_STAGE_SUCCESS
             eq_refl eq_refl eq_refl eq_refl eq_refl eq_refl).
  reflexivity.
Defined.

(** ** The commands: required flags, the API client, the decrypter *)

Lemma In_insertFlag (f g : cobra.Flag) (l : list cobra.Flag) :
  In g (cobra.insertFlag f l) <-> g = f \/ In g l.
Proof.
  induction l as [|h rest IH]; cbn [cobra.insertFlag].
  - cbn [In]. split; intros [H|H]; auto.
  - destruct (cobra.Name f <=? cobra.Name h)%string; cbn [In].
    + split; intros [H|H]; auto.
    + rewrite IH. tauto.
Qed.

Lemma In_VisitAll (cmd : cobra.Command) (f : cobra.Flag) :
  In f (cobra.VisitAll cmd) <-> In f (cobra.Flags cmd).
Proof.
  unfold cobra.VisitAll. induction (cobra.Flags cmd) as [|g rest IH]; cbn [fold_right].
  - reflexivity.
  - rewrite In_insertFlag, IH. cbn [In]. split; intros [H|H]; auto.
Qed.

Lemma ValidateRequiredFlags_None (cmd : cobra.Command) (given : list string) :
  cobra.ValidateRequiredFlags cmd given = None <->
  forall f, In f (cobra.Flags cmd) -> cobra.Required f = true -> In (cobra.Name f) given.
Proof.
  unfold cobra.ValidateRequiredFlags, cobra.missingRequired.
  set (missing := fun f => cobra.Required f
                           && negb (existsb (String.eqb (cobra.Name f)) given)).
  assert (Hnil : map cobra.Name (filter missing (cobra.VisitAll cmd)) = [] <->
                 forall f, In f (cobra.Flags cmd) -> missing f = false).
  { split.
    - intros H f Hf. apply map_eq_nil in H.
      apply (proj1 (filter_nil_iff missing (cobra.VisitAll cmd)) H).
      apply In_VisitAll, Hf.
    - intros H.
      assert (Hnone : filter missing (cobra.VisitAll cmd) = []).
      { apply filter_nil_iff. intros f Hf. apply H, In_VisitAll, Hf. }
      rewrite Hnone. reflexivity. }
  assert (Hgiven : forall f, missing f = false <->
                             (cobra.Required f = true -> In (cobra.Name f) given)).
  { intros f. unfold missing. destruct (cobra.Required f); cbn [andb].
    - rewrite negb_false_iff, existsb_exists. split.
      + intros (x & Hin & Hx) _. apply String.eqb_eq in Hx. now subst x.
      + intros Hin. exists (cobra.Name f). split; [now apply Hin | apply String.eqb_refl].
    - split; [discriminate | reflexivity]. }
  destruct (map cobra.Name (filter missing (cobra.VisitAll cmd))) as [|n names].
  - split; [intros _|reflexivity]. intros f Hf. apply Hgiven, (proj1 Hnil eq_refl f Hf).
  - split; [discriminate|]. intros Hall.
    assert (Hcontra : n :: names = []) by (apply Hnil; intros f Hf; apply Hgiven, Hall, Hf).
    discriminate.
Qed.

(** X22.  The piped command accepts a command line, as far as required
    flags go, exactly when [--config-file] is set on it, and the default of
    [--tools-dir] is [path.Join] of the home directory, ".piped" and
    "tools"; when the home directory cannot be detected the constructor
    panics with the error in its message.  The ops command accepts every
    command line. *)
Theorem required_flags (path_Join : list string -> string) (home : string)
    (given : list string) :
  (exists p cmd,
     Cli.NewCommand path_Join (home, None) = Return (p, cmd) /\
     (cobra.ValidateRequiredFlags cmd given = None <-> In "config-file" given) /\
     option_map cobra.DefValue (cobra.Lookup cmd "tools-dir")
     = Some (cobra.StringValue (path_Join [home; ".piped"; "tools"]))) /\
  (forall err,
     Cli.NewCommand path_Join (home, Some err)
     = Panic ("failed to detect the current user's home directory: " ++ err)) /\
  cobra.ValidateRequiredFlags (snd Cli.NewOpsCommand) given = None.
Proof.
  split; [|split; [reflexivity|]].
  - eexists. eexists. split; [reflexivity|]. split; [|reflexivity].
    rewrite ValidateRequiredFlags_None. split.
    + intros Hall. apply (Hall {| cobra.Name := "config-file";
                                   cobra.Usage := "The path to the configuration file.";
                                   cobra.DefValue := cobra.StringValue "";
                                   cobra.Required := true |});
        [left; reflexivity | reflexivity].
    + intros Hin f Hf Hreq. vm_compute in Hf.
      repeat (destruct Hf as [<-|Hf]; [first [exact Hin | discriminate Hreq]|]).
      contradiction.
  - apply ValidateRequiredFlags_None. intros f Hf Hreq. vm_compute in Hf.
    repeat (destruct Hf as [<-|Hf]; [discriminate Hreq|]).
    contradiction.
Qed.

Section PipedMore.
Import Piped.

Context `{E : Externals} `{S : SealedSecretTypes}.

(** X23.  [createAPIClient].  With the fake client nothing is read and
    nothing is dialled.  Otherwise, when the key file cannot be read, that
    error is returned and nothing is dialled.  When it can, the control
    plane is dialled with a timeout of 15 seconds and three options:
    blocking, the credentials of the token made from the project, the piped
    and the key, which require transport security exactly when [insecure]
    is off, and one option on the transport: [WithInsecure] when
    [insecure] is on, whatever the certificate file; else [WithTLS] of the
    certificate file when one is given, else the default TLS credentials.
    The result is the client, or the error of the dialling. *)
Theorem createAPIClient_behaviour
    (p : Cli.piped) (address projectID pipedID pipedKeyFile : string) (w : World) :
  (Cli.useFakeAPIClient p = true ->
   createAPIClient p address projectID pipedID pipedKeyFile w
   = (inl pipedclientfake_NewClient, w)) /\
  (Cli.useFakeAPIClient p = false ->
   forall key err w1,
     ReadFile pipedKeyFile w = ((key, Some err), w1) ->
     createAPIClient p address projectID pipedID pipedKeyFile w
     = (inr err, snd (Logger_Error "failed to read piped key file" err w1))) /\
  (Cli.useFakeAPIClient p = false ->
   forall key w1,
     ReadFile pipedKeyFile w = ((key, None), w1) ->
     exists transport,
       isTransportOption transport = true /\
       (transport = WithInsecure <-> Cli.insecure p = true) /\
       (transport = WithTransportCredentials <->
        Cli.insecure p = false /\ Cli.certFile p = "") /\
       (transport = WithTLS (Cli.certFile p) <->
        Cli.insecure p = false /\ Cli.certFile p <> "") /\
       let options :=
         [WithBlock;
          WithPerRPCCredentials
            (MakePipedToken projectID pipedID (string_of_bytes key))
            (negb (Cli.insecure p));
          transport] in
       let dialled := NewClient (15 * time.Second) address options w1 in
       createAPIClient p address projectID pipedID pipedKeyFile w
       = match fst dialled with
         | inl client => (inl client, snd dialled)
         | inr err =>
             (inr err, snd (Logger_Error "failed to create api client" err (snd dialled)))
         end).
Proof.
  unfold createAPIClient, bind, ret. split; [|split].
  - intros ->. reflexivity.
  - intros -> key err w1 Hread. rewrite Hread.
    destruct (Logger_Error _ err w1). reflexivity.
  - intros -> key w1 Hread. rewrite Hread.
    destruct (Cli.insecure p) eqn:Hi; cbn [negb].
    + exists WithInsecure. split; [reflexivity|].
      split; [split; reflexivity|].
      split; [split; [discriminate | intros [Hf _]; discriminate]|].
      split; [split; [discriminate | intros [Hf _]; discriminate]|].
      cbv zeta. cbn [app].
      destruct (NewClient _ _ _ w1) as [[client|err] w2]; cbn [fst snd];
        [reflexivity|]. destruct (Logger_Error _ err w2). reflexivity.
    + destruct (String.eqb_spec (Cli.certFile p) "") as [Hc|Hc]; cbn [negb].
      * exists WithTransportCredentials. split; [reflexivity|].
        split; [split; discriminate|].
        split; [split; [intros _; split; [reflexivity | exact Hc] | reflexivity]|].
        split; [split; [discriminate | intros [_ Hne]; now elim Hne]|].
        cbv zeta. cbn [app].
        destruct (NewClient _ _ _ w1) as [[client|err] w2]; cbn [fst snd];
          [reflexivity|]. destruct (Logger_Error _ err w2). reflexivity.
      * exists (WithTLS (Cli.certFile p)). split; [reflexivity|].
        split; [split; discriminate|].
        split; [split; [discriminate | intros [_ He]; now elim Hc]|].
        split; [split; [intros _; split; [reflexivity | exact Hc] | reflexivity]|].
        cbv zeta. cbn [app].
        destruct (NewClient _ _ _ w1) as [[client|err] w2]; cbn [fst snd];
          [reflexivity|]. destruct (Logger_Error _ err w2). reflexivity.
Qed.

(** X24.  [initializeSealedSecretDecrypter], the four constants of the
    type being distinct.  A decrypter is returned exactly when the
    management is configured with the type SEALING_KEY, a private key file
    is named and [NewHybridDecrypter] makes a decrypter of it; an error
    never comes with a decrypter.  Neither is returned exactly when nothing
    is configured or the type is NONE.  Unless the type is SEALING_KEY with
    a private key file named, no key is read: the world stays as it is. *)
Theorem initializeSealedSecretDecrypter_outcome
    (ssm : option SealedSecretManagement) (w : World) :
  NoDup [SealedSecretManagementNone; SealedSecretManagementSealingKey;
         SealedSecretManagementGCPKMS; SealedSecretManagementAWSKMS] ->
  let r := initializeSealedSecretDecrypter ssm w in
  let sealing := exists cfg,
      ssm = Some cfg /\ ssm_Type cfg = SealedSecretManagementSealingKey /\
      PrivateKeyFile (ssm_SealingKeyConfig cfg) <> "" in
  (forall d, fst (fst r) = Some d <->
             exists cfg, ssm = Some cfg /\
                         ssm_Type cfg = SealedSecretManagementSealingKey /\
                         PrivateKeyFile (ssm_SealingKeyConfig cfg) <> "" /\
                         fst (NewHybridDecrypter
                                (PrivateKeyFile (ssm_SealingKeyConfig cfg)) w) = inl d) /\
  (fst (fst r) <> None -> snd (fst r) = None) /\
  (fst r = (None, None) <->
   ssm = None \/ exists cfg, ssm = Some cfg /\ ssm_Type cfg = SealedSecretManagementNone) /\
  (~ sealing -> snd r = w) /\
  (forall cfg, ssm = Some cfg ->
     ssm_Type cfg = SealedSecretManagementGCPKMS \/
     ssm_Type cfg = SealedSecretManagementAWSKMS ->
     fst r = (None, Some ("type " ++ Quote (ssm_Type cfg) ++ " is not implemented yet"))).
Proof.
  intros Hdistinct. cbv zeta.
  assert (Hns : SealedSecretManagementNone <> SealedSecretManagementSealingKey /\
                SealedSecretManagementNone <> SealedSecretManagementGCPKMS /\
                SealedSecretManagementNone <> SealedSecretManagementAWSKMS /\
                SealedSecretManagementSealingKey <> SealedSecretManagementGCPKMS /\
                SealedSecretManagementSealingKey <> SealedSecretManagementAWSKMS).
  { inversion Hdistinct as [|? ? H1 Hd1]; subst.
    inversion Hd1 as [|? ? H2 Hd2]; subst.
    cbn [In] in H1, H2. repeat split; intros Heq; rewrite ?Heq in *; tauto. }
  destruct Hns as (Hn1 & Hn2 & Hn3 & Hs1 & Hs2).
  unfold initializeSealedSecretDecrypter, bind, ret.
  destruct ssm as [cfg|].
  2: { cbn [fst snd]. split; [|split; [|split; [|split]]].
       - intros d. split; [discriminate|]. intros (cfg & Hc & _). discriminate.
       - intros Hd. now elim Hd.
       - split; [intros _; left; reflexivity | reflexivity].
       - reflexivity.
       - intros cfg Hc. discriminate. }
  assert (Hsome : forall c, Some cfg = Some c -> c = cfg) by (intros c Hc; now injection Hc).
  destruct (String.eqb_spec (ssm_Type cfg) SealedSecretManagementNone) as [Ht|Ht].
  { cbn [fst snd]. split; [|split; [|split; [|split]]].
    - intros d. split; [discriminate|].
      intros (c & Hc & Hk & _). apply Hsome in Hc. subst c. congruence.
    - intros Hd. now elim Hd.
    - split; [intros _|reflexivity]. right. exists cfg. split; [reflexivity | exact Ht].
    - reflexivity.
    - intros c Hc [Hk|Hk]; apply Hsome in Hc; subst c; congruence. }
  destruct (String.eqb_spec (ssm_Type cfg) SealedSecretManagementSealingKey) as [Hk|Hk].
  { destruct (String.eqb_spec (PrivateKeyFile (ssm_SealingKeyConfig cfg)) "") as [Hf|Hf].
    - cbn [fst snd]. split; [|split; [|split; [|split]]].
      + intros d. split; [discriminate|].
        intros (c & Hc & _ & Hne & _). apply Hsome in Hc. subst c. contradiction.
      + intros Hd. now elim Hd.
      + split; [discriminate|].
        intros [Hc|(c & Hc & Hc')]; [discriminate|]. apply Hsome in Hc. subst c. congruence.
      + reflexivity.
      + intros c Hc [Hg|Hg]; apply Hsome in Hc; subst c; congruence.
    - destruct (NewHybridDecrypter _ w) as [[d0|err] w1] eqn:Hnew; cbn [fst snd].
      + split; [|split; [|split; [|split]]].
        * intros d. split.
          -- intros Hd. injection Hd as <-. exists cfg.
             repeat split; try assumption. now rewrite Hnew.
          -- intros (c & Hc & _ & _ & Hd). apply Hsome in Hc. subst c.
             rewrite Hnew in Hd. cbn [fst] in Hd. now injection Hd as <-.
        * reflexivity.
        * split; [discriminate|].
          intros [Hc|(c & Hc & Hc')]; [discriminate|]. apply Hsome in Hc. subst c.
          congruence.
        * intros Hns. elim Hns. exists cfg. repeat split; assumption.
        * intros c Hc [Hg|Hg]; apply Hsome in Hc; subst c; congruence.
      + split; [|split; [|split; [|split]]].
        * intros d. split; [discriminate|].
          intros (c & Hc & _ & _ & Hd). apply Hsome in Hc. subst c.
          rewrite Hnew in Hd. discriminate.
        * intros Hd. now elim Hd.
        * split; [discriminate|].
          intros [Hc|(c & Hc & Hc')]; [discriminate|]. apply Hsome in Hc. subst c.
          congruence.
        * intros Hns. elim Hns. exists cfg. repeat split; assumption.
        * intros c Hc [Hg|Hg]; apply Hsome in Hc; subst c; congruence. }
  destruct (String.eqb_spec (ssm_Type cfg) SealedSecretManagementGCPKMS) as [Hg|Hg].
  { cbn [fst snd]. split; [|split; [|split; [|split]]].
    - intros d. split; [discriminate|].
      intros (c & Hc & Hc' & _). apply Hsome in Hc. subst c. contradiction.
    - intros Hd. now elim Hd.
    - split; [discriminate|].
      intros [Hc|(c & Hc & Hc')]; [discriminate|]. apply Hsome in Hc. subst c.
      contradiction.
    - reflexivity.
    - intros c Hc _. apply Hsome in Hc. subst c. reflexivity. }
  destruct (String.eqb_spec (ssm_Type cfg) SealedSecretManagementAWSKMS) as [Ha|Ha].
  { cbn [fst snd]. split; [|split; [|split; [|split]]].
    - intros d. split; [discriminate|].
      intros (c & Hc & Hc' & _). apply Hsome in Hc. subst c. contradiction.
    - intros Hd. now elim Hd.
    - split; [discriminate|].
      intros [Hc|(c & Hc & Hc')]; [discriminate|]. apply Hsome in Hc. subst c.
      contradiction.
    - reflexivity.
    - intros c Hc _. apply Hsome in Hc. subst c. reflexivity. }
  cbn [fst snd]. split; [|split; [|split; [|split]]].
  - intros d. split; [discriminate|].
    intros (c & Hc & Hc' & _). apply Hsome in Hc. subst c. contradiction.
  - intros Hd. now elim Hd.
  - split; [discriminate|].
    intros [Hc|(c & Hc & Hc')]; [discriminate|]. apply Hsome in Hc. subst c.
    contradiction.
  - reflexivity.
  - intros c Hc [Hc'|Hc']; apply Hsome in Hc; subst c; contradiction.
Qed.

End PipedMore.

Lemma createAPIClient_behaviour_witness :
  fst (Piped.createAPIClient (SampleMore.pipedFlags true "/etc/piped/ca.pem")
         "control-plane:443" "project" "piped-1" "/etc/piped/key" SampleMore.keyFiles)
  = inl ("control-plane:443",
         [Piped.WithBlock;
          Piped.WithPerRPCCredentials "project,piped-1,k1" false;
          Piped.WithInsecure]).
Proof.
  destruct (createAPIClient_behaviour (E := SampleMore.pipedExternals)
              (SampleMore.pipedFlags true "/etc/piped/ca.pem")
              "control-plane:443" "project" "piped-1" "/etc/piped/key"
              SampleMore.keyFiles) as (_ & _ & Hdial).
  destruct (Hdial eq_refl _ _ eq_refl) as (transport & _ & Hinsecure & _ & _ & Hrun).
  rewrite (proj2 Hinsecure eq_refl) in Hrun. cbv zeta in Hrun.
  rewrite Hrun. reflexivity.
Defined.

Lemma initializeSealedSecretDecrypter_outcome_witness :
  let ssm := {| Piped.ssm_Type := "SEALING_KEY";
                Piped.ssm_SealingKeyConfig :=
                  {| Piped.PrivateKeyFile := "/etc/piped/private.pem";
                     Piped.PublicKeyFile := "/etc/piped/public.pem" |} |} in
  fst (fst (Piped.initializeSealedSecretDecrypter (Some ssm) SampleMore.keyFiles))
  = Some "/etc/piped/private.pem" /\
  snd (Piped.initializeSealedSecretDecrypter
         (Some {| Piped.ssm_Type := "GCP_KMS";
                  Piped.ssm_SealingKeyConfig := Piped.ssm_SealingKeyConfig ssm |})
         SampleMore.keyFiles)
  = SampleMore.keyFiles.
Proof.
  intros ssm.
  assert (Hdistinct : NoDup [Piped.SealedSecretManagementNone;
                             Piped.SealedSecretManagementSealingKey;
                             Piped.SealedSecretManagementGCPKMS;
                             Piped.SealedSecretManagementAWSKMS]).
  { repeat constructor; cbn [In]; intuition discriminate. }
  split.
  - destruct (initializeSealedSecretDecrypter_outcome (E := SampleMore.pipedExternals)
                (Some ssm) SampleMore.keyFiles Hdistinct) as (Hdecrypter & _).
    apply Hdecrypter. exists ssm. repeat split. discriminate.
  - destruct (initializeSealedSecretDecrypter_outcome (E := SampleMore.pipedExternals)
                (Some {| Piped.ssm_Type := "GCP_KMS";
                         Piped.ssm_SealingKeyConfig := Piped.ssm_SealingKeyConfig ssm |})
                SampleMore.keyFiles Hdistinct) as (_ & _ & _ & Hworld & _).
    apply Hworld. intros (cfg & Hcfg & Htype & _). injection Hcfg as <-. discriminate.
Defined.
